(** * puppet-summary: the store, the ingestion path and the retention sweeps

    A shallow embedding of [db.go] and of the submission handlers of
    [cmd_serve.go].  The relational store is three tables of rows, the
    filesystem is a finite map from paths to nodes, and every call that
    leaves the process (an SQL statement, a filesystem call) is a step of a
    small state monad over a [World].  A step consumes one [Event] of the
    world's schedule, which says whether the call goes through, fails, or is
    preceded by a write committed by another connection. *)

From stdpp Require Import base numbers list strings sorting pretty gmap.
From Stdlib Require Import Init.Byte.

Local Open Scope string_scope.
Local Open Scope list_scope.
Local Open Scope stdpp_scope.
Local Open Scope Z_scope.

(** ** Rows of the three tables (schema of [SetupDB]) *)

Record Host := mkHost {
  host_id      : Z;
  h_fqdn       : string;
  h_role       : string;
  h_branch     : string;
  h_build_time : Z;
  h_state      : string;
  last_seen    : Z;
  h_runtime    : string;
  pinned       : Z
}.

Record Report := mkReport {
  r_id         : Z;
  r_host_id    : Z;
  r_fqdn       : string;
  r_state      : string;
  yaml_file    : string;
  r_runtime    : string;
  executed_at  : Z;
  r_role       : string;
  r_branch     : string;
  r_build_time : Z;
  r_total      : Z;
  r_skipped    : Z;
  r_failed     : Z;
  r_changed    : Z
}.

Record History := mkHistory {
  hi_id     : Z;
  date      : string;
  failed    : Z;
  changed   : Z;
  unchanged : Z
}.

(** The store: rows in insertion order, and the last value handed out by
    each AUTOINCREMENT key. *)
Record Store := mkStore {
  hosts       : list Host;
  reports     : list Report;
  history     : list History;
  seq_hosts   : Z;
  seq_reports : Z;
  seq_history : Z
}.

Definition empty_store : Store := mkStore [] [] [] 0 0 0.

Definition set_hosts (hs : list Host) (s : Store) : Store :=
  mkStore hs (reports s) (history s) (seq_hosts s) (seq_reports s) (seq_history s).

Definition set_history (hi : list History) (s : Store) : Store :=
  mkStore (hosts s) (reports s) hi (seq_hosts s) (seq_reports s) (seq_history s).

(** Modelled from the spec: the [PuppetReport] struct is declared with the
    report parser, outside the files at hand; these are the fields that
    [addDB] and the handlers read, with the types of the columns they are
    stored in. *)
Record PuppetReport := mkPuppetReport {
  Fqdn      : string;
  State     : string;
  Runtime   : string;
  Failed    : Z;
  Changed   : Z;
  Total     : Z;
  Skipped   : Z;
  Role      : string;
  Branch    : string;
  BuildTime : Z;
  Hash      : string
}.

(** ** Go errors *)

Inductive err :=
| ErrNoRows                (* sql.ErrNoRows *)
| ErrDriver                (* a driver or I/O failure reported by the callee *)
| ErrNotExist              (* no such file or directory *)
| ErrConstraint            (* a UNIQUE constraint rejected the statement *)
| ErrMsg (msg : string).   (* errors.New(msg) *)

(** A Go [error] value: [None] is [nil]. *)
Abbreviation error := (option err).

Inductive result (A : Type) :=
| Ok (a : A)
| Err (e : err).
Arguments Ok {A} a.
Arguments Err {A} e.

(** ** The filesystem *)

Inductive Node :=
| File (content : list byte)
| Dir.

(** ** The world *)

Inductive Event :=
| EvOk                               (* the call goes through *)
| EvFail                             (* the call reports a failure *)
| EvRace (other : Store -> Store).   (* another connection commits first *)

Record World := mkWorld {
  db_open : bool;                 (* [db != nil] *)
  store   : Store;                (* the committed store, what readers see *)
  fs      : gmap string Node;
  clock   : Z;                    (* [time.Now().Unix()] *)
  sched   : list Event;
  log     : list Store            (* committed stores, most recent first *)
}.

Definition set_sched (k : list Event) (w : World) : World :=
  mkWorld (db_open w) (store w) (fs w) (clock w) k (log w).

Definition set_fs (f : gmap string Node) (w : World) : World :=
  mkWorld (db_open w) (store w) f (clock w) (sched w) (log w).

(** A commit makes [s] the store every reader sees from now on. *)
Definition publish (s : Store) (w : World) : World :=
  mkWorld (db_open w) s (fs w) (clock w) (sched w) (s :: log w).

(** ** The monad *)

Definition M (A : Type) : Type := World -> A * World.

#[global] Instance M_ret : MRet M := fun A a w => (a, w).
#[global] Instance M_bind : MBind M :=
  fun A B f m w => let '(a, w') := m w in f a w'.

Definition get_store : M Store := fun w => (store w, w).
Definition get_fs : M (gmap string Node) := fun w => (fs w, w).
Definition put_fs (f : gmap string Node) : M unit := fun w => (tt, set_fs f w).
Definition commit (s : Store) : M unit := fun w => (tt, publish s w).
Definition db_is_nil : M bool := fun w => (negb (db_open w), w).
Definition time_Now_Unix : M Z := fun w => (clock w, w).

(** Takes the next event of the schedule and says whether the call at hand
    must fail.  An exhausted schedule lets every call through. *)
Definition next_event : M bool := fun w =>
  match sched w with
  | [] => (false, w)
  | EvOk :: k => (false, set_sched k w)
  | EvFail :: k => (true, set_sched k w)
  | EvRace other :: k => (false, publish (other (store w)) (set_sched k w))
  end.

(** ** database/sql *)

(** [db.Exec]: one statement, committed on its own. *)
Definition db_Exec (stmt : Store -> result Store) : M error :=
  failed ← next_event;
  if failed : bool then mret (Some ErrDriver) else
  s ← get_store;
  match stmt s with
  | Err e => mret (Some e)
  | Ok s' => commit s';; mret None
  end.

(** [db.QueryRow(..).Scan(..)]: the first row of the answer. *)
Definition db_QueryRow {A} (q : Store -> option A) : M (result A) :=
  failed ← next_event;
  if failed : bool then mret (Err ErrDriver) else
  s ← get_store;
  match q s with
  | None => mret (Err ErrNoRows)
  | Some a => mret (Ok a)
  end.

(** [db.Query] or [stmt.Query], with the rows read to the end. *)
Definition db_Query {A} (q : Store -> list A) : M (result (list A)) :=
  failed ← next_event;
  if failed : bool then mret (Err ErrDriver) else
  s ← get_store;
  mret (Ok (q s)).

(** [db.Prepare] and [tx.Prepare]. *)
Definition db_Prepare : M error :=
  failed ← next_event;
  mret (if failed : bool then Some ErrDriver else None).

(** A transaction is the writes it has pending; they reach the committed
    store together, at [tx.Commit]. *)
Definition Tx : Type := Store -> Store.

Definition db_Begin : M (result Tx) :=
  failed ← next_event;
  mret (if failed : bool then Err ErrDriver else Ok (fun s => s)).

Definition tx_Exec (tx : Tx) (stmt : Store -> Store) : M (error * Tx) :=
  failed ← next_event;
  mret (if failed : bool then (Some ErrDriver, tx)
        else (None, fun s => stmt (tx s))).

Definition tx_Commit (tx : Tx) : M error :=
  failed ← next_event;
  if failed : bool then mret (Some ErrDriver) else
  s ← get_store;
  commit (tx s);; mret None.

(** ** Orders used by ORDER BY *)

(** [ORDER BY date]: the column is text, compared byte by byte. *)
Definition date_le (a b : History) : Prop := String.leb (date a) (date b) = true.

(** [ORDER BY executed_at DESC]. *)
Definition executed_ge (a b : Report) : Prop := executed_at b ≤ executed_at a.

#[global] Instance date_le_dec a b : Decision (date_le a b).
Proof. unfold date_le. apply _. Defined.

#[global] Instance executed_ge_dec a b : Decision (executed_ge a b).
Proof. unfold executed_ge. apply _. Defined.

(** ** The SQL statements, as functions of the store

    Text is compared as SQLite compares it, byte by byte.  The integer
    columns are unbounded here; the engines keep 64 bits (SQLite) or 32
    (MySQL), far above any counter or epoch the program stores. *)

(** [SELECT host_id FROM hosts WHERE fqdn = ?] *)
Definition sql_select_host_id (fqdn : string) (s : Store) : option Z :=
  host_id <$> List.find (fun h => String.eqb (h_fqdn h) fqdn) (hosts s).

(** [INSERT INTO hosts(fqdn, state, last_seen, runtime, pinned, role, branch,
    build_time) VALUES (?, '', 0, 0, 0, '', '', 0)], under [UNIQUE(fqdn)]. *)
Definition sql_insert_host (fqdn : string) (s : Store) : result Store :=
  if existsb (fun h => String.eqb (h_fqdn h) fqdn) (hosts s)
  then Err ErrConstraint
  else
    let id := seq_hosts s + 1 in
    Ok (mkStore
          (hosts s ++ [mkHost id fqdn EmptyString EmptyString 0 EmptyString 0 "0" 0])
          (reports s) (history s) id (seq_reports s) (seq_history s)).

(** [INSERT INTO reports(fqdn, host_id, state, yaml_file, executed_at,
    runtime, failed, changed, total, skipped, role, branch, build_time)
    values(...)] *)
Definition sql_insert_report (data : PuppetReport) (hid : Z) (path : string)
    (at_ : Z) (s : Store) : Store :=
  let id := seq_reports s + 1 in
  mkStore (hosts s)
    (reports s ++
       [mkReport id hid (Fqdn data) (State data) path (Runtime data) at_
          (Role data) (Branch data) (BuildTime data)
          (Total data) (Skipped data) (Failed data) (Changed data)])
    (history s) (seq_hosts s) id (seq_history s).

(** The snapshot columns written on every ingestion; [fqdn], [host_id] and
    [pinned] are not among them. *)
Definition snapshot (data : PuppetReport) (at_ : Z) (h : Host) : Host :=
  mkHost (host_id h) (h_fqdn h) (Role data) (Branch data) (BuildTime data)
    (State data) at_ (Runtime data) (pinned h).

(** [UPDATE hosts SET last_seen = ?, state = ?, runtime = ?, role = ?,
    branch = ?, build_time = ? WHERE host_id = ?] *)
Definition sql_update_host (data : PuppetReport) (at_ : Z) (hid : Z)
    (s : Store) : Store :=
  set_hosts
    ((fun h => if host_id h =? hid then snapshot data at_ h else h) <$> hosts s) s.

Definition orphan (h : Host) : Host :=
  mkHost (host_id h) (h_fqdn h) (h_role h) (h_branch h) (h_build_time h)
    "orphaned" (last_seen h) (h_runtime h) (pinned h).

(** [UPDATE hosts SET state = 'orphaned' WHERE last_seen < ?] *)
Definition sql_mark_orphans (cutoff : Z) (s : Store) : Store :=
  set_hosts
    ((fun h => if last_seen h <? cutoff then orphan h else h) <$> hosts s) s.

(** [DELETE FROM hosts WHERE last_seen < ? AND pinned = 0] *)
Definition sql_delete_hosts (cutoff : Z) (s : Store) : Store :=
  set_hosts
    (filter (fun h => ¬ (last_seen h < cutoff ∧ pinned h = 0)) (hosts s)) s.

(** [SELECT COUNT( * ) FROM history] *)
Definition sql_count_history (s : Store) : Z := Z.of_nat (length (history s)).

(** [SELECT id FROM history ORDER BY date LIMIT ?].  Among rows of one date
    the engine is free to choose; [merge_sort] makes a choice. *)
Definition sql_oldest_history (n : Z) (s : Store) : list Z :=
  hi_id <$> take (Z.to_nat n) (merge_sort date_le (history s)).

(** [DELETE FROM history WHERE id IN (...)] *)
Definition sql_delete_history (ids : list Z) (s : Store) : Store :=
  set_history (filter (fun b => hi_id b ∉ ids) (history s)) s.

(** [SELECT id FROM history WHERE date = <key>] *)
Definition sql_lookup_history (key : string) (s : Store) : option Z :=
  hi_id <$> List.find (fun b => String.eqb (date b) key) (history s).

(** [INSERT INTO history(date, failed, changed, unchanged) VALUES (<key>, 0,
    0, 0)], under [UNIQUE(date)]. *)
Definition sql_insert_history (key : string) (s : Store) : result Store :=
  if existsb (fun b => String.eqb (date b) key) (history s)
  then Err ErrConstraint
  else
    let id := seq_history s + 1 in
    Ok (mkStore (hosts s) (reports s) (history s ++ [mkHistory id key 0 0 0])
          (seq_hosts s) (seq_reports s) id).

Definition bump (f c u : Z) (b : History) : History :=
  mkHistory (hi_id b) (date b) (failed b + f) (changed b + c) (unchanged b + u).

(** [UPDATE history SET failed = failed + ?, changed = changed + ?,
    unchanged = unchanged + ? WHERE id = ?] *)
Definition sql_update_history (f c u id : Z) (s : Store) : Store :=
  set_history
    ((fun b => if hi_id b =? id then bump f c u b else b) <$> history s) s.

(** [SELECT ... FROM reports WHERE fqdn=? ORDER by executed_at DESC LIMIT 50] *)
Definition sql_select_reports (fqdn : string) (s : Store) : list Report :=
  take 50 (merge_sort executed_ge
             (filter (fun r => r_fqdn r = fqdn) (reports s))).

(** ** Go integers: [int] and [int64] are 64 bits wide *)

Definition wrap64 (z : Z) : Z := (z + 2 ^ 63) mod 2 ^ 64 - 2 ^ 63.

(** ** db.go *)

Definition not_set_up : err := ErrMsg "SetupDB not called".

(** [getHostId]: the id of the host row of [fqdn]; [0] and no error when
    there is no such row. *)
Definition getHostId (fqdn : string) : M (Z * error) :=
  isnil ← db_is_nil;
  if isnil : bool then mret (0, Some not_set_up) else
  r ← db_QueryRow (sql_select_host_id fqdn);
  match r with
  | Ok id => mret (id, None)
  | Err ErrNoRows => mret (0, None)
  | Err e => mret (0, Some e)
  end.

(** [createHost]: inserts the zero-state row, then reads its id back. *)
Definition createHost (fqdn : string) : M (Z * error) :=
  isnil ← db_is_nil;
  if isnil : bool then mret (0, Some not_set_up) else
  e ← db_Exec (sql_insert_host fqdn);
  match e with
  | Some e => mret (0, Some e)
  | None => getHostId fqdn
  end.

(** [updateOrphans]: the threshold is the constant [3.5 * (24 * 60 * 60)],
    that is 302400 seconds. *)
Definition orphan_threshold : Z := 302400.

Definition updateOrphans : M unit :=
  isnil ← db_is_nil;
  if isnil : bool then mret tt else
  now ← time_Now_Unix;
  _ ← db_Exec (fun s => Ok (sql_mark_orphans (wrap64 (now - orphan_threshold)) s));
  mret tt.

(** [purgeOrphans(days)] *)
Definition purgeOrphans (days : Z) : M unit :=
  isnil ← db_is_nil;
  if isnil : bool then mret tt else
  let threshold := wrap64 (days * (24 * 60 * 60)) in
  now ← time_Now_Unix;
  _ ← db_Exec (fun s => Ok (sql_delete_hosts (wrap64 (now - threshold)) s));
  mret tt.

(** [pruneHistory]: keeps [history := 14] buckets.  The ids read by the
    SELECT are spliced, in decimal, into the text of the DELETE; the list of
    ids stands for that text. *)
Definition pruneHistory : M unit :=
  isnil ← db_is_nil;
  if isnil : bool then mret tt else
  let keep := 14 in
  r ← db_QueryRow (fun s => Some (sql_count_history s));
  let count := match r with Ok c => c | Err _ => 0 end in
  if count <=? keep then mret tt else
  let purge := count - keep in
  e ← db_Prepare;
  if e is Some _ then mret tt else
  r ← db_Query (sql_oldest_history purge);
  match r with
  | Err _ => mret tt
  | Ok ids =>
      _ ← db_Exec (fun s => Ok (sql_delete_history ids s));
      mret tt
  end.

Section Engine.

(** The date key the SQL engine derives from an epoch:
    [strftime('%Y/%m/%d', DATE(?, 'unixepoch'))] on SQLite,
    [from_unixtime(?, '%Y/%m/%d')] on MySQL. *)
Variable date_key : Z -> string.

(** The increments chosen by the [switch] of [updateHistory]. *)
Definition increments (state : string) : Z * Z * Z :=
  if String.eqb state "failed" then (1, 0, 0)
  else if String.eqb state "changed" then (0, 1, 0)
  else if String.eqb state "unchanged" then (0, 0, 1)
  else (0, 0, 0).

(** [updateHistory(date, state)] *)
Definition updateHistory (date : Z) (state : string) : M error :=
  isnil ← db_is_nil;
  if isnil : bool then mret (Some not_set_up) else
  r ← db_QueryRow (sql_lookup_history (date_key date));
  id ← match r with
       | Ok id => mret id
       | Err ErrNoRows =>
           _ ← db_Exec (sql_insert_history (date_key date));
           r' ← db_QueryRow (sql_lookup_history (date_key date));
           mret (match r' with Ok id => id | Err _ => 0 end)
       | Err _ => mret 0
       end;
  let '(f, c, u) := increments state in
  db_Exec (fun s => Ok (sql_update_history f c u id s)).

(** [addDB(data, path)] *)
Definition addDB (data : PuppetReport) (path : string) : M error :=
  isnil ← db_is_nil;
  if isnil : bool then mret (Some not_set_up) else
  '(hid, e) ← getHostId (Fqdn data);
  if e is Some _ then mret e else
  '(hid, e) ← (if hid =? 0 then createHost (Fqdn data) else mret (hid, None));
  if e is Some _ then mret e else
  at_ ← time_Now_Unix;
  t ← db_Begin;
  match t with
  | Err e => mret (Some e)
  | Ok tx =>
      e ← db_Prepare;
      if e is Some _ then mret e else
      '(_, tx) ← tx_Exec tx (sql_insert_report data hid path at_);
      e ← db_Prepare;
      if e is Some _ then mret e else
      '(_, tx) ← tx_Exec tx (sql_update_host data at_ hid);
      _ ← tx_Commit tx;
      _ ← updateHistory at_ (State data);
      mret None
  end.

End Engine.

(** [PuppetReportSummary]: one line of the per-host listing. *)
Record PuppetReportSummary := mkSummary {
  s_ID       : string;
  s_Fqdn     : string;
  s_State    : string;
  s_At       : string;
  s_Ago      : string;
  s_Runtime  : string;
  s_Branch   : string;
  s_Role     : string;
  s_BuiltAt  : string;
  s_BuiltAgo : string;
  s_Failed   : Z;
  s_Changed  : Z;
  s_Total    : Z;
  s_YamlFile : string
}.

Section Listing.

(** [timeRelative] is declared in a file that is not at hand, and
    [time.Unix(i, 0).Format("2006-01-02 15:04:05")] belongs to the Go
    library; both only fill display columns. *)
Variable timeRelative : string -> string.
Variable time_Format : Z -> string.

(** The body of the [rows.Next()] loop of [getReports]. *)
Definition summarise (r : Report) : PuppetReportSummary :=
  let at_ := pretty (executed_at r) in
  let builtAt := pretty (r_build_time r) in
  let '(built_at, built_ago) :=
    if String.eqb builtAt "0" then ("-", "-")
    else (time_Format (r_build_time r), timeRelative builtAt) in
  mkSummary (pretty (r_id r)) (r_fqdn r) (r_state r)
    (time_Format (executed_at r)) (timeRelative at_) (r_runtime r)
    (r_branch r) (r_role r) built_at built_ago
    (r_failed r) (r_changed r) (r_total r) (yaml_file r).

(** [getReports(fqdn)] *)
Definition getReports (fqdn : string) : M (result (list PuppetReportSummary)) :=
  isnil ← db_is_nil;
  if isnil : bool then mret (Err not_set_up) else
  e ← db_Prepare;
  if e is Some e then mret (Err e) else
  r ← db_Query (sql_select_reports fqdn);
  match r with
  | Err e => mret (Err e)
  | Ok rows =>
      let NodeList := summarise <$> rows in
      if (length NodeList <? 1)%nat
      then mret (Err (ErrMsg ("Failed to find reports for " +:+ fqdn)))
      else mret (Ok NodeList)
  end.

End Listing.

(** ** Filesystem calls *)

(** [Exists(name)] is [!os.IsNotExist(err)] for the error of [os.Stat]: a
    stat that fails for another reason than absence also answers [true]. *)
Definition Exists (name : string) : M bool :=
  failed ← next_event;
  if failed : bool then mret true else
  f ← get_fs;
  mret (if f !! name is Some _ then true else false).

Definition os_MkdirAll (path : string) : M error :=
  failed ← next_event;
  if failed : bool then mret (Some ErrDriver) else
  f ← get_fs;
  match f !! path with
  | Some (File _) => mret (Some ErrDriver)
  | _ => put_fs (<[path := Dir]> f);; mret None
  end.

Definition ioutil_WriteFile (path : string) (content : list byte) : M error :=
  failed ← next_event;
  if failed : bool then mret (Some ErrDriver) else
  f ← get_fs;
  match f !! path with
  | Some Dir => mret (Some ErrDriver)
  | _ => put_fs (<[path := File content]> f);; mret None
  end.

Definition ioutil_ReadFile (path : string) : M (result (list byte)) :=
  failed ← next_event;
  if failed : bool then mret (Err ErrDriver) else
  f ← get_fs;
  match f !! path with
  | Some (File content) => mret (Ok content)
  | Some Dir => mret (Err ErrDriver)
  | None => mret (Err ErrNotExist)
  end.

Definition os_Remove (path : string) : M error :=
  failed ← next_event;
  if failed : bool then mret (Some ErrDriver) else
  f ← get_fs;
  match f !! path with
  | Some _ => put_fs (delete path f);; mret None
  | None => mret (Some ErrNotExist)
  end.

(** ** cmd_serve.go *)

Record Request := mkRequest {
  Method : string;
  Body   : list byte
}.

(** What the client receives: a body written with status 200, or
    [http.Error(res, err.Error(), status)]. *)
Inductive Response :=
| Written (body : string)
| HttpError (e : err) (status : Z).

Definition StatusInternalServerError : Z := 500.

Definition ioutil_ReadAll (body : list byte) : M (result (list byte)) :=
  failed ← next_event;
  mret (if failed : bool then Err ErrDriver else Ok body).

Definition dquote : string := String (Ascii.ascii_of_nat 34) EmptyString.

(** [fmt.Sprintf("{\"host\":\"%s\"}", fqdn)], the body that answers a fresh
    ingestion. *)
Definition host_reply (fqdn : string) : string :=
  "{" +:+ dquote +:+ "host" +:+ dquote +:+ ":" +:+ dquote +:+ fqdn +:+ dquote
    +:+ "}".

Section Server.

Variable date_key : Z -> string.

(** [ParsePuppetReport] is the report parser, declared outside the files at
    hand; [filepath.Join] is the Go library's. *)
Variable ParsePuppetReport : list byte -> result PuppetReport.
Variable filepath_Join : string -> string -> string.

(** The global [ReportPrefix], set once by [serve]. *)
Variable ReportPrefix : string.

(** [ReportSubmissionHandler]: POST /upload *)
Definition ReportSubmissionHandler (req : Request) : M Response :=
  if negb (String.eqb (Method req) "POST")
  then mret (HttpError (ErrMsg "must be called via HTTP-POST")
               StatusInternalServerError)
  else
  c ← ioutil_ReadAll (Body req);
  match c with
  | Err e => mret (HttpError e StatusInternalServerError)
  | Ok content =>
  match ParsePuppetReport content with
  | Err e => mret (HttpError e StatusInternalServerError)
  | Ok report =>
      let dir := filepath_Join ReportPrefix (Fqdn report) in
      ex ← Exists dir;
      e ← (if ex : bool then mret None else os_MkdirAll dir);
      if e is Some e then mret (HttpError e StatusInternalServerError) else
      let path := filepath_Join dir (Hash report) in
      ex ← Exists path;
      if ex : bool then mret (Written "Ignoring duplicate submission") else
      e ← ioutil_WriteFile path content;
      if e is Some e then mret (HttpError e StatusInternalServerError) else
      let relativePath := filepath_Join (Fqdn report) (Hash report) in
      _ ← addDB date_key report relativePath;
      mret (Written (host_reply (Fqdn report)))
  end
  end.

(** [AsyncReportSubmissionSaver(uuid)]: what a worker does with one token. *)
Definition AsyncReportSubmissionSaver (uuid : string) : M unit :=
  let pathTemp := filepath_Join "/tmp/" uuid in
  c ← ioutil_ReadFile pathTemp;
  match c with
  | Err _ => mret tt
  | Ok content =>
  match ParsePuppetReport content with
  | Err _ => mret tt
  | Ok report =>
      let dir := filepath_Join ReportPrefix (Fqdn report) in
      ex ← Exists dir;
      e ← (if ex : bool then mret None else os_MkdirAll dir);
      if e is Some _ then mret tt else
      let path := filepath_Join dir (Hash report) in
      ex ← Exists path;
      if ex : bool then mret tt else
      e ← ioutil_WriteFile path content;
      if e is Some _ then mret tt else
      let relativePath := filepath_Join (Fqdn report) (Hash report) in
      _ ← addDB date_key report relativePath;
      _ ← os_Remove ("/tmp/" +:+ uuid);
      mret tt
  end
  end.

(** [AsyncReportSubmissionWorker]: the tokens a worker receives, in order. *)
Fixpoint AsyncReportSubmissionWorker (jobs : list string) : M unit :=
  match jobs with
  | [] => mret tt
  | j :: jobs' =>
      AsyncReportSubmissionSaver j;; AsyncReportSubmissionWorker jobs'
  end.

End Server.

(** ** Running a computation, and the schedules of interest *)

Definition eval {A} (m : M A) (w : World) : A := fst (m w).
Definition exec {A} (m : M A) (w : World) : World := snd (m w).

Definition is_ok (e : Event) : bool :=
  match e with EvOk => true | _ => false end.

Definition is_race (e : Event) : bool :=
  match e with EvRace _ => true | _ => false end.

(** No call fails and no other connection writes. *)
Definition quiet (w : World) : bool := forallb is_ok (sched w).

(** Calls may fail, but no other connection writes. *)
Definition isolated (w : World) : bool :=
  forallb (fun e => negb (is_race e)) (sched w).

(** The world once a call has consumed its event. *)
Definition tick (w : World) : World := set_sched (tail (sched w)) w.

(** [int64] range of the clock, with room for the subtraction of [span]. *)
Definition clock_fits (span : Z) (w : World) : bool :=
  (- 2 ^ 63 + span <=? clock w) && (clock w <? 2 ^ 63).

(** ** Vocabulary of the statements, and worlds to run the model on *)

(** Every column but [state] agrees. *)
Definition same_but_state (h h' : Host) : Prop :=
  host_id h' = host_id h ∧ h_fqdn h' = h_fqdn h ∧ h_role h' = h_role h ∧
  h_branch h' = h_branch h ∧ h_build_time h' = h_build_time h ∧
  last_seen h' = last_seen h ∧ h_runtime h' = h_runtime h ∧
  pinned h' = pinned h.

Definition stale_world : World :=
  mkWorld true
    (mkStore
       [mkHost 1 "a.example" "web" "main" 7 "changed" 697599 "3" 0;
        mkHost 2 "b.example" "web" "main" 7 "failed" 697601 "3" 1]
       [] [] 2 0 0)
    ∅ 1000000 [] [].

(** A changed host and a pinned, orphaned one, both last seen long ago, and
    a report of the first. *)
Definition old_hosts_world : World :=
  mkWorld true
    (mkStore
       [mkHost 1 "a.example" "web" "main" 7 "changed" 1000 "3" 0;
        mkHost 2 "b.example" "web" "main" 7 "orphaned" 1000 "3" 1]
       [mkReport 1 1 "a.example" "changed" "a.example/H1" "3" 1000
          "web" "main" 7 10 0 0 2]
       [] 2 1 0)
    ∅ 10000000 [] [].

(** The counters of the bucket of [key]; zeros when there is none. *)
Definition counters (key : string) (s : Store) : Z * Z * Z :=
  match List.find (fun b => String.eqb (date b) key) (history s) with
  | Some b => (failed b, changed b, unchanged b)
  | None => (0, 0, 0)
  end.

Definition has_bucket (key : string) (s : Store) : bool :=
  existsb (fun b => String.eqb (date b) key) (history s).

(** PRIMARY KEY AUTOINCREMENT on [history.id]: the ids are distinct and none
    is above the last one handed out. *)
Definition history_wf (s : Store) : bool :=
  bool_decide (NoDup (hi_id <$> history s)) &&
  forallb (fun b => hi_id b <=? seq_history s) (history s).

(** The store once the bucket of [key] has been inserted. *)
Definition with_bucket (key : string) (s : Store) : Store :=
  mkStore (hosts s) (reports s)
    (history s ++ [mkHistory (seq_history s + 1) key 0 0 0])
    (seq_hosts s) (seq_reports s) (seq_history s + 1).

(** A bucket never loses counts. *)
Definition bucket_le (b b' : History) : Prop :=
  hi_id b' = hi_id b ∧ date b' = date b ∧
  failed b ≤ failed b' ∧ changed b ≤ changed b' ∧ unchanged b ≤ unchanged b'.

Definition add3 (x y : Z * Z * Z) : Z * Z * Z :=
  let '(a, b, c) := x in let '(a', b', c') := y in (a + a', b + b', c + c').

(** An instance of the engine's date key, for running the model: the UTC
    calendar date of an epoch, printed as SQLite prints
    [strftime('%Y/%m/%d', DATE(?, 'unixepoch'))] for the years 0000 to 9999. *)
Definition civil_from_days (z : Z) : Z * Z * Z :=
  let z := z + 719468 in
  let era := z / 146097 in
  let doe := z - era * 146097 in
  let yoe := (doe - doe / 1460 + doe / 36524 - doe / 146096) / 365 in
  let doy := doe - (365 * yoe + yoe / 4 - yoe / 100) in
  let mp := (5 * doy + 2) / 153 in
  let d := doy - (153 * mp + 2) / 5 + 1 in
  let m := if mp <? 10 then mp + 3 else mp - 9 in
  let y := yoe + era * 400 in
  (if m <=? 2 then y + 1 else y, m, d).

Definition pad (width : nat) (n : Z) : string :=
  let digits := pretty n in
  String.concat EmptyString (replicate (width - String.length digits) "0")
    +:+ digits.

Definition strftime_Ymd (epoch : Z) : string :=
  let '(y, m, d) := civil_from_days (epoch / 86400) in
  pad 4 y +:+ "/" +:+ pad 2 m +:+ "/" +:+ pad 2 d.

(** One bucket, of 12 January 1970. *)
Definition one_bucket_world : World :=
  mkWorld true
    (mkStore [] [] [mkHistory 1 "1970/01/12" 2 3 4] 0 0 1)
    ∅ 1000000 [] [].

(** Twenty buckets, of 1 to 20 January 2024, inserted out of order. *)
Definition twenty_buckets : list History :=
  (fun i => mkHistory i ("2024/01/" +:+ pad 2 ((i * 7) mod 20 + 1)) i 0 1)
    <$> seqZ 1 20.

Definition twenty_buckets_world : World :=
  mkWorld true (mkStore [] [] twenty_buckets 0 0 20) ∅ 1706000000 [] [].

(** Three reports of one host and one of another. *)
Definition listing_world : World :=
  mkWorld true
    (mkStore []
       [mkReport 1 1 "a.example" "changed" "a.example/H1" "3" 100 "web" "main" 0 10 0 0 2;
        mkReport 2 2 "b.example" "failed" "b.example/H2" "4" 150 "db" "main" 0 10 0 1 0;
        mkReport 3 1 "a.example" "unchanged" "pruned" "3" 300 "web" "main" 0 10 0 0 0;
        mkReport 4 1 "a.example" "failed" "a.example/H4" "5" 200 "web" "main" 0 10 0 1 0]
       [] 2 4 0)
    ∅ 1000 [] [].

(** The host row of [fqdn], as [getHostId] finds it. *)
Definition host_of (fqdn : string) (s : Store) : option Host :=
  List.find (fun h => String.eqb (h_fqdn h) fqdn) (hosts s).

(** PRIMARY KEY AUTOINCREMENT on [hosts.host_id]: the ids start at 1. *)
Definition hosts_wf (s : Store) : bool :=
  forallb (fun h => 0 <? host_id h) (hosts s).

(** The row [createHost] inserts. *)
Definition zero_host (id : Z) (fqdn : string) : Host :=
  mkHost id fqdn EmptyString EmptyString 0 EmptyString 0 "0" 0.

(** The store once the zero-state row of [fqdn] has been inserted. *)
Definition with_host (fqdn : string) (s : Store) : Store :=
  mkStore (hosts s ++ [zero_host (seq_hosts s + 1) fqdn])
    (reports s) (history s) (seq_hosts s + 1) (seq_reports s) (seq_history s).

(** The report row [addDB] inserts. *)
Definition report_row (id hid : Z) (data : PuppetReport) (path : string)
    (at_ : Z) : Report :=
  mkReport id hid (Fqdn data) (State data) path (Runtime data) at_
    (Role data) (Branch data) (BuildTime data)
    (Total data) (Skipped data) (Failed data) (Changed data).

(** The host row [h] carries the snapshot of [data], taken at [at_]. *)
Definition reflects (data : PuppetReport) (at_ : Z) (h : Host) : Prop :=
  h_state h = State data ∧ last_seen h = at_ ∧ h_runtime h = Runtime data ∧
  h_role h = Role data ∧ h_branch h = Branch data ∧
  h_build_time h = BuildTime data.

(** A first report of host web01, into an empty store. *)
Definition report_A : PuppetReport :=
  mkPuppetReport "web01" "changed" "12" 0 3 10 1 "web" "main" 1700000000 "H1".

Definition fresh_world : World :=
  mkWorld true empty_store ∅ 1706000000 [] [].

(** The same, with another workflow inserting the host row of web01 between
    the lookup and the create. *)
Definition racing_world : World :=
  mkWorld true empty_store ∅ 1706000000 [EvOk; EvRace (with_host "web01")] [].

(** A parser for running the model: it reads every non-empty body as
    [report_A]. *)
Definition parse_as_A (content : list byte) : result PuppetReport :=
  match content with
  | [] => Err (ErrMsg "empty report")
  | _ => Ok report_A
  end.

(** [filepath.Join] on two non-empty elements that are clean but for a
    slash closing the first. *)
Fixpoint ends_with_slash (s : string) : bool :=
  match s with
  | EmptyString => false
  | String c EmptyString => Ascii.eqb c (Ascii.ascii_of_nat 47)
  | String _ s' => ends_with_slash s'
  end.

Definition join (a b : string) : string :=
  if ends_with_slash a then a +:+ b else a +:+ "/" +:+ b.

Definition post_A : Request := mkRequest "POST" [x68; x69].

(** A staged submission that does not parse, and one that does. *)
Definition staged_world (content : list byte) : World :=
  mkWorld true empty_store
    {[ "/tmp/puppet-summary-tmp-00000000-0000-0000-0000-000000000000" := File content ]}
    1706000000 [] [].

(** * The rest of db.go *)

(** ** More SQL statements *)

(** [SELECT COUNT( * ) FROM reports] *)
Definition sql_count_reports (s : Store) : Z := Z.of_nat (length (reports s)).

(** [SELECT COUNT( * ) FROM reports WHERE yaml_file='pruned'] *)
Definition sql_count_pruned (s : Store) : Z :=
  Z.of_nat (length (filter (fun r => yaml_file r = "pruned") (reports s))).

(** [SELECT fqdn, state, runtime, last_seen, branch, build_time, role, pinned
    FROM hosts;] *)
Definition sql_select_hosts (s : Store) : list Host := hosts s.

(** [SELECT date, failed, changed, unchanged FROM history ORDER BY date] *)
Definition sql_select_history (s : Store) : list History :=
  merge_sort date_le (history s).

(** [SELECT id,yaml_file FROM reports WHERE ( ? - executed_at ) > ?] *)
Definition sql_select_old_reports (now expire : Z) (s : Store)
    : list (Z * string) :=
  (fun r => (r_id r, yaml_file r))
    <$> filter (fun r => expire < now - executed_at r) (reports s).

(** [DELETE FROM reports WHERE ( ( ? - executed_at ) > ? )] *)
Definition sql_delete_old_reports (now expire : Z) (s : Store) : Store :=
  mkStore (hosts s)
    (filter (fun r => ¬ (expire < now - executed_at r)) (reports s))
    (history s) (seq_hosts s) (seq_reports s) (seq_history s).

(** [SELECT id,yaml_file FROM reports WHERE state='unchanged'] *)
Definition sql_select_unchanged (s : Store) : list (Z * string) :=
  (fun r => (r_id r, yaml_file r))
    <$> filter (fun r => r_state r = "unchanged") (reports s).

Definition mark_pruned (r : Report) : Report :=
  mkReport (r_id r) (r_host_id r) (r_fqdn r) (r_state r) "pruned" (r_runtime r)
    (executed_at r) (r_role r) (r_branch r) (r_build_time r)
    (r_total r) (r_skipped r) (r_failed r) (r_changed r).

(** [UPDATE reports SET yaml_file='pruned' WHERE state='unchanged'] *)
Definition sql_mark_unchanged_pruned (s : Store) : Store :=
  mkStore (hosts s)
    ((fun r => if decide (r_state r = "unchanged") then mark_pruned r else r)
       <$> reports s)
    (history s) (seq_hosts s) (seq_reports s) (seq_history s).

(** [SELECT yaml_file FROM reports WHERE fqdn=?] *)
Definition sql_select_yaml_of (fqdn : string) (s : Store) : list string :=
  yaml_file <$> filter (fun r => r_fqdn r = fqdn) (reports s).

(** [DELETE FROM reports WHERE fqdn=?] *)
Definition sql_delete_reports_of (fqdn : string) (s : Store) : Store :=
  mkStore (hosts s) (filter (fun r => r_fqdn r ≠ fqdn) (reports s))
    (history s) (seq_hosts s) (seq_reports s) (seq_history s).

(** ** The remaining functions *)

(** [countReports] *)
Definition countReports : M (Z * error) :=
  isnil ← db_is_nil;
  if isnil : bool then mret (0, Some not_set_up) else
  r ← db_QueryRow (fun s => Some (sql_count_reports s));
  mret (match r with Ok c => (c, None) | Err e => (0, Some e) end).

(** [countUnchangedAndReapedReports] *)
Definition countUnchangedAndReapedReports : M (Z * error) :=
  isnil ← db_is_nil;
  if isnil : bool then mret (0, Some not_set_up) else
  r ← db_QueryRow (fun s => Some (sql_count_pruned s));
  mret (match r with Ok c => (c, None) | Err e => (0, Some e) end).

(** [PuppetRuns]: one line of the front page. *)
Record PuppetRuns := mkRuns {
  n_Fqdn     : string;
  n_State    : string;
  n_At       : string;
  n_Epoch    : string;
  n_Ago      : string;
  n_Runtime  : string;
  n_Branch   : string;
  n_Role     : string;
  n_BuiltAt  : string;
  n_BuiltAgo : string;
  n_Pinned   : string
}.

(** [PuppetHistory]: one bar of the stacked graph. *)
Record PuppetHistory := mkPuppetHistory {
  g_Date      : string;
  g_Failed    : string;
  g_Changed   : string;
  g_Unchanged : string
}.

(** [sort.Strings]: ascending, byte by byte. *)
Definition str_le (a b : string) : Prop := String.leb a b = true.

#[global] Instance str_le_dec a b : Decision (str_le a b).
Proof. unfold str_le. apply _. Defined.

(** The body of the [rows.Next()] loop of [getHistory]. *)
Definition history_bar (b : History) : PuppetHistory :=
  mkPuppetHistory (date b) (pretty (failed b)) (pretty (changed b))
    (pretty (unchanged b)).

(** [getHistory] *)
Definition getHistory : M (result (list PuppetHistory)) :=
  isnil ← db_is_nil;
  if isnil : bool then mret (Err not_set_up) else
  e ← db_Prepare;
  if e is Some e then mret (Err e) else
  r ← db_Query sql_select_history;
  match r with
  | Err e => mret (Err e)
  | Ok rows => mret (Ok (history_bar <$> rows))
  end.

Section Front.

Variable timeRelative : string -> string.
Variable time_Format : Z -> string.

(** The body of the [rows.Next()] loop of [getIndexNodes]. *)
Definition index_node (h : Host) : PuppetRuns :=
  let at_ := pretty (last_seen h) in
  let builtAt := pretty (h_build_time h) in
  let '(built_at, built_ago) :=
    if String.eqb builtAt "0" then ("-", "-")
    else (time_Format (h_build_time h), timeRelative builtAt) in
  mkRuns (h_fqdn h) (h_state h) (time_Format (last_seen h)) at_
    (timeRelative at_) (h_runtime h) (h_branch h) (h_role h)
    built_at built_ago (if pinned h =? 1 then "Yes" else "No").

(** [getIndexNodes] *)
Definition getIndexNodes : M (result (list PuppetRuns)) :=
  isnil ← db_is_nil;
  if isnil : bool then mret (Err not_set_up) else
  r ← db_Query sql_select_hosts;
  match r with
  | Err e => mret (Err e)
  | Ok rows => mret (Ok (index_node <$> rows))
  end.

(** [float64] and the quotient [(float64(c) / float64(total)) * 100] belong
    to the language; the percentage only fills a display column. *)
Variable float64 : Type.
Variable float_zero : float64.
Variable percentage : Z -> Z -> float64.

(** [PuppetState]: the number of nodes in one state. *)
Record PuppetState := mkPuppetState {
  p_State      : string;
  p_Count      : Z;
  p_Percentage : float64
}.

(** The map [states] once the four known states are set to zero. *)
Definition known_states : gmap string Z :=
  <["orphaned" := 0]> (<["failed" := 0]> (<["unchanged" := 0]>
    (<["changed" := 0]> ∅))).

(** [states[o.State]++] *)
Definition count_state (states : gmap string Z) (o : PuppetRuns)
    : gmap string Z :=
  <[n_State o := default 0 (states !! n_State o) + 1]> states.

(** [getStates] *)
Definition getStates : M (result (list PuppetState)) :=
  r ← getIndexNodes;
  match r with
  | Err e => mret (Err e)
  | Ok NodeList =>
      let states := foldl count_state known_states NodeList in
      let total := Z.of_nat (length NodeList) in
      let keys := merge_sort str_le (map_to_list states).*1 in
      mret (Ok ((fun name =>
                   let c := default 0 (states !! name) in
                   mkPuppetState name c
                     (if total =? 0 then float_zero else percentage c total))
                  <$> keys))
  end.

End Front.

Section Retention.

Variable filepath_Join : string -> string -> string.

(** The loop that unlinks the artifacts: [os.Remove(filepath.Join(prefix,
    path))] for each row, whatever [os.Remove] answers.  What [verbose]
    prints goes to standard output, which the world does not hold. *)
Fixpoint remove_artifacts (prefix : string) (paths : list string) : M unit :=
  match paths with
  | [] => mret tt
  | path :: rest =>
      _ ← os_Remove (filepath_Join prefix path);
      remove_artifacts prefix rest
  end.

(** [getYAML(prefix, id)].  The engine compares the integer column [id] with
    the text it is given; [id_of_text] is the integer it reads the text as. *)
Variable id_of_text : string -> option Z.

(** [SELECT yaml_file FROM reports WHERE id=?] *)
Definition sql_select_yaml (id : string) (s : Store) : option string :=
  yaml_file <$> List.find (fun r => bool_decide (id_of_text id = Some (r_id r)))
                  (reports s).

Definition getYAML (prefix : string) (id : string) : M (result (list byte)) :=
  isnil ← db_is_nil;
  if isnil : bool then mret (Err not_set_up) else
  r ← db_QueryRow (sql_select_yaml id);
  match r with
  | Err ErrNoRows =>
      mret (Err (ErrMsg "failed to find report with specified ID"))
  | Err _ => mret (Err (ErrMsg "report not found"))
  | Ok path =>
      if (0 <? String.length path)%nat
      then ioutil_ReadFile (filepath_Join prefix path)
      else mret (Err (ErrMsg "failed to find report with specified ID"))
  end.

(** [pruneReports(prefix, days, verbose)] *)
Definition pruneReports (prefix : string) (days : Z) (verbose : bool) : M error :=
  isnil ← db_is_nil;
  if isnil : bool then mret (Some not_set_up) else
  let expire_time := wrap64 (days * (24 * 60 * 60)) in
  now ← time_Now_Unix;
  e ← db_Prepare;
  if e is Some _ then mret e else
  e ← db_Prepare;
  if e is Some _ then mret e else
  r ← db_Query (sql_select_old_reports now expire_time);
  match r with
  | Err e => mret (Some e)
  | Ok rows =>
      _ ← remove_artifacts prefix rows.*2;
      db_Exec (fun s => Ok (sql_delete_old_reports now expire_time s))
  end.

(** [pruneUnchanged(prefix, verbose)] *)
Definition pruneUnchanged (prefix : string) (verbose : bool) : M error :=
  isnil ← db_is_nil;
  if isnil : bool then mret (Some not_set_up) else
  e ← db_Prepare;
  if e is Some _ then mret e else
  e ← db_Prepare;
  if e is Some _ then mret e else
  r ← db_Query sql_select_unchanged;
  match r with
  | Err e => mret (Some e)
  | Ok rows =>
      _ ← remove_artifacts prefix rows.*2;
      db_Exec (fun s => Ok (sql_mark_unchanged_pruned s))
  end.

Variable timeRelative : string -> string.
Variable time_Format : Z -> string.

(** The body of the loop of [pruneOrphaned] over the node list. *)
Fixpoint purge_reports_of_orphans (prefix : string) (nodes : list PuppetRuns)
    : M error :=
  match nodes with
  | [] => mret None
  | entry :: rest =>
      if String.eqb (n_State entry) "orphaned" then
        r ← db_Query (sql_select_yaml_of (n_Fqdn entry));
        match r with
        | Err e => mret (Some e)
        | Ok rows =>
            _ ← remove_artifacts prefix rows;
            e ← db_Prepare;
            if e is Some _ then mret e else
            e ← db_Exec (fun s => Ok (sql_delete_reports_of (n_Fqdn entry) s));
            if e is Some _ then mret e else
            purge_reports_of_orphans prefix rest
        end
      else purge_reports_of_orphans prefix rest
  end.

(** [pruneOrphaned(prefix, verbose)] *)
Definition pruneOrphaned (prefix : string) (verbose : bool) : M error :=
  r ← getIndexNodes timeRelative time_Format;
  match r with
  | Err e => mret (Some e)
  | Ok NodeList => purge_reports_of_orphans prefix NodeList
  end.

End Retention.

(** * The asynchronous entry point *)

(** [%x] of a byte slice: two lower-case hexadecimal digits per byte. *)
Definition hex_digit (n : N) : string :=
  match n with
  | 0 => "0" | 1 => "1" | 2 => "2" | 3 => "3" | 4 => "4" | 5 => "5"
  | 6 => "6" | 7 => "7" | 8 => "8" | 9 => "9" | 10 => "a" | 11 => "b"
  | 12 => "c" | 13 => "d" | 14 => "e" | _ => "f"
  end%N.

Definition hex_byte (b : byte) : string :=
  let n := Byte.to_N b in hex_digit (n / 16) +:+ hex_digit (n mod 16).

Definition hex (bs : list byte) : string :=
  String.concat EmptyString (hex_byte <$> bs).

(** [fmt.Sprintf("%x-%x-%x-%x-%x", b[0:4], b[4:6], b[6:8], b[8:10], b[10:])],
    prefixed with "puppet-summary-tmp-". *)
Definition staging_name (b : list byte) : string :=
  "puppet-summary-tmp-" +:+
  hex (take 4 b) +:+ "-" +:+ hex (take 2 (drop 4 b)) +:+ "-" +:+
  hex (take 2 (drop 6 b)) +:+ "-" +:+ hex (take 2 (drop 8 b)) +:+ "-" +:+
  hex (drop 10 b).

(** [fmt.Sprintf("{\"job-queued\":\"%s\"}", uuid)] *)
Definition queued_reply (uuid : string) : string :=
  "{" +:+ dquote +:+ "job-queued" +:+ dquote +:+ ":" +:+ dquote +:+ uuid
    +:+ dquote +:+ "}".

Section Async.

Variable filepath_Join : string -> string -> string.

(** [AsyncReportSubmissionHandler]: POST /async/upload.  [b] is the 16-byte
    buffer as [rand.Read] leaves it; the second component of the result is
    what the handler sends on the channel [asyncUploadJobs]. *)
Definition AsyncReportSubmissionHandler (b : list byte) (req : Request)
    : M (Response * list string) :=
  if negb (String.eqb (Method req) "POST")
  then mret (HttpError (ErrMsg "must be called via HTTP-POST")
               StatusInternalServerError, [])
  else
  c ← ioutil_ReadAll (Body req);
  match c with
  | Err e => mret (HttpError e StatusInternalServerError, [])
  | Ok content =>
      let uuid := staging_name b in
      let path := filepath_Join "/tmp/" uuid in
      e ← ioutil_WriteFile path content;
      if e is Some e then mret (HttpError e StatusInternalServerError, [])
      else mret (Written (queued_reply uuid), [uuid])
  end.

End Async.

(** * Vocabulary of the further statements *)

(** The keys and constraints of the schema: PRIMARY KEY AUTOINCREMENT on the
    three ids, [UNIQUE(fqdn)] on hosts and [UNIQUE(date)] on history. *)
Definition store_wf (s : Store) : Prop :=
  NoDup (host_id <$> hosts s) ∧ NoDup (h_fqdn <$> hosts s) ∧
  Forall (fun h => 0 < host_id h ≤ seq_hosts s) (hosts s) ∧
  NoDup (r_id <$> reports s) ∧
  Forall (fun r => 0 < r_id r ≤ seq_reports s) (reports s) ∧
  NoDup (hi_id <$> history s) ∧ NoDup (date <$> history s) ∧
  Forall (fun b => 0 < hi_id b ≤ seq_history s) (history s) ∧
  0 ≤ seq_hosts s ∧ 0 ≤ seq_reports s ∧ 0 ≤ seq_history s.

#[global] Instance store_wf_dec s : Decision (store_wf s).
Proof. unfold store_wf. apply _. Defined.

(** Under every schedule in which no other connection writes, [m] keeps [I]
    on the committed store and answers within [Q]. *)
Definition keeps (I : Store -> Prop) {A} (m : M A) (Q : A -> Prop) : Prop :=
  ∀ w, isolated w = true -> I (store w) ->
       isolated (exec m w) = true ∧ I (store (exec m w)) ∧ Q (eval m w).

(** The pending writes of a transaction keep [I]. *)
Definition tx_keeps (I : Store -> Prop) (tx : Tx) : Prop := ∀ s, I s -> I (tx s).

(** What identifies a host row and its pin. *)
Definition host_key (h : Host) : Z * string * Z :=
  (host_id h, h_fqdn h, pinned h).

(** No host row of [s0] is gone from [s], and each has its id, fqdn and pin. *)
Definition hosts_kept (s0 s : Store) : Prop :=
  host_key <$> hosts s0 `prefix_of` host_key <$> hosts s.

(** No report row of [s0] is gone from [s] or altered. *)
Definition reports_kept (s0 s : Store) : Prop :=
  reports s0 `prefix_of` reports s.

(** No bucket of [s0] is gone from [s] or has lost counts. *)
Definition history_kept (s0 s : Store) : Prop :=
  ∃ bs, bs `prefix_of` history s ∧ Forall2 bucket_le (history s0) bs.

(** [I] survives every statement the ingestion path can commit. *)
Definition ingest_stable (I : Store -> Prop) : Prop :=
  (∀ fqdn s s', I s -> sql_insert_host fqdn s = Ok s' -> I s') ∧
  (∀ data hid path at_ s, I s -> I (sql_insert_report data hid path at_ s)) ∧
  (∀ data at_ hid s, I s -> I (sql_update_host data at_ hid s)) ∧
  (∀ key s s', I s -> sql_insert_history key s = Ok s' -> I s') ∧
  (∀ state id s, I s ->
     I (sql_update_history (increments state).1.1 (increments state).1.2
          (increments state).2 id s)).

(** A store with two hosts, three reports and two buckets, and a schedule in
    which the fifth and the ninth call fail. *)
Definition busy_store : Store :=
  mkStore
    [mkHost 1 "web01" "web" "main" 7 "changed" 1705990000 "3" 0;
     mkHost 2 "db01" "db" "main" 7 "orphaned" 1700000000 "4" 1]
    [mkReport 1 1 "web01" "changed" "web01/H1" "3" 1705900000 "web" "main" 7 10 0 0 2;
     mkReport 2 2 "db01" "unchanged" "db01/H2" "4" 1700000000 "db" "main" 7 10 0 0 0;
     mkReport 3 1 "web01" "unchanged" "web01/H3" "3" 1705990000 "web" "main" 7 10 0 0 0]
    [mkHistory 1 "2023/11/14" 0 0 1; mkHistory 2 "2024/01/22" 0 1 0]
    2 3 2.

Definition busy_files : gmap string Node :=
  {[ "reports/web01/H1" := File [x61]; "reports/db01/H2" := File [x62];
     "reports/web01/H3" := File [x63]; "reports/web01" := Dir;
     "reports/db01" := Dir ]}.

Definition busy_world : World :=
  mkWorld true busy_store busy_files 1706000000 [] [].

Definition flaky_world : World :=
  mkWorld true busy_store busy_files 1706000000
    [EvOk; EvOk; EvOk; EvOk; EvFail; EvOk; EvOk; EvOk; EvFail] [].

(** A second report of web01, in state failed. *)
Definition report_B : PuppetReport :=
  mkPuppetReport "web01" "failed" "15" 1 0 10 0 "web" "main" 1700000000 "H9".

Definition parse_as_B (content : list byte) : result PuppetReport :=
  match content with
  | [] => Err (ErrMsg "empty report")
  | _ => Ok report_B
  end.

(** The files left once the artifacts [paths] below [prefix] are unlinked. *)
Definition without_artifacts (join : string -> string -> string)
    (prefix : string) (paths : list string) (f : gmap string Node)
    : gmap string Node :=
  foldl (fun f p => delete (join prefix p) f) f paths.

(** The report is older than [days] days at time [now]. *)
Definition expired (now days : Z) (r : Report) : Prop :=
  days * 86400 < now - executed_at r.

#[global] Instance expired_dec now days r : Decision (expired now days r).
Proof. unfold expired. apply _. Defined.

(** Every column but [yaml_file] agrees. *)
Definition same_but_yaml (r r' : Report) : Prop :=
  r_id r' = r_id r ∧ r_host_id r' = r_host_id r ∧ r_fqdn r' = r_fqdn r ∧
  r_state r' = r_state r ∧ r_runtime r' = r_runtime r ∧
  executed_at r' = executed_at r ∧ r_role r' = r_role r ∧
  r_branch r' = r_branch r ∧ r_build_time r' = r_build_time r ∧
  r_total r' = r_total r ∧ r_skipped r' = r_skipped r ∧
  r_failed r' = r_failed r ∧ r_changed r' = r_changed r.

(** The fqdns of the hosts in state orphaned. *)
Definition orphaned_fqdns (s : Store) : list string :=
  h_fqdn <$> filter (fun h => h_state h = "orphaned") (hosts s).

(** An instance of the engine's reading of a text as an integer: decimal
    digits only. *)
Fixpoint digits_value (acc : Z) (s : string) : option Z :=
  match s with
  | EmptyString => Some acc
  | String c s' =>
      let n := Z.of_N (Ascii.N_of_ascii c) - 48 in
      if (0 <=? n) && (n <=? 9) then digits_value (10 * acc + n) s' else None
  end.

Definition decimal_id (s : string) : option Z :=
  match s with
  | EmptyString => None
  | _ => digits_value 0 s
  end.

Arguments p_State {float64} _.
Arguments p_Count {float64} _.
Arguments p_Percentage {float64} _.

(** [total += data[i].Count], over the whole list. *)
Definition sum_counts {float64 : Type} (data : list (PuppetState float64)) : Z :=
  foldr Z.add 0 (p_Count <$> data).

(** The number of hosts in state [name]. *)
Definition hosts_in_state (name : string) (s : Store) : Z :=
  Z.of_nat (length (filter (fun h => h_state h = name) (hosts s))).

(** ** What a call establishes *)

(** From a world where [P] holds, the answer of [m] and the world it leaves
    satisfy [Q]. *)
Definition triple {A} (P : World -> Prop) (m : M A) (Q : A -> World -> Prop)
    : Prop :=
  ∀ w, P w -> Q (eval m w) (exec m w).

(** A call that leaves the files as they are. *)
Definition fs_stable {A} (m : M A) : Prop := ∀ w, fs (exec m w) = fs w.

(** The worlds where no other connection writes, the store is [s] and the
    file [p] exists. *)
Definition found (s : Store) (p : string) (w : World) : Prop :=
  isolated w = true ∧ store w = s ∧ is_Some (fs w !! p).

(** * Proofs *)

(** ** One call under a quiet schedule *)

Lemma bind_run {A B} (m : M A) (f : A -> M B) (w : World) :
  (m ≫= f) w = let '(a, w') := m w in f a w'.
Proof. reflexivity. Qed.

Lemma next_event_quiet w : quiet w = true -> next_event w = (false, tick w).
Proof.
  unfold quiet, next_event, tick. destruct w as [o s f c k l]; simpl.
  destruct k as [|[| |g] k]; simpl; intros H; try discriminate; reflexivity.
Qed.

Lemma quiet_tick w : quiet w = true -> quiet (tick w) = true.
Proof.
  unfold quiet, tick; simpl. destruct (sched w) as [|e k]; simpl; [done|].
  intros [_ H]%andb_prop. exact H.
Qed.

Lemma quiet_publish s w : quiet (publish s w) = quiet w.
Proof. reflexivity. Qed.

Lemma quiet_set_fs f w : quiet (set_fs f w) = quiet w.
Proof. reflexivity. Qed.

Lemma db_Exec_quiet stmt w :
  quiet w = true ->
  db_Exec stmt w =
    match stmt (store w) with
    | Ok s' => (None, publish s' (tick w))
    | Err e => (Some e, tick w)
    end.
Proof.
  intros H. unfold db_Exec. rewrite bind_run, next_event_quiet by done.
  unfold get_store; rewrite bind_run. simpl. by destruct (stmt (store w)).
Qed.

Lemma db_QueryRow_quiet {A} (q : Store -> option A) w :
  quiet w = true ->
  db_QueryRow q w =
    (match q (store w) with Some a => Ok a | None => Err ErrNoRows end, tick w).
Proof.
  intros H. unfold db_QueryRow. rewrite bind_run, next_event_quiet by done.
  unfold get_store; rewrite bind_run. simpl. by destruct (q (store w)).
Qed.

Lemma db_Query_quiet {A} (q : Store -> list A) w :
  quiet w = true -> db_Query q w = (Ok (q (store w)), tick w).
Proof.
  intros H. unfold db_Query. by rewrite bind_run, next_event_quiet.
Qed.

Lemma db_Prepare_quiet w : quiet w = true -> db_Prepare w = (None, tick w).
Proof. intros H. unfold db_Prepare. by rewrite bind_run, next_event_quiet. Qed.

Lemma db_Begin_quiet w :
  quiet w = true -> db_Begin w = (Ok (fun s => s), tick w).
Proof. intros H. unfold db_Begin. by rewrite bind_run, next_event_quiet. Qed.

Lemma tx_Exec_quiet tx stmt w :
  quiet w = true -> tx_Exec tx stmt w = ((None, fun s => stmt (tx s)), tick w).
Proof. intros H. unfold tx_Exec. by rewrite bind_run, next_event_quiet. Qed.

Lemma tx_Commit_quiet tx w :
  quiet w = true -> tx_Commit tx w = (None, publish (tx (store w)) (tick w)).
Proof. intros H. unfold tx_Commit. by rewrite bind_run, next_event_quiet. Qed.

Lemma ret_run {A} (a : A) (w : World) : (mret a : M A) w = (a, w).
Proof. reflexivity. Qed.

(** Quietness survives ticks, commits and filesystem writes. *)
Ltac solve_quiet :=
  repeat first
    [ apply quiet_tick | rewrite quiet_publish | rewrite quiet_set_fs ];
  assumption.

(** Runs a computation as far as the quiet-schedule equations reach. *)
Ltac run_step :=
  first
    [ rewrite bind_run
    | rewrite ret_run
    | rewrite db_Exec_quiet by solve_quiet
    | rewrite db_QueryRow_quiet by solve_quiet
    | rewrite db_Query_quiet by solve_quiet
    | rewrite db_Prepare_quiet by solve_quiet
    | rewrite db_Begin_quiet by solve_quiet
    | rewrite tx_Exec_quiet by solve_quiet
    | rewrite tx_Commit_quiet by solve_quiet ].

Ltac run := repeat (run_step; cbn beta iota).

(** ** One call under an isolated schedule: the store moves only if the
    call's own statement commits *)

Lemma next_event_isolated w :
  isolated w = true ->
  ∃ failed, next_event w = (failed, tick w).
Proof.
  unfold isolated, next_event, tick. destruct w as [o s f c k l]; simpl.
  destruct k as [|[| |g] k]; simpl; intros H; try discriminate; eauto.
Qed.

Lemma db_Exec_isolated stmt w :
  isolated w = true ->
  store (exec (db_Exec stmt) w) = store w ∨
  ∃ s', stmt (store w) = Ok s' ∧ store (exec (db_Exec stmt) w) = s'.
Proof.
  intros H. destruct (next_event_isolated w H) as [failed E].
  unfold exec, db_Exec. rewrite bind_run, E.
  destruct failed; [by left|].
  unfold get_store; rewrite bind_run; simpl.
  destruct (stmt (store w)) as [s'|e]; simpl; [right; eauto | by left].
Qed.

(** ** Arithmetic of [int64] *)

Lemma wrap64_small z : - 2 ^ 63 <= z < 2 ^ 63 -> wrap64 z = z.
Proof. intros H. unfold wrap64. rewrite Z.mod_small; lia. Qed.

Lemma clock_fits_spec span w :
  clock_fits span w = true -> - 2 ^ 63 + span <= clock w < 2 ^ 63.
Proof. unfold clock_fits. intros [H1 H2]%andb_prop. lia. Qed.

(** ** The orphan sweep *)


Lemma updateOrphans_quiet w :
  db_open w = true -> quiet w = true ->
  updateOrphans w =
    (tt, publish (sql_mark_orphans (wrap64 (clock w - orphan_threshold)) (store w))
           (tick w)).
Proof.
  intros Ho Hq. unfold updateOrphans, db_is_nil, time_Now_Unix.
  rewrite bind_run, Ho; simpl. rewrite !bind_run, db_Exec_quiet by done.
  reflexivity.
Qed.

Lemma mark_orphans_Forall2 cutoff hs :
  Forall2 (fun h h' =>
             same_but_state h h' ∧
             h_state h' = if last_seen h <? cutoff then "orphaned" else h_state h)
    hs ((fun h => if last_seen h <? cutoff then orphan h else h) <$> hs).
Proof.
  apply Forall2_fmap_r, Forall_Forall2_diag, Forall_forall. intros h _.
  unfold same_but_state. simpl.
  destruct (last_seen h <? cutoff); repeat split.
Qed.

(** C8. The orphan sweep, run at time [now] with nothing failing, rewrites
    the [state] column of exactly the hosts with
    [last_seen < now - 302400] to "orphaned" and leaves every other column,
    every other host and the other tables as they were; a host seen at
    [now - 302400 - 1] is marked, one seen at [now - 302400 + 1] is not. *)
Theorem updateOrphans_marks_exactly_stale w :
  db_open w = true -> quiet w = true -> clock_fits orphan_threshold w = true ->
  let w' := exec updateOrphans w in
  let cutoff := clock w - orphan_threshold in
  Forall2 (fun h h' =>
             same_but_state h h' ∧
             h_state h' = if last_seen h <? cutoff then "orphaned" else h_state h)
    (hosts (store w)) (hosts (store w')) ∧
  (∀ i h, hosts (store w) !! i = Some h -> last_seen h = cutoff - 1 ->
          h_state <$> hosts (store w') !! i = Some "orphaned") ∧
  (∀ i h, hosts (store w) !! i = Some h -> last_seen h = cutoff + 1 ->
          hosts (store w') !! i = Some h) ∧
  reports (store w') = reports (store w) ∧
  history (store w') = history (store w).
Proof.
  intros Ho Hq Hc w' cutoff. subst w'. unfold exec.
  rewrite updateOrphans_quiet by done. simpl.
  apply clock_fits_spec in Hc.
  replace (wrap64 (clock w - orphan_threshold)) with cutoff
    by (symmetry; apply wrap64_small; unfold orphan_threshold in *; lia).
  split_and!; try reflexivity.
  - apply mark_orphans_Forall2.
  - intros i h Hi Hs. rewrite !list_lookup_fmap, Hi. simpl.
    destruct (Z.ltb_spec (last_seen h) cutoff); [done | lia].
  - intros i h Hi Hs. rewrite list_lookup_fmap, Hi. simpl.
    destruct (Z.ltb_spec (last_seen h) cutoff); [lia | done].
Qed.


Lemma updateOrphans_marks_exactly_stale_witness :
  h_state <$> hosts (store (exec updateOrphans stale_world)) !! 0%nat
    = Some "orphaned" ∧
  hosts (store (exec updateOrphans stale_world)) !! 1%nat
    = Some (mkHost 2 "b.example" "web" "main" 7 "failed" 697601 "3" 1).
Proof.
  pose proof (updateOrphans_marks_exactly_stale stale_world
                ltac:(reflexivity) ltac:(reflexivity) ltac:(reflexivity))
    as (_ & Hlo & Hhi & _).
  split.
  - apply (Hlo 0%nat (mkHost 1 "a.example" "web" "main" 7 "changed" 697599 "3" 0));
      reflexivity.
  - apply (Hhi 1%nat (mkHost 2 "b.example" "web" "main" 7 "failed" 697601 "3" 1));
      reflexivity.
Defined.

(** ** The purge of stale hosts *)

Lemma purgeOrphans_quiet days w :
  db_open w = true -> quiet w = true ->
  purgeOrphans days w =
    (tt, publish
           (sql_delete_hosts (wrap64 (clock w - wrap64 (days * (24 * 60 * 60))))
              (store w))
           (tick w)).
Proof.
  intros Ho Hq. unfold purgeOrphans, db_is_nil, time_Now_Unix.
  rewrite bind_run, Ho; simpl. rewrite !bind_run, db_Exec_quiet by done.
  reflexivity.
Qed.

(** Whatever fails, the hosts table after [purgeOrphans] is the one before
    or the one the DELETE leaves. *)
Lemma purgeOrphans_isolated days w :
  isolated w = true ->
  store (exec (purgeOrphans days) w) = store w ∨
  ∃ cutoff, store (exec (purgeOrphans days) w) = sql_delete_hosts cutoff (store w).
Proof.
  intros Hi. unfold exec, purgeOrphans, db_is_nil, time_Now_Unix.
  rewrite bind_run. destruct (negb (db_open w)); [by left|].
  rewrite !bind_run.
  set (stmt := fun s => Ok (sql_delete_hosts _ s)).
  destruct (db_Exec_isolated stmt w Hi) as [E|(s' & Es & E)];
    unfold exec in E; destruct (db_Exec stmt w) as [e w1]; simpl in *.
  - by left.
  - right. subst stmt. simpl in Es. injection Es as <-. eauto.
Qed.

Lemma delete_hosts_keeps_pinned cutoff (hs : list Host) :
  filter (fun h => pinned h ≠ 0)
    (filter (fun h => ¬ (last_seen h < cutoff ∧ pinned h = 0)) hs)
  = filter (fun h => pinned h ≠ 0) hs.
Proof.
  rewrite list_filter_filter. apply list_filter_iff. intros h. tauto.
Qed.

(** C6. No invocation of [purgeOrphans] removes or alters a host row whose
    pin flag is set: whatever the threshold, the state and age of the hosts,
    and whichever calls fail, the pinned rows after the purge are the pinned
    rows before it, in the same order. *)
Theorem purgeOrphans_keeps_pinned days w :
  isolated w = true ->
  filter (fun h => pinned h ≠ 0) (hosts (store (exec (purgeOrphans days) w)))
  = filter (fun h => pinned h ≠ 0) (hosts (store w)).
Proof.
  intros Hi. destruct (purgeOrphans_isolated days w Hi) as [-> | [cutoff ->]].
  - reflexivity.
  - apply delete_hosts_keeps_pinned.
Qed.


Lemma purgeOrphans_keeps_pinned_witness :
  filter (fun h => pinned h ≠ 0)
    (hosts (store (exec (purgeOrphans 30) old_hosts_world)))
  = [mkHost 2 "b.example" "web" "main" 7 "orphaned" 1000 "3" 1].
Proof.
  rewrite (purgeOrphans_keeps_pinned 30 old_hosts_world); reflexivity.
Defined.

(** C4, as the claim has it, fails: [purgeOrphans] deletes a stale,
    unpinned host that is in state "changed", and the reports of the deleted
    host stay in the reports table. *)
Lemma purgeOrphans_state_and_cascade_counterexample :
  let h := mkHost 1 "a.example" "web" "main" 7 "changed" 1000 "3" 0 in
  let w' := exec (purgeOrphans 30) old_hosts_world in
  h ∈ hosts (store old_hosts_world) ∧ h_state h ≠ "orphaned" ∧
  (h ∉ hosts (store w')) ∧
  ∃ r, r ∈ reports (store w') ∧ r_fqdn r = h_fqdn h ∧ r_host_id r = host_id h.
Proof.
  simpl. split_and!.
  - apply list_elem_of_here.
  - discriminate.
  - vm_compute. intros H. apply list_elem_of_In in H. simpl in H.
    destruct H as [H|[]]. discriminate H.
  - eexists. split; [apply list_elem_of_here|]. split; reflexivity.
Qed.

(** C4, amended. [purgeOrphans(days)], run at time [now] with nothing
    failing, deletes exactly the hosts with
    [last_seen < now - days * 86400] and [pinned = 0], whatever their state;
    the hosts it keeps are unchanged and in order, and it touches neither
    the reports table, nor the history table, nor any file. *)
Theorem purgeOrphans_deletes_stale_unpinned days w :
  db_open w = true -> quiet w = true ->
  0 <= days < 2 ^ 32 -> clock_fits (days * 86400) w = true ->
  let w' := exec (purgeOrphans days) w in
  let cutoff := clock w - days * 86400 in
  hosts (store w')
    = filter (fun h => ¬ (last_seen h < cutoff ∧ pinned h = 0)) (hosts (store w)) ∧
  (∀ h, h ∈ hosts (store w') ↔
        h ∈ hosts (store w) ∧ ¬ (last_seen h < cutoff ∧ pinned h = 0)) ∧
  reports (store w') = reports (store w) ∧
  history (store w') = history (store w) ∧
  fs w' = fs w.
Proof.
  intros Ho Hq Hd Hc w' cutoff. subst w'. unfold exec.
  rewrite purgeOrphans_quiet by done. simpl.
  apply clock_fits_spec in Hc.
  replace (24 * 60 * 60) with 86400 by reflexivity.
  rewrite (wrap64_small (days * 86400)) by lia.
  rewrite wrap64_small by lia. fold cutoff.
  split_and!; try reflexivity.
  intros h. rewrite list_elem_of_filter. tauto.
Qed.

Lemma purgeOrphans_deletes_stale_unpinned_witness :
  hosts (store (exec (purgeOrphans 30) old_hosts_world))
  = [mkHost 2 "b.example" "web" "main" 7 "orphaned" 1000 "3" 1].
Proof.
  pose proof (purgeOrphans_deletes_stale_unpinned 30 old_hosts_world
                ltac:(reflexivity) ltac:(reflexivity) ltac:(lia)
                ltac:(reflexivity)) as (H & _).
  rewrite H. reflexivity.
Defined.

(** ** The history buckets *)


Lemma history_wf_spec s :
  history_wf s = true ↔
  NoDup (hi_id <$> history s) ∧ Forall (fun b => hi_id b ≤ seq_history s) (history s).
Proof.
  unfold history_wf. rewrite andb_true_iff, bool_decide_eq_true.
  rewrite forallb_forall, Forall_forall.
  split; intros [H1 H2]; split; try done; intros b Hb.
  - apply Z.leb_le, H2, list_elem_of_In, Hb.
  - apply Z.leb_le, H2, list_elem_of_In, Hb.
Qed.

Lemma find_fmap_same {A} (p : A -> bool) (g : A -> A) (l : list A) :
  (∀ x, p (g x) = p x) ->
  List.find p (g <$> l) = g <$> List.find p l.
Proof.
  intros Hp. induction l as [|x l IH]; simpl; [done|].
  rewrite Hp. destruct (p x); [done | exact IH].
Qed.

Lemma existsb_fmap_same {A} (p : A -> bool) (g : A -> A) (l : list A) :
  (∀ x, p (g x) = p x) -> existsb p (g <$> l) = existsb p l.
Proof.
  intros Hp. induction l as [|x l IH]; csimpl; [done|]. by rewrite Hp, IH.
Qed.

Lemma find_none_existsb {A} (p : A -> bool) (l : list A) :
  List.find p l = None -> existsb p l = false.
Proof.
  induction l as [|x l IH]; simpl; [done|]. destruct (p x); [done | exact IH].
Qed.

Lemma find_snoc {A} (p : A -> bool) (l : list A) (x : A) :
  List.find p (l ++ [x]) =
    match List.find p l with
    | Some y => Some y
    | None => if p x then Some x else None
    end.
Proof.
  induction l as [|y l IH]; simpl; [done|]. destruct (p y); [done | exact IH].
Qed.

Lemma NoDup_fmap_eq {A B} (f : A -> B) (l : list A) (x y : A) :
  NoDup (f <$> l) -> x ∈ l -> y ∈ l -> f x = f y -> x = y.
Proof.
  intros Hn Hx Hy Hf.
  apply list_elem_of_lookup in Hx as [i Hi]. apply list_elem_of_lookup in Hy as [j Hj].
  assert (i = j) as ->.
  { eapply NoDup_lookup; [exact Hn | |].
    - rewrite list_lookup_fmap, Hi. reflexivity.
    - rewrite list_lookup_fmap, Hj. simpl. by rewrite Hf. }
  congruence.
Qed.

Lemma lookup_history_find key s :
  sql_lookup_history key s
  = hi_id <$> List.find (fun b => String.eqb (date b) key) (history s).
Proof. reflexivity. Qed.

(** The INSERT of a missing bucket. *)
Lemma insert_history_miss key s :
  sql_lookup_history key s = None ->
  sql_insert_history key s = Ok (with_bucket key s).
Proof.
  rewrite lookup_history_find. intros H. unfold sql_insert_history.
  destruct (List.find _ _) eqn:E; [done|].
  by rewrite (find_none_existsb _ _ E).
Qed.

Lemma with_bucket_props key s :
  sql_lookup_history key s = None -> history_wf s = true ->
  history_wf (with_bucket key s) = true ∧
  sql_lookup_history key (with_bucket key s) = Some (seq_history s + 1) ∧
  counters key (with_bucket key s) = (0, 0, 0) ∧
  has_bucket key (with_bucket key s) = true ∧
  (∀ k, k ≠ key ->
        counters k (with_bucket key s) = counters k s ∧
        has_bucket k (with_bucket key s) = has_bucket k s).
Proof.
  rewrite lookup_history_find. intros Hm [Hn Hle]%history_wf_spec.
  destruct (List.find _ (history s)) eqn:E; [done|]. clear Hm.
  split_and!.
  - apply history_wf_spec. simpl. split.
    + rewrite fmap_app. simpl. apply NoDup_app. split_and!; [done| |apply NoDup_singleton].
      intros x Hx Hx'. apply list_elem_of_singleton in Hx'. subst x.
      apply list_elem_of_fmap in Hx as (b & Hb & Hin).
      rewrite Forall_forall in Hle. specialize (Hle b Hin). lia.
    + apply Forall_app. split.
      * eapply Forall_impl; [exact Hle|]. simpl. intros; lia.
      * apply Forall_singleton. simpl. lia.
  - rewrite lookup_history_find. simpl. rewrite find_snoc, E. simpl.
    by rewrite String.eqb_refl.
  - unfold counters. simpl. rewrite find_snoc, E. simpl.
    by rewrite String.eqb_refl.
  - unfold has_bucket. simpl. rewrite existsb_app. simpl.
    rewrite String.eqb_refl. by rewrite orb_true_r.
  - intros k Hk. unfold counters, has_bucket. simpl.
    rewrite find_snoc, existsb_app. simpl.
    assert (String.eqb key k = false) as -> by (apply String.eqb_neq; congruence).
    rewrite orb_false_r. split; [|done].
    by destruct (List.find (fun b => String.eqb (date b) k) (history s)).
Qed.

(** The UPDATE of the bucket the lookup found. *)
Lemma update_history_props key id f c u s :
  history_wf s = true -> sql_lookup_history key s = Some id ->
  0 <= f -> 0 <= c -> 0 <= u ->
  let s' := sql_update_history f c u id s in
  history_wf s' = true ∧
  counters key s' = add3 (counters key s) (f, c, u) ∧
  (∀ k, has_bucket k s' = has_bucket k s) ∧
  (∀ k, k ≠ key -> counters k s' = counters k s) ∧
  Forall2 bucket_le (history s) (history s').
Proof.
  intros Hwf Hl Hf Hc Hu s'. subst s'.
  apply history_wf_spec in Hwf as [Hn Hle].
  rewrite lookup_history_find in Hl.
  destruct (List.find _ (history s)) as [b0|] eqn:E0; [|done].
  simpl in Hl. injection Hl as Hid.
  pose proof (find_some _ _ E0) as [Hin0 Hd0]. apply list_elem_of_In in Hin0.
  apply String.eqb_eq in Hd0.
  set (g := fun b => if hi_id b =? id then bump f c u b else b).
  assert (Hgid : ∀ b, hi_id (g b) = hi_id b).
  { intros b. unfold g. by destruct (hi_id b =? id). }
  assert (Hgd : ∀ b, date (g b) = date b).
  { intros b. unfold g. by destruct (hi_id b =? id). }
  assert (Hother : ∀ b, b ∈ history s -> date b ≠ key -> g b = b).
  { intros b Hb Hk. unfold g. destruct (Z.eqb_spec (hi_id b) id) as [Heq|]; [|done].
    exfalso. apply Hk. rewrite <- Hd0. f_equal.
    apply (NoDup_fmap_eq hi_id (history s)); [done..|congruence]. }
  assert (Hfind : ∀ k, List.find (fun b => String.eqb (date b) k) (g <$> history s)
                       = g <$> List.find (fun b => String.eqb (date b) k) (history s)).
  { intros k. apply find_fmap_same. intros x. by rewrite Hgd. }
  unfold sql_update_history. fold g. split_and!.
  - apply history_wf_spec. simpl. split.
    + rewrite <- list_fmap_compose.
      erewrite list_fmap_ext; [exact Hn|]. intros i x _. apply Hgid.
    + apply Forall_fmap. eapply Forall_impl; [exact Hle|].
      intros b Hb. simpl. by rewrite Hgid.
  - unfold counters. simpl. rewrite Hfind, E0. simpl.
    unfold g. rewrite Hid, Z.eqb_refl. reflexivity.
  - intros k. unfold has_bucket. simpl. apply existsb_fmap_same.
    intros x. by rewrite Hgd.
  - intros k Hk. unfold counters. simpl. rewrite Hfind.
    destruct (List.find (fun b => String.eqb (date b) k) (history s))
      as [b1|] eqn:E1; [|done].
    apply find_some in E1 as [Hin1 Hd1].
    apply list_elem_of_In in Hin1. apply String.eqb_eq in Hd1.
    change (g <$> Some b1) with (Some (g b1)).
    rewrite Hother; [done..|congruence].
  - apply Forall2_fmap_r, Forall_Forall2_diag, Forall_forall. intros b _.
    unfold bucket_le, g. simpl.
    destruct (hi_id b =? id); simpl; split_and!; first [reflexivity | lia].
Qed.

Lemma increments_nonneg state f c u :
  increments state = (f, c, u) -> 0 <= f ∧ 0 <= c ∧ 0 <= u.
Proof.
  unfold increments.
  repeat (destruct (String.eqb state _)); intros [= <- <- <-]; lia.
Qed.

Section HistoryProofs.

Variable date_key : Z -> string.

Lemma updateHistory_quiet_hit d state w id f c u :
  db_open w = true -> quiet w = true ->
  sql_lookup_history (date_key d) (store w) = Some id ->
  increments state = (f, c, u) ->
  updateHistory date_key d state w =
    (None, publish (sql_update_history f c u id (store w)) (tick (tick w))).
Proof.
  intros Ho Hq Hl Hi. unfold updateHistory, db_is_nil.
  rewrite bind_run, Ho; simpl. run. rewrite Hl. run. rewrite Hi. run.
  reflexivity.
Qed.

Lemma updateHistory_quiet_miss d state w f c u :
  db_open w = true -> quiet w = true ->
  sql_lookup_history (date_key d) (store w) = None ->
  history_wf (store w) = true ->
  increments state = (f, c, u) ->
  let s1 := with_bucket (date_key d) (store w) in
  updateHistory date_key d state w =
    (None,
     publish (sql_update_history f c u (seq_history (store w) + 1) s1)
       (tick (tick (publish s1 (tick (tick w)))))).
Proof.
  intros Ho Hq Hl Hwf Hi s1. unfold updateHistory, db_is_nil.
  rewrite bind_run, Ho; simpl. run. rewrite Hl. run.
  simpl. rewrite (insert_history_miss _ _ Hl). run. simpl. subst s1.
  destruct (with_bucket_props _ _ Hl Hwf) as (_ & -> & _).
  run. rewrite Hi. run. reflexivity.
Qed.

Lemma find_some_existsb {A} (p : A -> bool) (l : list A) x :
  List.find p l = Some x -> existsb p l = true.
Proof.
  intros [Hin Hp]%find_some. apply existsb_exists. eauto.
Qed.

(** What one [updateHistory] does when nothing fails. *)
Lemma updateHistory_effect d state w :
  db_open w = true -> quiet w = true -> history_wf (store w) = true ->
  let key := date_key d in
  let w' := exec (updateHistory date_key d state) w in
  eval (updateHistory date_key d state) w = None ∧
  history_wf (store w') = true ∧
  has_bucket key (store w') = true ∧
  counters key (store w') = add3 (counters key (store w)) (increments state) ∧
  (∀ k, k ≠ key ->
        counters k (store w') = counters k (store w) ∧
        has_bucket k (store w') = has_bucket k (store w)) ∧
  (∀ b, b ∈ history (store w) -> ∃ b', b' ∈ history (store w') ∧ bucket_le b b') ∧
  hosts (store w') = hosts (store w) ∧
  reports (store w') = reports (store w) ∧
  fs w' = fs w ∧
  quiet w' = true ∧ db_open w' = true.
Proof.
  intros Ho Hq Hwf key w'. subst w' key. unfold eval, exec.
  destruct (increments state) as [[f c] u] eqn:Hi.
  destruct (increments_nonneg _ _ _ _ Hi) as (Hf & Hc & Hu).
  destruct (sql_lookup_history (date_key d) (store w)) as [id|] eqn:Hl.
  - rewrite (updateHistory_quiet_hit d state w id f c u) by done. simpl.
    destruct (update_history_props (date_key d) id f c u (store w) Hwf Hl Hf Hc Hu)
      as (Hwf' & Hk & Hb & Ho' & Hmono).
    split_and!; try done; [| | |solve_quiet].
    + rewrite Hb. rewrite lookup_history_find in Hl.
      destruct (List.find _ (history (store w))) eqn:E; [|done].
      by apply find_some_existsb in E.
    + intros k Hne. by rewrite Ho', Hb.
    + intros b Hb'. apply list_elem_of_lookup in Hb' as [i Hi'].
      destruct (Forall2_lookup_l _ _ _ _ _ Hmono Hi') as (b' & Hb' & Hle).
      exists b'. split; [|done]. by apply list_elem_of_lookup_2 in Hb'.
  - rewrite (updateHistory_quiet_miss d state w f c u) by done. simpl.
    destruct (with_bucket_props (date_key d) (store w) Hl Hwf)
      as (Hwf1 & Hl1 & Hc1 & Hb1 & Ho1).
    destruct (update_history_props (date_key d) _ f c u _ Hwf1 Hl1 Hf Hc Hu)
      as (Hwf' & Hk & Hb & Ho' & Hmono).
    split_and!; try done; [| | | |solve_quiet].
    + by rewrite Hb.
    + rewrite Hk, Hc1. unfold counters. rewrite lookup_history_find in Hl.
      by destruct (List.find _ (history (store w))).
    + intros k Hne. destruct (Ho1 k Hne) as [E1 E2].
      by rewrite Ho', Hb, E1, E2.
    + intros b Hb'.
      assert (b ∈ history (with_bucket (date_key d) (store w))) as Hin.
      { simpl. apply elem_of_app. by left. }
      apply list_elem_of_lookup in Hin as [i Hi'].
      destruct (Forall2_lookup_l _ _ _ _ _ Hmono Hi') as (b' & Hb'' & Hle).
      exists b'. split; [|done]. by apply list_elem_of_lookup_2 in Hb''.
Qed.

(** Every store that [updateHistory] commits has the hosts and the reports
    it started from. *)
Lemma updateHistory_log d state w :
  db_open w = true -> quiet w = true -> history_wf (store w) = true ->
  ∃ new,
    log (exec (updateHistory date_key d state) w) = new ++ log w ∧
    Forall (fun st => hosts st = hosts (store w) ∧ reports st = reports (store w))
      new.
Proof.
  intros Ho Hq Hwf. unfold exec.
  destruct (increments state) as [[f c] u] eqn:Hi.
  destruct (sql_lookup_history (date_key d) (store w)) as [id|] eqn:Hl.
  - rewrite (updateHistory_quiet_hit d state w id f c u) by done. simpl.
    eexists [_]. split; [reflexivity|]. by repeat constructor.
  - rewrite (updateHistory_quiet_miss d state w f c u) by done. simpl.
    eexists [_; _]. split; [reflexivity|]. by repeat constructor.
Qed.

End HistoryProofs.

(** C9. [updateHistory(date, state)], with nothing failing, turns the epoch
    into its date key; afterwards a bucket of that key exists, and its
    counters are those it had before (zeros if it had to be created) plus
    one on the counter named by the state, "failed", "changed" or
    "unchanged", and plus nothing for any other state.  The buckets of the
    other dates keep their counters, and no bucket loses counts. *)
Theorem updateHistory_increments_matching_counter date_key d state w :
  db_open w = true -> quiet w = true -> history_wf (store w) = true ->
  let key := date_key d in
  let w' := exec (updateHistory date_key d state) w in
  let delta :=
    if decide (state = "failed") then (1, 0, 0)
    else if decide (state = "changed") then (0, 1, 0)
    else if decide (state = "unchanged") then (0, 0, 1)
    else (0, 0, 0) in
  has_bucket key (store w') = true ∧
  counters key (store w') = add3 (counters key (store w)) delta ∧
  (∀ k, k ≠ key ->
        counters k (store w') = counters k (store w) ∧
        has_bucket k (store w') = has_bucket k (store w)) ∧
  (∀ b, b ∈ history (store w) -> ∃ b', b' ∈ history (store w') ∧ bucket_le b b').
Proof.
  intros Ho Hq Hwf key w' delta.
  destruct (updateHistory_effect date_key d state w Ho Hq Hwf)
    as (_ & _ & Hb & Hc & Hk & Hm & _).
  split_and!; try done.
  fold key w' in Hc. rewrite Hc. f_equal. subst delta. unfold increments.
  repeat case_decide; subst; try reflexivity.
  repeat match goal with
         | H : state ≠ _ |- _ => apply String.eqb_neq in H; rewrite H
         end.
  reflexivity.
Qed.

Lemma updateHistory_increments_matching_counter_witness :
  counters "1970/01/12"
    (store (exec (updateHistory strftime_Ymd 1000000 "changed") one_bucket_world))
  = (2, 4, 4).
Proof.
  pose proof (updateHistory_increments_matching_counter strftime_Ymd 1000000
                "changed" one_bucket_world
                ltac:(reflexivity) ltac:(reflexivity) ltac:(reflexivity))
    as (_ & H & _).
  exact H.
Defined.

(** ** The order of [ORDER BY date] *)

Lemma ascii_compare_refl a : Ascii.compare a a = Eq.
Proof. unfold Ascii.compare. apply N.compare_refl. Qed.

Lemma ascii_compare_lt_trans a b c :
  Ascii.compare a b = Lt -> Ascii.compare b c = Lt -> Ascii.compare a c = Lt.
Proof.
  unfold Ascii.compare. rewrite !N.compare_lt_iff. apply N.lt_trans.
Qed.

Lemma string_compare_lt_trans a :
  ∀ b c, String.compare a b = Lt -> String.compare b c = Lt ->
         String.compare a c = Lt.
Proof.
  induction a as [|x a IH]; intros [|y b] [|z c]; simpl; try done.
  destruct (Ascii.compare x y) eqn:Exy; try done;
    destruct (Ascii.compare y z) eqn:Eyz; try done.
  - apply Ascii.compare_eq_iff in Exy, Eyz. subst.
    rewrite ascii_compare_refl. apply IH.
  - apply Ascii.compare_eq_iff in Exy. subst. by rewrite Eyz.
  - apply Ascii.compare_eq_iff in Eyz. subst. by rewrite Exy.
  - by rewrite (ascii_compare_lt_trans _ _ _ Exy Eyz).
Qed.

Lemma string_leb_trans a b c :
  String.leb a b = true -> String.leb b c = true -> String.leb a c = true.
Proof.
  unfold String.leb.
  destruct (String.compare a b) eqn:Eab; try done;
    destruct (String.compare b c) eqn:Ebc; try done; intros _ _.
  - apply String.compare_eq_iff in Eab. subst. by rewrite Ebc.
  - apply String.compare_eq_iff in Eab. subst. by rewrite Ebc.
  - apply String.compare_eq_iff in Ebc. subst. by rewrite Eab.
  - by rewrite (string_compare_lt_trans _ _ _ Eab Ebc).
Qed.

#[global] Instance date_le_trans : Transitive date_le.
Proof. intros a b c. unfold date_le. apply string_leb_trans. Qed.

#[global] Instance date_le_total : base.Total date_le.
Proof. intros a b. unfold date_le. apply String.leb_total. Qed.

#[global] Instance executed_ge_trans : Transitive executed_ge.
Proof. intros a b c. unfold executed_ge. lia. Qed.

#[global] Instance executed_ge_total : base.Total executed_ge.
Proof. intros a b. unfold executed_ge. lia. Qed.

(** ** Deleting the first rows of a sorted answer, by id *)

Lemma filter_none {A} (P : A -> Prop) `{∀ x, Decision (P x)} (l : list A) :
  Forall (fun x => ¬ P x) l -> filter P l = [].
Proof.
  induction 1 as [|x l Hx _ IH]; [done|]. by rewrite filter_cons_False.
Qed.

Lemma filter_all {A} (P : A -> Prop) `{∀ x, Decision (P x)} (l : list A) :
  Forall P l -> filter P l = l.
Proof.
  induction 1 as [|x l Hx _ IH]; [done|]. rewrite filter_cons_True by done.
  by rewrite IH.
Qed.

Section DeleteOldest.

Context {A : Type} (key : A -> Z) (R : relation A).
Context `{∀ x y, Decision (R x y)} `{!Transitive R} `{!base.Total R}.

Variable rows : list A.
Hypothesis keys_distinct : NoDup (key <$> rows).

Let sorted := merge_sort R rows.

Lemma sorted_keys_distinct : NoDup (key <$> sorted).
Proof.
  unfold sorted. by rewrite (merge_sort_Permutation R rows).
Qed.

Lemma delete_first_perm (p : nat) :
  filter (fun x => key x ∉ key <$> take p sorted) rows ≡ₚ drop p sorted.
Proof.
  pose proof sorted_keys_distinct as Hn.
  rewrite <- (merge_sort_Permutation R rows). fold sorted.
  rewrite <- (take_drop p sorted) at 1. rewrite filter_app.
  rewrite <- (take_drop p sorted), fmap_app in Hn.
  apply NoDup_app in Hn as (_ & Hdisj & _).
  rewrite filter_none, filter_all; [done| |].
  - apply Forall_forall. intros x Hx Hin. apply (Hdisj (key x)); [done|].
    apply list_elem_of_fmap. eauto.
  - apply Forall_forall. intros x Hx Hnot. apply Hnot.
    apply list_elem_of_fmap. eauto.
Qed.

Lemma delete_first_kept (p : nat) x :
  x ∈ filter (fun x => key x ∉ key <$> take p sorted) rows ↔ x ∈ drop p sorted.
Proof. by rewrite delete_first_perm. Qed.

Lemma delete_first_gone (p : nat) x :
  x ∈ rows -> x ∉ filter (fun x => key x ∉ key <$> take p sorted) rows ->
  x ∈ take p sorted.
Proof.
  intros Hx Hgone. rewrite delete_first_kept in Hgone.
  assert (x ∈ sorted) as Hs by (unfold sorted; by rewrite merge_sort_Permutation).
  rewrite <- (take_drop p sorted) in Hs. apply elem_of_app in Hs as [|]; done.
Qed.

Lemma delete_first_order (p : nat) x y :
  x ∈ rows -> x ∉ filter (fun x => key x ∉ key <$> take p sorted) rows ->
  y ∈ filter (fun x => key x ∉ key <$> take p sorted) rows ->
  R x y.
Proof.
  intros Hx Hgone Hy. apply delete_first_kept in Hy.
  pose proof (delete_first_gone p x Hx Hgone) as Hx'.
  eapply (StronglySorted_app_1_elem_of R (take p sorted) (drop p sorted));
    [|done..].
  rewrite take_drop. unfold sorted. by apply StronglySorted_merge_sort.
Qed.

Lemma delete_first_length (p : nat) :
  length (filter (fun x => key x ∉ key <$> take p sorted) rows)
  = (length rows - p)%nat.
Proof.
  rewrite delete_first_perm, length_drop. unfold sorted.
  by rewrite (merge_sort_Permutation R rows).
Qed.

End DeleteOldest.

(** ** History retention *)

Lemma pruneHistory_quiet w :
  db_open w = true -> quiet w = true ->
  pruneHistory w =
    if sql_count_history (store w) <=? 14 then (tt, tick w)
    else
      (tt,
       publish
         (sql_delete_history
            (sql_oldest_history (sql_count_history (store w) - 14) (store w))
            (store w))
         (tick (tick (tick (tick w))))).
Proof.
  intros Ho Hq. unfold pruneHistory, db_is_nil.
  rewrite bind_run, Ho; simpl. run.
  destruct (sql_count_history (store w) <=? 14); [reflexivity|].
  run. simpl. run. reflexivity.
Qed.

(** C7. [pruneHistory], with nothing failing, leaves the store alone when it
    holds at most 14 buckets.  When it holds more, exactly 14 buckets remain
    (so [count - 14] are deleted), the remaining ones are rows of the table
    as they were and in their order, and every deleted bucket has a date at
    or below the date of every remaining one: strictly below, dates being
    unique.  The other tables are untouched. *)
Theorem pruneHistory_keeps_14_most_recent w :
  db_open w = true -> quiet w = true -> history_wf (store w) = true ->
  let old := history (store w) in
  let w' := exec pruneHistory w in
  let new := history (store w') in
  ((length old <= 14)%nat -> store w' = store w) ∧
  ((14 < length old)%nat ->
     length new = 14%nat ∧
     (length old - length new = length old - 14)%nat ∧
     sublist new old ∧
     ∀ d k, d ∈ old -> d ∉ new -> k ∈ new ->
            date_le d k ∧ (NoDup (date <$> old) -> date d ≠ date k)) ∧
  hosts (store w') = hosts (store w) ∧
  reports (store w') = reports (store w).
Proof.
  intros Ho Hq [Hn _]%history_wf_spec old w' new. subst new w'. unfold exec.
  rewrite pruneHistory_quiet by done. unfold sql_count_history. fold old.
  destruct (Z.leb_spec (Z.of_nat (length old)) 14) as [Hle|Hgt]; simpl.
  - split_and!; try done. lia.
  - unfold sql_delete_history, sql_oldest_history. simpl. fold old.
    fold old in Hn.
    set (p := Z.to_nat (Z.of_nat (length old) - 14)).
    assert (p = (length old - 14)%nat) as Hp by lia.
    split_and!; try done; [lia|]. intros _.
    pose proof (delete_first_length hi_id date_le old Hn p) as Hlen.
    split_and!.
    + lia.
    + lia.
    + apply sublist_filter.
    + intros d k Hd Hgone Hk. split.
      * by apply (delete_first_order hi_id date_le old Hn p).
      * intros Hdates Heq. apply Hgone.
        apply list_elem_of_filter in Hk as Hk'. destruct Hk' as [_ Hk'].
        by rewrite (NoDup_fmap_eq date old d k Hdates Hd Hk' Heq).
Qed.

Lemma pruneHistory_keeps_14_most_recent_witness :
  date <$> history (store (exec pruneHistory twenty_buckets_world))
  = ["2024/01/08"; "2024/01/15"; "2024/01/09"; "2024/01/16"; "2024/01/10";
     "2024/01/17"; "2024/01/11"; "2024/01/18"; "2024/01/12"; "2024/01/19";
     "2024/01/13"; "2024/01/20"; "2024/01/07"; "2024/01/14"] ∧
  length (history (store (exec pruneHistory twenty_buckets_world))) = 14%nat.
Proof.
  pose proof (pruneHistory_keeps_14_most_recent twenty_buckets_world
                ltac:(reflexivity) ltac:(reflexivity) ltac:(reflexivity))
    as (_ & H & _).
  split; [reflexivity|]. apply H. vm_compute. lia.
Defined.

(** ** The per-host listing *)

Section ListingProofs.

Variable timeRelative : string -> string.
Variable time_Format : Z -> string.

Lemma getReports_quiet fqdn w :
  db_open w = true -> quiet w = true ->
  getReports timeRelative time_Format fqdn w =
    (let rows := sql_select_reports fqdn (store w) in
     if (length (summarise timeRelative time_Format <$> rows) <? 1)%nat
     then Err (ErrMsg ("Failed to find reports for " +:+ fqdn))
     else Ok (summarise timeRelative time_Format <$> rows),
     tick (tick w)).
Proof.
  intros Ho Hq. unfold getReports, db_is_nil.
  rewrite bind_run, Ho; simpl. run.
  by destruct (_ <? _)%nat.
Qed.

Lemma select_reports_props fqdn s :
  let matching := filter (fun r => r_fqdn r = fqdn) (reports s) in
  let rows := sql_select_reports fqdn s in
  length rows = (50 `min` length matching)%nat ∧
  StronglySorted executed_ge rows ∧
  (∀ r, r ∈ rows -> r ∈ reports s ∧ r_fqdn r = fqdn) ∧
  (∀ r r', r ∈ rows -> r' ∈ matching -> r' ∉ rows ->
           executed_at r' ≤ executed_at r).
Proof.
  intros matching rows. subst rows. unfold sql_select_reports. fold matching.
  pose proof (StronglySorted_merge_sort executed_ge matching) as Hs.
  pose proof (merge_sort_Permutation executed_ge matching) as Hp.
  set (sorted := merge_sort executed_ge matching) in *.
  rewrite <- (take_drop 50 sorted) in Hs.
  split_and!.
  - rewrite length_take. by rewrite Hp.
  - by apply StronglySorted_app_1_l in Hs.
  - intros r Hr%elem_of_take. destruct Hr as (i & Hr & _).
    apply list_elem_of_lookup_2 in Hr. rewrite Hp in Hr.
    apply list_elem_of_filter in Hr. tauto.
  - intros r r' Hr Hr' Hout.
    apply (StronglySorted_app_1_elem_of _ _ _ r r' Hs Hr).
    rewrite <- Hp, <- (take_drop 50 sorted) in Hr'.
    apply elem_of_app in Hr' as [|]; done.
Qed.

(** C10. [getReports(fqdn)], with nothing failing, answers from the report
    rows of [fqdn]: when there is none it returns the error "Failed to find
    reports for <fqdn>" and no list; otherwise it returns one summary per
    selected row, and the selected rows are rows of that host, at most 50
    (all of them when fewer exist), in descending order of [executed_at],
    with no row left out that is newer than a selected one.  The store is
    not changed. *)
Theorem getReports_newest_50_or_error fqdn w :
  db_open w = true -> quiet w = true ->
  let matching := filter (fun r => r_fqdn r = fqdn) (reports (store w)) in
  let answer := eval (getReports timeRelative time_Format fqdn) w in
  (matching = [] ->
     answer = Err (ErrMsg ("Failed to find reports for " +:+ fqdn))) ∧
  (matching ≠ [] ->
     ∃ rows,
       answer = Ok (summarise timeRelative time_Format <$> rows) ∧
       (1 <= length rows <= 50)%nat ∧
       length rows = (50 `min` length matching)%nat ∧
       StronglySorted executed_ge rows ∧
       (∀ r, r ∈ rows -> r ∈ reports (store w) ∧ r_fqdn r = fqdn) ∧
       (∀ r r', r ∈ rows -> r' ∈ matching -> r' ∉ rows ->
                executed_at r' ≤ executed_at r)) ∧
  store (exec (getReports timeRelative time_Format fqdn) w) = store w.
Proof.
  intros Ho Hq matching answer. subst answer. unfold eval, exec.
  rewrite getReports_quiet by done. cbn [fst snd].
  destruct (select_reports_props fqdn (store w)) as (Hlen & Hs & Hin & Htop).
  fold matching in Hlen, Htop. rewrite length_fmap.
  split_and!; [| |done].
  - intros Hnil. rewrite Hnil in Hlen. simpl in Hlen.
    by rewrite Hlen.
  - intros Hne. exists (sql_select_reports fqdn (store w)).
    assert (0 < length matching)%nat by (destruct matching; [done | simpl; lia]).
    destruct (Nat.ltb_spec (length (sql_select_reports fqdn (store w))) 1);
      [lia|].
    split_and!; try done; lia.
Qed.

End ListingProofs.

Lemma getReports_newest_50_or_error_witness :
  eval (getReports (fun s => s) pretty "c.example") listing_world
    = Err (ErrMsg "Failed to find reports for c.example") ∧
  ∃ rows,
    eval (getReports (fun s => s) pretty "a.example") listing_world
      = Ok (summarise (fun s => s) pretty <$> rows) ∧
    executed_at <$> rows = [300; 200; 100].
Proof.
  pose proof (getReports_newest_50_or_error (fun s => s) pretty "c.example"
                listing_world ltac:(reflexivity) ltac:(reflexivity))
    as (H & _ & _).
  split; [apply H; reflexivity|].
  eexists. split; reflexivity.
Defined.

(** ** Ingestion *)

Lemma select_host_id_find fqdn s :
  sql_select_host_id fqdn s = host_id <$> host_of fqdn s.
Proof. reflexivity. Qed.

Lemma getHostId_quiet fqdn w :
  db_open w = true -> quiet w = true ->
  getHostId fqdn w =
    (match sql_select_host_id fqdn (store w) with
     | Some id => (id, None)
     | None => (0, None)
     end, tick w).
Proof.
  intros Ho Hq. unfold getHostId, db_is_nil.
  rewrite bind_run, Ho; simpl. run.
  by destruct (sql_select_host_id fqdn (store w)).
Qed.

Lemma insert_host_miss fqdn s :
  host_of fqdn s = None -> sql_insert_host fqdn s = Ok (with_host fqdn s).
Proof.
  unfold host_of, sql_insert_host. intros E.
  by rewrite (find_none_existsb _ _ E).
Qed.

Lemma host_of_with_host fqdn s :
  host_of fqdn s = None ->
  host_of fqdn (with_host fqdn s) = Some (zero_host (seq_hosts s + 1) fqdn).
Proof.
  unfold host_of. intros E. simpl. rewrite find_snoc, E. simpl.
  by rewrite String.eqb_refl.
Qed.

Lemma createHost_quiet_miss fqdn w :
  db_open w = true -> quiet w = true ->
  host_of fqdn (store w) = None ->
  createHost fqdn w =
    ((seq_hosts (store w) + 1, None),
     tick (publish (with_host fqdn (store w)) (tick w))).
Proof.
  intros Ho Hq Hm. unfold createHost, db_is_nil.
  rewrite bind_run, Ho; simpl. run.
  rewrite (insert_host_miss _ _ Hm). rewrite getHostId_quiet by solve_quiet.
  simpl. rewrite select_host_id_find, (host_of_with_host _ _ Hm). reflexivity.
Qed.

Lemma hosts_wf_nonzero fqdn s h :
  hosts_wf s = true -> host_of fqdn s = Some h -> (host_id h =? 0) = false.
Proof.
  unfold hosts_wf, host_of. intros Hwf [Hin _]%find_some.
  rewrite forallb_forall in Hwf. specialize (Hwf h Hin). lia.
Qed.

(** The snapshot UPDATE on the row the lookup found. *)
Lemma host_of_update fqdn data at_ h s :
  host_of fqdn s = Some h ->
  host_of fqdn (sql_update_host data at_ (host_id h) s) = Some (snapshot data at_ h).
Proof.
  unfold host_of, sql_update_host. simpl. intros E.
  rewrite find_fmap_same.
  - rewrite E. simpl. by rewrite Z.eqb_refl.
  - intros x. by destruct (host_id x =? host_id h).
Qed.

Section IngestionProofs.

Variable date_key : Z -> string.

Lemma discard_run {A B} (m : M A) (b : B) (w : World) :
  (let '(_, w') := m w in (mret b : M B) w') = (b, exec m w).
Proof. unfold exec. by destruct (m w). Qed.

(** [addDB] up to its commit, then [updateHistory]. *)
Lemma addDB_quiet data path w :
  db_open w = true -> quiet w = true -> hosts_wf (store w) = true ->
  ∃ h0 pre w2,
    let s1 := if host_of (Fqdn data) (store w) is Some _ then store w
              else with_host (Fqdn data) (store w) in
    let s2 := sql_update_host data (clock w) (host_id h0)
                (sql_insert_report data (host_id h0) path (clock w) s1) in
    host_of (Fqdn data) s1 = Some h0 ∧
    Forall (fun st => st = with_host (Fqdn data) (store w)) pre ∧
    db_open w2 = true ∧ quiet w2 = true ∧ fs w2 = fs w ∧ clock w2 = clock w ∧
    store w2 = s2 ∧ log w2 = s2 :: pre ++ log w ∧
    addDB date_key data path w =
      (None, exec (updateHistory date_key (clock w) (State data)) w2).
Proof.
  intros Ho Hq Hwf. unfold addDB, db_is_nil, time_Now_Unix.
  rewrite bind_run, Ho; simpl.
  rewrite bind_run, getHostId_quiet by done.
  rewrite select_host_id_find.
  destruct (host_of (Fqdn data) (store w)) as [h|] eqn:Eh; simpl.
  - rewrite (hosts_wf_nonzero _ _ _ Hwf Eh). run.
    eexists h, [], _. simpl. split_and!.
    9: apply discard_run.
    all: try done. simpl. solve_quiet.
  - rewrite bind_run, createHost_quiet_miss by solve_quiet. run.
    eexists (zero_host _ _), [_], _. simpl. split_and!.
    9: apply discard_run.
    all: try reflexivity.
    all: first [ by apply host_of_with_host
               | by repeat constructor
               | simpl; solve_quiet ].
Qed.

Lemma history_wf_ext s s' :
  history s' = history s -> seq_history s' = seq_history s ->
  history_wf s' = history_wf s.
Proof. unfold history_wf. by intros -> ->. Qed.

(** What one [addDB] does when nothing fails. *)
Lemma addDB_effect data path w :
  db_open w = true -> quiet w = true ->
  hosts_wf (store w) = true -> history_wf (store w) = true ->
  let w' := exec (addDB date_key data path) w in
  let key := date_key (clock w) in
  ∃ hid h' new,
    let row := report_row (seq_reports (store w) + 1) hid data path (clock w) in
    eval (addDB date_key data path) w = None ∧
    reports (store w') = reports (store w) ++ [row] ∧
    host_of (Fqdn data) (store w') = Some h' ∧
    host_id h' = hid ∧ reflects data (clock w) h' ∧
    counters key (store w') = add3 (counters key (store w)) (increments (State data)) ∧
    (∀ k, k ≠ key -> counters k (store w') = counters k (store w)) ∧
    fs w' = fs w ∧
    quiet w' = true ∧ db_open w' = true ∧
    log w' = new ++ log w ∧
    Forall (fun st =>
              (reports st = reports (store w) ∧ history st = history (store w)) ∨
              (reports st = reports (store w) ++ [row] ∧
               host_of (Fqdn data) st = Some h'))
      new ∧
    List.Exists (fun st =>
              reports st = reports (store w) ++ [row] ∧
              host_of (Fqdn data) st = Some h' ∧
              history st = history (store w))
      new.
Proof.
  intros Ho Hq Hhwf Hwf w' key. subst w' key.
  destruct (addDB_quiet data path w Ho Hq Hhwf)
    as (h0 & pre & w2 & Hh0 & Hpre & Ho2 & Hq2 & Hfs2 & Hc2 & Hs2 & Hl2 & Hrun).
  set (s1 := if host_of (Fqdn data) (store w) is Some _ then store w
             else with_host (Fqdn data) (store w)) in *.
  assert (Hs1 : reports s1 = reports (store w) ∧ history s1 = history (store w) ∧
                seq_reports s1 = seq_reports (store w) ∧
                seq_history s1 = seq_history (store w)).
  { subst s1. by destruct (host_of (Fqdn data) (store w)). }
  destruct Hs1 as (Hr1 & Hh1 & Hsr1 & Hsh1).
  assert (Hrep2 : reports (store w2)
                  = reports (store w)
                    ++ [report_row (seq_reports (store w) + 1) (host_id h0) data
                          path (clock w)]).
  { rewrite Hs2. simpl. by rewrite Hr1, Hsr1. }
  assert (Hhist2 : history (store w2) = history (store w)).
  { rewrite Hs2. simpl. exact Hh1. }
  assert (Hhost2 : host_of (Fqdn data) (store w2)
                   = Some (snapshot data (clock w) h0)).
  { rewrite Hs2. by apply host_of_update. }
  assert (Hwf2 : history_wf (store w2) = true).
  { rewrite <- Hwf. apply history_wf_ext; [done|]. rewrite Hs2. simpl. exact Hsh1. }
  destruct (updateHistory_effect date_key (clock w) (State data) w2 Ho2 Hq2 Hwf2)
    as (_ & _ & _ & Hcnt & Hoth & _ & Hhosts & Hreps & Hfs & Hq' & Ho').
  destruct (updateHistory_log date_key (clock w) (State data) w2 Ho2 Hq2 Hwf2)
    as (newh & Hlog & Hnewh).
  assert (Hcnt2 : ∀ k, counters k (store w2) = counters k (store w)).
  { intros k. unfold counters. by rewrite Hhist2. }
  exists (host_id h0), (snapshot data (clock w) h0), (newh ++ store w2 :: pre).
  unfold eval, exec. rewrite Hrun. cbn [fst snd].
  split_and!.
  - done.
  - by rewrite Hreps.
  - unfold host_of in *. by rewrite Hhosts.
  - done.
  - by repeat split.
  - by rewrite Hcnt, Hcnt2.
  - intros k Hk. destruct (Hoth k Hk) as [-> _]. apply Hcnt2.
  - by rewrite Hfs.
  - done.
  - done.
  - rewrite Hlog, Hl2, Hs2. by rewrite <- app_assoc.
  - apply Forall_app. split; [|apply Forall_cons; split].
    + eapply Forall_impl; [exact Hnewh|]. intros st [Hst1 Hst2]. right.
      split; [by rewrite Hst2|]. unfold host_of in *. by rewrite Hst1.
    + by right.
    + eapply Forall_impl; [exact Hpre|]. intros st ->. by left.
  - apply Exists_app. right. by apply Exists_cons_hd.
Qed.

End IngestionProofs.

(** C1, as the claim has it, fails: running [addDB] on a fresh store with
    nothing failing commits a store in which the report row is visible and
    the history table is still empty; the bucket is counted by a later
    commit. *)
Lemma addDB_history_outside_transaction_counterexample :
  let w' := exec (addDB strftime_Ymd report_A "web01/H1") fresh_world in
  (∃ st, st ∈ log w' ∧ length (reports st) = 1%nat ∧ history st = []) ∧
  counters "2024/01/23" (store w') = (0, 1, 0).
Proof.
  split; [|reflexivity].
  eexists. split; [|split].
  - apply list_elem_of_further, list_elem_of_further, list_elem_of_here.
  - reflexivity.
  - reflexivity.
Qed.

(** C1, amended. When no store call fails, [addDB] returns nil and then
    all three mutations are visible: the report row is appended, the host
    row of the fqdn carries the snapshot of the report, and the counter of
    the day's bucket is incremented.  The report row and the host snapshot
    become visible in one commit: every store committed on the way has
    either the old reports and the old history, or the new report row
    together with the updated host row.  The history increment is a separate,
    later commit: one committed store has the report row and the host
    snapshot with the history table as it was. *)
Theorem addDB_commits_report_with_host_then_history date_key data path w :
  db_open w = true -> quiet w = true ->
  hosts_wf (store w) = true -> history_wf (store w) = true ->
  let w' := exec (addDB date_key data path) w in
  let key := date_key (clock w) in
  ∃ hid h' new,
    let row := report_row (seq_reports (store w) + 1) hid data path (clock w) in
    eval (addDB date_key data path) w = None ∧
    reports (store w') = reports (store w) ++ [row] ∧
    host_of (Fqdn data) (store w') = Some h' ∧
    host_id h' = hid ∧ reflects data (clock w) h' ∧
    counters key (store w') = add3 (counters key (store w)) (increments (State data)) ∧
    log w' = new ++ log w ∧
    Forall (fun st =>
              (reports st = reports (store w) ∧ history st = history (store w)) ∨
              (reports st = reports (store w) ++ [row] ∧
               host_of (Fqdn data) st = Some h'))
      new ∧
    List.Exists (fun st =>
              reports st = reports (store w) ++ [row] ∧
              host_of (Fqdn data) st = Some h' ∧
              history st = history (store w))
      new.
Proof.
  intros Ho Hq Hh Hwf w' key.
  destruct (addDB_effect date_key data path w Ho Hq Hh Hwf)
    as (hid & h' & new & H1 & H2 & H3 & H4 & H5 & H6 & _ & _ & _ & _ & H7 & H8 & H9).
  exists hid, h', new. by split_and!.
Qed.

Lemma addDB_commits_report_with_host_then_history_witness :
  ∃ hid h' new,
    eval (addDB strftime_Ymd report_A "web01/H1") fresh_world = None ∧
    reports (store (exec (addDB strftime_Ymd report_A "web01/H1") fresh_world))
      = [report_row 1 hid report_A "web01/H1" 1706000000] ∧
    host_of "web01"
      (store (exec (addDB strftime_Ymd report_A "web01/H1") fresh_world))
      = Some h' ∧
    log (exec (addDB strftime_Ymd report_A "web01/H1") fresh_world) = new.
Proof.
  destruct (addDB_commits_report_with_host_then_history strftime_Ymd report_A
              "web01/H1" fresh_world
              ltac:(reflexivity) ltac:(reflexivity) ltac:(reflexivity)
              ltac:(reflexivity))
    as (hid & h' & new & H1 & H2 & H3 & _ & _ & _ & H7 & _).
  exists hid, h', new. split_and!; [exact H1 | exact H2 | exact H3 |].
  rewrite H7. apply app_nil_r.
Defined.

(** ** A creator racing for the same fqdn *)

(** C5, as the claim has it, fails: the lookup finds no row of web01,
    another workflow inserts it, and [addDB] returns the error of its own
    INSERT; the host row keeps the zero state and no report is recorded. *)
Lemma addDB_create_race_counterexample :
  let w' := exec (addDB strftime_Ymd report_A "web01/H1") racing_world in
  eval (addDB strftime_Ymd report_A "web01/H1") racing_world = Some ErrConstraint ∧
  hosts (store w') = [zero_host 1 "web01"] ∧
  reports (store w') = [] ∧
  history (store w') = [].
Proof. by split_and!. Qed.

(** C5, amended. If the lookup of [addDB] finds no host row of the fqdn and
    another workflow commits one before the INSERT of [createHost] runs, the
    INSERT is rejected by the uniqueness constraint and [addDB] returns that
    error: there is no fallback to the update path.  The store is left as
    the other workflow committed it, so the row it created is still the
    host row of the fqdn, with the snapshot it had, and no report row or
    history count is added. *)
Theorem addDB_create_race_returns_error date_key data path w other rest h :
  db_open w = true ->
  sched w = EvOk :: EvRace other :: rest ->
  host_of (Fqdn data) (store w) = None ->
  host_of (Fqdn data) (other (store w)) = Some h ->
  let w' := exec (addDB date_key data path) w in
  eval (addDB date_key data path) w = Some ErrConstraint ∧
  store w' = other (store w) ∧
  host_of (Fqdn data) (store w') = Some h ∧
  log w' = other (store w) :: log w.
Proof.
  intros Ho Hs Hmiss Hhit w'. subst w'.
  destruct w as [o s f c k l]. simpl in *. subst o k.
  unfold eval, exec, addDB, getHostId, createHost, db_is_nil, db_QueryRow,
    db_Exec, get_store, commit, next_event, mbind, M_bind, mret, M_ret.
  simpl. rewrite select_host_id_find, Hmiss. simpl.
  unfold sql_insert_host. unfold host_of in Hhit.
  rewrite (find_some_existsb _ _ _ Hhit). simpl.
  by split_and!.
Qed.

Lemma addDB_create_race_returns_error_witness :
  eval (addDB strftime_Ymd report_A "web01/H1") racing_world = Some ErrConstraint ∧
  store (exec (addDB strftime_Ymd report_A "web01/H1") racing_world)
    = with_host "web01" empty_store.
Proof.
  destruct (addDB_create_race_returns_error strftime_Ymd report_A "web01/H1"
              racing_world (with_host "web01") [] (zero_host 1 "web01")
              ltac:(reflexivity) ltac:(reflexivity) ltac:(reflexivity)
              ltac:(reflexivity))
    as (H1 & H2 & _).
  split; [exact H1 | exact H2].
Defined.

(** ** Filesystem calls under a quiet schedule *)

Lemma Exists_quiet name w :
  quiet w = true ->
  Exists name w = (if fs w !! name is Some _ then true else false, tick w).
Proof.
  intros Hq. unfold Exists, get_fs. by rewrite bind_run, next_event_quiet.
Qed.

Lemma os_MkdirAll_quiet path w :
  quiet w = true ->
  os_MkdirAll path w =
    match fs w !! path with
    | Some (File _) => (Some ErrDriver, tick w)
    | _ => (None, set_fs (<[path := Dir]> (fs w)) (tick w))
    end.
Proof.
  intros Hq. unfold os_MkdirAll, get_fs, put_fs.
  rewrite bind_run, next_event_quiet by done. rewrite bind_run. simpl.
  by destruct (fs w !! path) as [[]|].
Qed.

Lemma ioutil_WriteFile_quiet path content w :
  quiet w = true ->
  ioutil_WriteFile path content w =
    match fs w !! path with
    | Some Dir => (Some ErrDriver, tick w)
    | _ => (None, set_fs (<[path := File content]> (fs w)) (tick w))
    end.
Proof.
  intros Hq. unfold ioutil_WriteFile, get_fs, put_fs.
  rewrite bind_run, next_event_quiet by done. rewrite bind_run. simpl.
  by destruct (fs w !! path) as [[]|].
Qed.

Lemma ioutil_ReadFile_quiet path w :
  quiet w = true ->
  ioutil_ReadFile path w =
    (match fs w !! path with
     | Some (File content) => Ok content
     | Some Dir => Err ErrDriver
     | None => Err ErrNotExist
     end, tick w).
Proof.
  intros Hq. unfold ioutil_ReadFile, get_fs.
  rewrite bind_run, next_event_quiet by done. rewrite bind_run. simpl.
  by destruct (fs w !! path) as [[]|].
Qed.

Lemma os_Remove_quiet path w :
  quiet w = true ->
  os_Remove path w =
    match fs w !! path with
    | Some _ => (None, set_fs (delete path (fs w)) (tick w))
    | None => (Some ErrNotExist, tick w)
    end.
Proof.
  intros Hq. unfold os_Remove, get_fs, put_fs.
  rewrite bind_run, next_event_quiet by done. rewrite bind_run. simpl.
  by destruct (fs w !! path).
Qed.

Lemma ioutil_ReadAll_quiet body w :
  quiet w = true -> ioutil_ReadAll body w = (Ok body, tick w).
Proof. intros Hq. unfold ioutil_ReadAll. by rewrite bind_run, next_event_quiet. Qed.

Ltac run_fs_step :=
  first
    [ run_step
    | rewrite Exists_quiet by solve_quiet
    | rewrite os_MkdirAll_quiet by solve_quiet
    | rewrite ioutil_WriteFile_quiet by solve_quiet
    | rewrite ioutil_ReadFile_quiet by solve_quiet
    | rewrite os_Remove_quiet by solve_quiet
    | rewrite ioutil_ReadAll_quiet by solve_quiet ].

Ltac run_fs := repeat (run_fs_step; cbn beta iota).

Lemma host_reply_not_duplicate fqdn :
  Written (host_reply fqdn) ≠ Written "Ignoring duplicate submission".
Proof. intros H. injection H as H. discriminate H. Qed.

(** ** The synchronous submission *)

Section ServerProofs.

Variable date_key : Z -> string.
Variable ParsePuppetReport : list byte -> result PuppetReport.
Variable filepath_Join : string -> string -> string.
Variable ReportPrefix : string.

Abbreviation handler :=
  (ReportSubmissionHandler date_key ParsePuppetReport filepath_Join ReportPrefix).

(** A submission whose artifact is already on disk. *)
Lemma handler_duplicate req report w :
  quiet w = true -> Method req = "POST" ->
  ParsePuppetReport (Body req) = Ok report ->
  let dir := filepath_Join ReportPrefix (Fqdn report) in
  let path := filepath_Join dir (Hash report) in
  is_Some (fs w !! path) ->
  let w' := exec (handler req) w in
  eval (handler req) w = Written "Ignoring duplicate submission" ∧
  store w' = store w ∧ log w' = log w ∧
  (is_Some (fs w !! dir) -> fs w' = fs w) ∧
  quiet w' = true.
Proof.
  intros Hq Hm Hp dir path [n Hn] w'. subst w'.
  unfold eval, exec, ReportSubmissionHandler.
  rewrite Hm, String.eqb_refl. cbn [negb]. run_fs. rewrite Hp. run_fs.
  fold dir path. cbn [fs tick set_sched].
  destruct (fs w !! dir) as [d|] eqn:Ed.
  - run_fs. cbn [fs tick set_sched]. rewrite Hn. run_fs. cbn [fst snd].
    split_and!; try done. simpl. solve_quiet.
  - run_fs. cbn [fs tick set_sched]. rewrite Ed. run_fs.
    cbn [fs tick set_sched set_fs].
    assert (is_Some (<[dir:=Dir]> (fs w) !! path)) as [n' ->].
    { rewrite lookup_insert. case_decide; [by eexists|]. by rewrite Hn. }
    run_fs. cbn [fst snd]. split_and!; try done; try (by intros [? ?]).
    simpl. solve_quiet.
Qed.

(** A submission whose artifact is not on disk yet: everything up to the
    call of [addDB]. *)
Lemma handler_fresh req report w :
  db_open w = true -> quiet w = true -> Method req = "POST" ->
  ParsePuppetReport (Body req) = Ok report ->
  let dir := filepath_Join ReportPrefix (Fqdn report) in
  let path := filepath_Join dir (Hash report) in
  fs w !! path = None -> path ≠ dir ->
  fs w !! dir = None ∨ fs w !! dir = Some Dir ->
  ∃ wm,
    db_open wm = true ∧ quiet wm = true ∧ store wm = store w ∧
    log wm = log w ∧ clock wm = clock w ∧
    fs wm !! path = Some (File (Body req)) ∧ fs wm !! dir = Some Dir ∧
    handler req w =
      (Written (host_reply (Fqdn report)),
       exec (addDB date_key report (filepath_Join (Fqdn report) (Hash report))) wm).
Proof.
  intros Ho Hq Hm Hp dir path Hn Hne Hd.
  unfold ReportSubmissionHandler.
  rewrite Hm, String.eqb_refl. cbn [negb]. run_fs. rewrite Hp. run_fs.
  fold dir path. cbn [fs tick set_sched].
  destruct Hd as [Ed|Ed]; rewrite Ed; run_fs; cbn [fs tick set_sched set_fs].
  - rewrite Ed. run_fs. cbn [fs tick set_sched set_fs].
    rewrite lookup_insert_ne by done. rewrite Hn. run_fs.
    cbn [fs tick set_sched set_fs].
    rewrite lookup_insert_ne by done. rewrite Hn. run_fs.
    eexists. split_and!; [| | | | | | |apply discard_run]; try done.
    + simpl. solve_quiet.
    + simpl. apply lookup_insert_eq.
    + simpl. rewrite lookup_insert_ne by done. apply lookup_insert_eq.
  - rewrite Hn. run_fs. cbn [fs tick set_sched set_fs]. rewrite Hn. run_fs.
    eexists. split_and!; [| | | | | | |apply discard_run]; try done.
    + simpl. solve_quiet.
    + simpl. apply lookup_insert_eq.
    + simpl. by rewrite lookup_insert_ne.
Qed.

(** C3. A submission whose artifact [<ReportPrefix>/<fqdn>/<hash>] is
    already on disk is answered "Ignoring duplicate submission" and commits
    nothing to the store.  Hence submitting the same bytes twice, starting
    without the artifact and with nothing failing, is answered first with
    the host reply and then with the duplicate reply, two different bodies;
    the second submission leaves store and files as the first left them, so
    across both exactly one report row is added, the host row carries the
    snapshot of the report, and the counter of the day's bucket is
    incremented once. *)
Theorem duplicate_submission_records_nothing req report w :
  db_open w = true -> quiet w = true ->
  hosts_wf (store w) = true -> history_wf (store w) = true ->
  Method req = "POST" -> ParsePuppetReport (Body req) = Ok report ->
  let dir := filepath_Join ReportPrefix (Fqdn report) in
  let path := filepath_Join dir (Hash report) in
  let relativePath := filepath_Join (Fqdn report) (Hash report) in
  let key := date_key (clock w) in
  (is_Some (fs w !! path) ->
     eval (handler req) w = Written "Ignoring duplicate submission" ∧
     store (exec (handler req) w) = store w ∧
     log (exec (handler req) w) = log w) ∧
  (fs w !! path = None -> path ≠ dir ->
   fs w !! dir = None ∨ fs w !! dir = Some Dir ->
     let w1 := exec (handler req) w in
     let w2 := exec (handler req) w1 in
     eval (handler req) w = Written (host_reply (Fqdn report)) ∧
     eval (handler req) w1 = Written "Ignoring duplicate submission" ∧
     eval (handler req) w ≠ eval (handler req) w1 ∧
     store w2 = store w1 ∧ log w2 = log w1 ∧ fs w2 = fs w1 ∧
     ∃ hid h',
       reports (store w2)
         = reports (store w)
           ++ [report_row (seq_reports (store w) + 1) hid report relativePath
                 (clock w)] ∧
       host_of (Fqdn report) (store w2) = Some h' ∧
       reflects report (clock w) h' ∧
       counters key (store w2)
         = add3 (counters key (store w)) (increments (State report)) ∧
       (∀ k, k ≠ key -> counters k (store w2) = counters k (store w))).
Proof.
  intros Ho Hq Hh Hwf Hm Hp dir path relativePath key.
  subst dir path relativePath key. split.
  - intros Hex.
    destruct (handler_duplicate req report w Hq Hm Hp Hex) as (H1 & H2 & H3 & _).
    by split_and!.
  - intros Hn Hne Hd w1 w2.
    destruct (handler_fresh req report w Ho Hq Hm Hp Hn Hne Hd)
      as (wm & Hom & Hqm & Hsm & Hlm & Hcm & Hfp & Hfd & Hrun).
    rewrite <- Hsm in Hh, Hwf.
    destruct (addDB_effect date_key report
                (filepath_Join (Fqdn report) (Hash report)) wm Hom Hqm Hh Hwf)
      as (hid & h' & new & _ & Hrep & Hhost & _ & Hrefl & Hcnt & Hoth & Hfs
          & Hq1 & _).
    assert (Hw1 : w1 = exec (addDB date_key report
                              (filepath_Join (Fqdn report) (Hash report))) wm).
    { subst w1. unfold exec at 1. by rewrite Hrun. }
    rewrite <- Hw1 in Hrep, Hhost, Hcnt, Hoth, Hfs, Hq1.
    assert (Hex1 : is_Some (fs w1 !! filepath_Join (filepath_Join ReportPrefix
                                        (Fqdn report)) (Hash report)))
      by (rewrite Hfs, Hfp; by eexists).
    assert (Hed1 : is_Some (fs w1 !! filepath_Join ReportPrefix (Fqdn report)))
      by (rewrite Hfs, Hfd; by eexists).
    destruct (handler_duplicate req report w1 Hq1 Hm Hp Hex1)
      as (Hr2 & Hs2 & Hl2 & Hf2 & _).
    fold w2 in Hs2, Hl2, Hf2. specialize (Hf2 Hed1).
    assert (Hr1 : eval (handler req) w = Written (host_reply (Fqdn report))).
    { unfold eval. by rewrite Hrun. }
    split_and!; try done.
    + rewrite Hr1, Hr2. apply host_reply_not_duplicate.
    + exists hid, h'. rewrite Hs2. rewrite Hsm, Hcm in *. by split_and!.
Qed.

End ServerProofs.

Lemma duplicate_submission_records_nothing_witness :
  let handler := ReportSubmissionHandler strftime_Ymd parse_as_A join "reports" in
  let w1 := exec (handler post_A) fresh_world in
  let w2 := exec (handler post_A) w1 in
  eval (handler post_A) fresh_world = Written (host_reply "web01") ∧
  eval (handler post_A) w1 = Written "Ignoring duplicate submission" ∧
  store w2 = store w1 ∧
  length (reports (store w2)) = 1%nat.
Proof.
  destruct (duplicate_submission_records_nothing strftime_Ymd parse_as_A join
              "reports" post_A report_A fresh_world
              ltac:(reflexivity) ltac:(reflexivity) ltac:(reflexivity)
              ltac:(reflexivity) ltac:(reflexivity) ltac:(reflexivity))
    as [_ H].
  destruct (H ltac:(reflexivity) ltac:(discriminate) ltac:(left; reflexivity))
    as (H1 & H2 & _ & H4 & _ & _ & hid & h' & H7 & _).
  split_and!; [exact H1 | exact H2 | exact H4 |].
  rewrite H7. reflexivity.
Defined.

(** ** The asynchronous worker *)

Section WorkerProofs.

Variable date_key : Z -> string.
Variable ParsePuppetReport : list byte -> result PuppetReport.
Variable filepath_Join : string -> string -> string.
Variable ReportPrefix : string.

Abbreviation saver :=
  (AsyncReportSubmissionSaver date_key ParsePuppetReport filepath_Join ReportPrefix).

(** C2, where the code departs from the claim. A worker whose staged bytes
    do not parse, or whose report is a duplicate, returns without calling
    [os.Remove]: the staging file is still on disk, with its content, when
    the task is finished. *)
Theorem AsyncReportSubmissionSaver_leaves_staging_file uuid content w :
  quiet w = true ->
  let pathTemp := filepath_Join "/tmp/" uuid in
  fs w !! pathTemp = Some (File content) ->
  let w' := exec (saver uuid) w in
  (∀ e, ParsePuppetReport content = Err e -> fs w' = fs w) ∧
  (∀ report, ParsePuppetReport content = Ok report ->
     is_Some (fs w !! filepath_Join (filepath_Join ReportPrefix (Fqdn report))
                        (Hash report)) ->
     fs w' !! pathTemp = Some (File content) ∧ store w' = store w).
Proof.
  intros Hq pathTemp Hf w'. subst w' pathTemp.
  unfold exec, AsyncReportSubmissionSaver. run_fs. rewrite Hf. split.
  - intros e Hp. rewrite Hp. reflexivity.
  - intros report Hp [n Hn]. rewrite Hp. run_fs. cbn [fs tick set_sched].
    destruct (fs w !! filepath_Join ReportPrefix (Fqdn report)) as [d|] eqn:Ed.
    + run_fs. cbn [fs tick set_sched]. rewrite Hn. run_fs. by split.
    + run_fs. cbn [fs tick set_sched]. rewrite Ed. run_fs.
      cbn [fs tick set_sched set_fs].
      assert (is_Some (<[filepath_Join ReportPrefix (Fqdn report):=Dir]> (fs w)
                         !! filepath_Join (filepath_Join ReportPrefix (Fqdn report))
                              (Hash report))) as [n' ->].
      { rewrite lookup_insert. case_decide; [by eexists|]. by rewrite Hn. }
      run_fs. cbn [fst snd]. split; [|done]. simpl.
      rewrite lookup_insert_ne; [done|]. intros Heq. rewrite Heq in Ed. congruence.
Qed.

(** On the path that reaches [addDB], the staging file is removed. *)
Lemma AsyncReportSubmissionSaver_removes_after_addDB uuid content report w :
  db_open w = true -> quiet w = true ->
  hosts_wf (store w) = true -> history_wf (store w) = true ->
  filepath_Join "/tmp/" uuid = "/tmp/" +:+ uuid ->
  let dir := filepath_Join ReportPrefix (Fqdn report) in
  let path := filepath_Join dir (Hash report) in
  fs w !! ("/tmp/" +:+ uuid) = Some (File content) ->
  ParsePuppetReport content = Ok report ->
  fs w !! path = None -> fs w !! dir = Some Dir ->
  fs (exec (saver uuid) w) !! ("/tmp/" +:+ uuid) = None.
Proof.
  intros Ho Hq Hh Hwf Hj dir path Hf Hp Hn Hd. subst dir path.
  unfold exec, AsyncReportSubmissionSaver. rewrite Hj. run_fs. rewrite Hf, Hp.
  run_fs. cbn [fs tick set_sched]. rewrite Hd. run_fs.
  cbn [fs tick set_sched]. rewrite Hn. run_fs. cbn [fs tick set_sched]. rewrite Hn.
  run_fs.
  match goal with
  | |- context [addDB date_key report ?p ?wm] =>
      destruct (addDB_effect date_key report p wm) as
        (hid & h' & new & _ & _ & _ & _ & _ & _ & _ & Hfs & Hq1 & _);
      [done | simpl; solve_quiet | done | done |];
      unfold exec in Hfs, Hq1; destruct (addDB date_key report p wm) as [e w1]
  end.
  simpl in Hfs, Hq1. run_fs. rewrite Hfs. simpl.
  destruct (<[_:=_]> (fs w) !! ("/tmp/" +:+ uuid)) eqn:E; simpl.
  - apply lookup_delete_eq.
  - rewrite Hfs. simpl. exact E.
Qed.

End WorkerProofs.

Lemma AsyncReportSubmissionSaver_leaves_staging_file_witness :
  fs (exec (AsyncReportSubmissionSaver strftime_Ymd parse_as_A join "reports"
              "puppet-summary-tmp-00000000-0000-0000-0000-000000000000")
        (staged_world []))
  = fs (staged_world []).
Proof.
  destruct (AsyncReportSubmissionSaver_leaves_staging_file strftime_Ymd
              parse_as_A join "reports"
              "puppet-summary-tmp-00000000-0000-0000-0000-000000000000" []
              (staged_world []) ltac:(reflexivity) ltac:(reflexivity))
    as [H _].
  apply (H (ErrMsg "empty report")). reflexivity.
Defined.

(** * Further properties *)

(** ** A small program logic for schedules with failures *)

Lemma isolated_tick w : isolated w = true -> isolated (tick w) = true.
Proof.
  unfold isolated, tick; simpl. destruct (sched w) as [|e k]; simpl; [done|].
  intros [_ H]%andb_prop. exact H.
Qed.

Section Keeps.

Context (I : Store -> Prop).

Lemma keeps_ret {A} (a : A) (Q : A -> Prop) : Q a -> keeps I (mret a) Q.
Proof. intros HQ w Hi HI. by split_and!. Qed.

Lemma keeps_bind {A B} (m : M A) (f : A -> M B) (Q : A -> Prop) (R : B -> Prop) :
  keeps I m Q -> (∀ a, Q a -> keeps I (f a) R) -> keeps I (m ≫= f) R.
Proof.
  intros Hm Hf w Hi HI. destruct (Hm w Hi HI) as (Hi1 & HI1 & HQ).
  unfold exec, eval in *. rewrite bind_run.
  destruct (m w) as [a w1]. simpl in *. by apply Hf.
Qed.

Lemma keeps_weaken {A} (m : M A) (Q Q' : A -> Prop) :
  keeps I m Q -> (∀ a, Q a -> Q' a) -> keeps I m Q'.
Proof.
  intros Hm HQ w Hi HI. destruct (Hm w Hi HI) as (? & ? & ?). split_and!; auto.
Qed.

Lemma keeps_read {A} (g : World -> A) :
  keeps I (fun w => (g w, w)) (fun _ => True).
Proof. intros w Hi HI. by split_and!. Qed.

Lemma keeps_get_store : keeps I get_store I.
Proof. intros w Hi HI. by split_and!. Qed.

Lemma keeps_put_fs f : keeps I (put_fs f) (fun _ => True).
Proof. intros w Hi HI. by split_and!. Qed.

Lemma keeps_commit s : I s -> keeps I (commit s) (fun _ => True).
Proof. intros Hs w Hi HI. by split_and!. Qed.

Lemma keeps_next_event : keeps I next_event (fun _ => True).
Proof.
  intros w Hi HI. destruct (next_event_isolated w Hi) as [failed E].
  unfold exec, eval. rewrite E. simpl. split_and!; [|done..].
  by apply isolated_tick.
Qed.

Lemma keeps_db_Exec stmt :
  (∀ s s', I s -> stmt s = Ok s' -> I s') ->
  keeps I (db_Exec stmt) (fun _ => True).
Proof.
  intros Hstmt. unfold db_Exec.
  eapply keeps_bind; [apply keeps_next_event|]. intros [] _; [by apply keeps_ret|].
  eapply keeps_bind; [apply keeps_get_store|]. intros s Hs.
  destruct (stmt s) as [s'|e] eqn:E; [|by apply keeps_ret].
  eapply keeps_bind; [apply keeps_commit; eauto|]. intros _ _. by apply keeps_ret.
Qed.

Lemma keeps_db_QueryRow {A} (q : Store -> option A) :
  keeps I (db_QueryRow q) (fun _ => True).
Proof.
  unfold db_QueryRow.
  eapply keeps_bind; [apply keeps_next_event|]. intros [] _; [by apply keeps_ret|].
  eapply keeps_bind; [apply keeps_get_store|]. intros s Hs.
  destruct (q s); by apply keeps_ret.
Qed.

Lemma keeps_db_Query {A} (q : Store -> list A) :
  keeps I (db_Query q) (fun _ => True).
Proof.
  unfold db_Query.
  eapply keeps_bind; [apply keeps_next_event|]. intros [] _; [by apply keeps_ret|].
  eapply keeps_bind; [apply keeps_get_store|]. intros s Hs. by apply keeps_ret.
Qed.

Lemma keeps_db_Prepare : keeps I db_Prepare (fun _ => True).
Proof.
  unfold db_Prepare.
  eapply keeps_bind; [apply keeps_next_event|]. intros f _. by apply keeps_ret.
Qed.

Lemma keeps_db_Begin :
  keeps I db_Begin (fun t => if t is Ok tx then tx_keeps I tx else True).
Proof.
  unfold db_Begin.
  eapply keeps_bind; [apply keeps_next_event|].
  intros [] _; apply keeps_ret; [done|]. by intros s Hs.
Qed.

Lemma keeps_tx_Exec tx stmt :
  tx_keeps I tx -> (∀ s, I s -> I (stmt s)) ->
  keeps I (tx_Exec tx stmt) (fun r => tx_keeps I r.2).
Proof.
  intros Htx Hstmt. unfold tx_Exec.
  eapply keeps_bind; [apply keeps_next_event|].
  intros [] _; apply keeps_ret; simpl; [done|].
  intros s Hs. by apply Hstmt, Htx.
Qed.

Lemma keeps_tx_Commit tx :
  tx_keeps I tx -> keeps I (tx_Commit tx) (fun _ => True).
Proof.
  intros Htx. unfold tx_Commit.
  eapply keeps_bind; [apply keeps_next_event|]. intros [] _; [by apply keeps_ret|].
  eapply keeps_bind; [apply keeps_get_store|]. intros s Hs.
  eapply keeps_bind; [apply keeps_commit; by apply Htx|]. intros _ _.
  by apply keeps_ret.
Qed.

Lemma keeps_Exists name : keeps I (Exists name) (fun _ => True).
Proof.
  unfold Exists.
  eapply keeps_bind; [apply keeps_next_event|]. intros [] _; [by apply keeps_ret|].
  eapply keeps_bind; [apply (keeps_read fs)|]. intros f _. by apply keeps_ret.
Qed.

Lemma keeps_os_MkdirAll path : keeps I (os_MkdirAll path) (fun _ => True).
Proof.
  unfold os_MkdirAll.
  eapply keeps_bind; [apply keeps_next_event|]. intros [] _; [by apply keeps_ret|].
  eapply keeps_bind; [apply (keeps_read fs)|]. intros f _.
  destruct (f !! path) as [[]|]; try by apply keeps_ret.
  all: eapply keeps_bind; [apply keeps_put_fs|]; intros _ _; by apply keeps_ret.
Qed.

Lemma keeps_ioutil_WriteFile path content :
  keeps I (ioutil_WriteFile path content) (fun _ => True).
Proof.
  unfold ioutil_WriteFile.
  eapply keeps_bind; [apply keeps_next_event|]. intros [] _; [by apply keeps_ret|].
  eapply keeps_bind; [apply (keeps_read fs)|]. intros f _.
  destruct (f !! path) as [[]|]; try by apply keeps_ret.
  all: eapply keeps_bind; [apply keeps_put_fs|]; intros _ _; by apply keeps_ret.
Qed.

Lemma keeps_ioutil_ReadFile path :
  keeps I (ioutil_ReadFile path) (fun _ => True).
Proof.
  unfold ioutil_ReadFile.
  eapply keeps_bind; [apply keeps_next_event|]. intros [] _; [by apply keeps_ret|].
  eapply keeps_bind; [apply (keeps_read fs)|]. intros f _.
  destruct (f !! path) as [[]|]; by apply keeps_ret.
Qed.

Lemma keeps_os_Remove path : keeps I (os_Remove path) (fun _ => True).
Proof.
  unfold os_Remove.
  eapply keeps_bind; [apply keeps_next_event|]. intros [] _; [by apply keeps_ret|].
  eapply keeps_bind; [apply (keeps_read fs)|]. intros f _.
  destruct (f !! path); [|by apply keeps_ret].
  eapply keeps_bind; [apply keeps_put_fs|]; intros _ _; by apply keeps_ret.
Qed.

Lemma keeps_ioutil_ReadAll body : keeps I (ioutil_ReadAll body) (fun _ => True).
Proof.
  unfold ioutil_ReadAll.
  eapply keeps_bind; [apply keeps_next_event|]. intros f _. by apply keeps_ret.
Qed.

Lemma keeps_db_is_nil : keeps I db_is_nil (fun _ => True).
Proof. apply (keeps_read (fun w => negb (db_open w))). Qed.

Lemma keeps_time_Now_Unix : keeps I time_Now_Unix (fun _ => True).
Proof. apply (keeps_read clock). Qed.

End Keeps.

(** ** The ingestion path keeps what its statements keep *)

Ltac keeps_step :=
  first
    [ apply keeps_db_is_nil | apply keeps_time_Now_Unix
    | apply keeps_db_QueryRow | apply keeps_db_Query | apply keeps_db_Prepare
    | apply keeps_db_Begin | apply keeps_Exists | apply keeps_os_MkdirAll
    | apply keeps_ioutil_WriteFile | apply keeps_ioutil_ReadFile
    | apply keeps_os_Remove | apply keeps_ioutil_ReadAll ].

Section IngestionKeeps.

Context (I : Store -> Prop) (HI : ingest_stable I).
Variable date_key : Z -> string.

Lemma getHostId_keeps fqdn : keeps I (getHostId fqdn) (fun _ => True).
Proof.
  unfold getHostId.
  eapply keeps_bind; [keeps_step|]. intros [] _; [by apply keeps_ret|].
  eapply keeps_bind; [keeps_step|]. intros [id|[]] _; by apply keeps_ret.
Qed.

Lemma createHost_keeps fqdn : keeps I (createHost fqdn) (fun _ => True).
Proof.
  destruct HI as (Hh & _). unfold createHost.
  eapply keeps_bind; [keeps_step|]. intros [] _; [by apply keeps_ret|].
  eapply keeps_bind; [apply keeps_db_Exec; eauto|].
  intros [e|] _; [by apply keeps_ret | apply getHostId_keeps].
Qed.

Lemma updateHistory_keeps d state :
  keeps I (updateHistory date_key d state) (fun _ => True).
Proof.
  destruct HI as (_ & _ & _ & Hb & Hu). unfold updateHistory.
  eapply keeps_bind; [keeps_step|]. intros [] _; [by apply keeps_ret|].
  eapply keeps_bind; [keeps_step|]. intros r _.
  eapply (keeps_bind _ _ _ (fun _ => True)).
  - destruct r as [id|[]]; try by apply keeps_ret.
    eapply keeps_bind; [apply keeps_db_Exec; eauto|]. intros _ _.
    eapply keeps_bind; [keeps_step|]. intros r' _. by apply keeps_ret.
  - intros id _. specialize (Hu state id).
    destruct (increments state) as [[f c] u]. simpl in Hu.
    apply keeps_db_Exec. intros s s' Hs [= <-]. by apply Hu.
Qed.

Lemma addDB_keeps data path :
  keeps I (addDB date_key data path) (fun _ => True).
Proof.
  destruct HI as (_ & Hr & Hs & _). unfold addDB.
  eapply keeps_bind; [keeps_step|]. intros [] _; [by apply keeps_ret|].
  eapply keeps_bind; [apply getHostId_keeps|]. intros [hid [e|]] _;
    [by apply keeps_ret|].
  eapply (keeps_bind _ _ _ (fun _ => True)).
  { destruct (hid =? 0); [apply createHost_keeps | by apply keeps_ret]. }
  intros [hid' [e|]] _; [by apply keeps_ret|].
  eapply keeps_bind; [keeps_step|]. intros at_ _.
  eapply keeps_bind; [keeps_step|]. intros [tx|e] Htx; [|by apply keeps_ret].
  eapply keeps_bind; [keeps_step|]. intros [e|] _; [by apply keeps_ret|].
  eapply keeps_bind; [apply keeps_tx_Exec; [exact Htx | by intros; apply Hr]|].
  intros [e1 tx1] Htx1. simpl in Htx1.
  eapply keeps_bind; [keeps_step|]. intros [e|] _; [by apply keeps_ret|].
  eapply keeps_bind; [apply keeps_tx_Exec; [exact Htx1 | by intros; apply Hs]|].
  intros [e2 tx2] Htx2. simpl in Htx2.
  eapply keeps_bind; [by apply keeps_tx_Commit|]. intros _ _.
  eapply keeps_bind; [apply updateHistory_keeps|]. intros _ _.
  by apply keeps_ret.
Qed.

Variable ParsePuppetReport : list byte -> result PuppetReport.
Variable filepath_Join : string -> string -> string.
Variable ReportPrefix : string.

Lemma ReportSubmissionHandler_keeps req :
  keeps I (ReportSubmissionHandler date_key ParsePuppetReport filepath_Join
             ReportPrefix req) (fun _ => True).
Proof.
  unfold ReportSubmissionHandler.
  destruct (negb _); [by apply keeps_ret|].
  eapply keeps_bind; [keeps_step|]. intros [content|e] _; [|by apply keeps_ret].
  destruct (ParsePuppetReport content) as [report|e]; [|by apply keeps_ret].
  eapply keeps_bind; [keeps_step|]. intros ex _.
  eapply (keeps_bind _ _ _ (fun _ => True)).
  { destruct ex; [by apply keeps_ret | keeps_step]. }
  intros [e|] _; [by apply keeps_ret|].
  eapply keeps_bind; [keeps_step|]. intros [] _; [by apply keeps_ret|].
  eapply keeps_bind; [keeps_step|]. intros [e|] _; [by apply keeps_ret|].
  eapply keeps_bind; [apply addDB_keeps|]. intros _ _. by apply keeps_ret.
Qed.

Lemma AsyncReportSubmissionSaver_keeps uuid :
  keeps I (AsyncReportSubmissionSaver date_key ParsePuppetReport filepath_Join
             ReportPrefix uuid) (fun _ => True).
Proof.
  unfold AsyncReportSubmissionSaver.
  eapply keeps_bind; [keeps_step|]. intros [content|e] _; [|by apply keeps_ret].
  destruct (ParsePuppetReport content) as [report|e]; [|by apply keeps_ret].
  eapply keeps_bind; [keeps_step|]. intros ex _.
  eapply (keeps_bind _ _ _ (fun _ => True)).
  { destruct ex; [by apply keeps_ret | keeps_step]. }
  intros [e|] _; [by apply keeps_ret|].
  eapply keeps_bind; [keeps_step|]. intros [] _; [by apply keeps_ret|].
  eapply keeps_bind; [keeps_step|]. intros [e|] _; [by apply keeps_ret|].
  eapply keeps_bind; [apply addDB_keeps|]. intros _ _.
  eapply keeps_bind; [keeps_step|]. intros _ _. by apply keeps_ret.
Qed.

Lemma AsyncReportSubmissionWorker_keeps jobs :
  keeps I (AsyncReportSubmissionWorker date_key ParsePuppetReport filepath_Join
             ReportPrefix jobs) (fun _ => True).
Proof.
  induction jobs as [|j jobs IH]; simpl; [by apply keeps_ret|].
  eapply keeps_bind; [apply AsyncReportSubmissionSaver_keeps|]. by intros _ _.
Qed.

Lemma AsyncReportSubmissionHandler_keeps b req :
  keeps I (AsyncReportSubmissionHandler filepath_Join b req) (fun _ => True).
Proof.
  unfold AsyncReportSubmissionHandler.
  destruct (negb _); [by apply keeps_ret|].
  eapply keeps_bind; [keeps_step|]. intros [content|e] _; [|by apply keeps_ret].
  eapply keeps_bind; [keeps_step|]. intros [e|] _; by apply keeps_ret.
Qed.

End IngestionKeeps.

(** ** The schema constraints are kept by every statement *)

Lemma fresh_key {A} (key : A -> Z) (l : list A) (seq : Z) :
  Forall (fun x => 0 < key x ≤ seq) l -> seq + 1 ∉ key <$> l.
Proof.
  intros Hl (x & Hx & Hin)%list_elem_of_fmap.
  rewrite Forall_forall in Hl. specialize (Hl x Hin). simpl in Hl. lia.
Qed.

Lemma bound_step {A} (key : A -> Z) (l : list A) (seq : Z) (x : A) :
  0 ≤ seq -> key x = seq + 1 ->
  Forall (fun x => 0 < key x ≤ seq) l ->
  Forall (fun x => 0 < key x ≤ seq + 1) (l ++ [x]).
Proof.
  intros Hs Hx Hl. apply Forall_app. split.
  - eapply Forall_impl; [exact Hl|]. simpl. intros; lia.
  - apply Forall_singleton. lia.
Qed.

Lemma NoDup_snoc_fresh {A} (l : list A) (x : A) :
  NoDup l -> x ∉ l -> NoDup (l ++ [x]).
Proof.
  intros Hn Hx. apply NoDup_app. split_and!; [done| |apply NoDup_singleton].
  intros y Hy ->%list_elem_of_singleton. done.
Qed.

Lemma existsb_false_not_elem {A} (f : A -> string) (l : list A) (k : string) :
  existsb (fun x => String.eqb (f x) k) l = false -> k ∉ f <$> l.
Proof.
  intros He (x & -> & Hin)%list_elem_of_fmap.
  assert (existsb (fun y => String.eqb (f y) (f x)) l = true); [|congruence].
  apply existsb_exists. exists x. split; [by apply list_elem_of_In|].
  apply String.eqb_refl.
Qed.

Lemma fmap_same_key {A B} (key : A -> B) (g : A -> A) (l : list A) :
  (∀ x, key (g x) = key x) -> key <$> (g <$> l) = key <$> l.
Proof.
  intros Hk. rewrite <- list_fmap_compose. apply list_fmap_ext. intros i x _. apply Hk.
Qed.

Lemma Forall_fmap_same {A} (P : A -> Prop) (g : A -> A) (l : list A) :
  (∀ x, P x -> P (g x)) -> Forall P l -> Forall P (g <$> l).
Proof.
  intros Hg Hl. apply Forall_fmap. eapply Forall_impl; [exact Hl|]. done.
Qed.

Lemma NoDup_fmap_filter {A B} (key : A -> B) (P : A -> Prop)
    `{∀ x, Decision (P x)} (l : list A) :
  NoDup (key <$> l) -> NoDup (key <$> filter P l).
Proof.
  intros Hn. eapply sublist_NoDup; [exact Hn|].
  induction l as [|x l IH]; [done|]. rewrite filter_cons.
  destruct (decide (P x)); csimpl.
  - apply sublist_skip, IH. by inv Hn.
  - apply sublist_cons, IH. by inv Hn.
Qed.

Lemma Forall_filter_keep {A} (Q P : A -> Prop) `{∀ x, Decision (P x)}
    (l : list A) :
  Forall Q l -> Forall Q (filter P l).
Proof.
  rewrite !Forall_forall. intros Hl x [_ Hx]%list_elem_of_filter. by apply Hl.
Qed.

Lemma store_wf_insert_host fqdn s s' :
  store_wf s -> sql_insert_host fqdn s = Ok s' -> store_wf s'.
Proof.
  unfold sql_insert_host.
  destruct (existsb _ _) eqn:E; [done|]. intros Hwf [= <-].
  destruct Hwf as (H1 & H2 & H3 & H4 & H5 & H6 & H7 & H8 & H9 & H10 & H11).
  unfold store_wf. simpl. rewrite !fmap_app. simpl.
  split_and!; try done; try lia.
  - apply NoDup_snoc_fresh; [done|]. by apply fresh_key.
  - apply NoDup_snoc_fresh; [done|]. by apply existsb_false_not_elem.
  - by apply bound_step.
Qed.

Lemma store_wf_insert_report data hid path at_ s :
  store_wf s -> store_wf (sql_insert_report data hid path at_ s).
Proof.
  intros (H1 & H2 & H3 & H4 & H5 & H6 & H7 & H8 & H9 & H10 & H11).
  unfold store_wf. simpl. rewrite !fmap_app. simpl.
  split_and!; try done; try lia.
  - apply NoDup_snoc_fresh; [done|]. by apply fresh_key.
  - by apply bound_step.
Qed.

Lemma store_wf_update_host data at_ hid s :
  store_wf s -> store_wf (sql_update_host data at_ hid s).
Proof.
  intros (H1 & H2 & H3 & H4 & H5 & H6 & H7 & H8 & H9 & H10 & H11).
  set (g := fun h => if host_id h =? hid then snapshot data at_ h else h).
  assert (∀ h, host_id (g h) = host_id h) as Hid
    by (intros h; unfold g; by destruct (host_id h =? hid)).
  assert (∀ h, h_fqdn (g h) = h_fqdn h) as Hfq
    by (intros h; unfold g; by destruct (host_id h =? hid)).
  unfold store_wf, sql_update_host. simpl. fold g.
  rewrite !fmap_same_key by done.
  split_and!; try done.
  apply Forall_fmap_same; [|done]. intros h. by rewrite Hid.
Qed.

Lemma store_wf_insert_history key s s' :
  store_wf s -> sql_insert_history key s = Ok s' -> store_wf s'.
Proof.
  unfold sql_insert_history.
  destruct (existsb _ _) eqn:E; [done|]. intros Hwf [= <-].
  destruct Hwf as (H1 & H2 & H3 & H4 & H5 & H6 & H7 & H8 & H9 & H10 & H11).
  unfold store_wf. simpl. rewrite !fmap_app. simpl.
  split_and!; try done; try lia.
  - apply NoDup_snoc_fresh; [done|]. by apply fresh_key.
  - apply NoDup_snoc_fresh; [done|]. by apply existsb_false_not_elem.
  - by apply bound_step.
Qed.

Lemma store_wf_update_history f c u id s :
  store_wf s -> store_wf (sql_update_history f c u id s).
Proof.
  intros (H1 & H2 & H3 & H4 & H5 & H6 & H7 & H8 & H9 & H10 & H11).
  set (g := fun b => if hi_id b =? id then bump f c u b else b).
  assert (∀ b, hi_id (g b) = hi_id b) as Hid
    by (intros b; unfold g; by destruct (hi_id b =? id)).
  assert (∀ b, date (g b) = date b) as Hd
    by (intros b; unfold g; by destruct (hi_id b =? id)).
  unfold store_wf, sql_update_history. simpl. fold g.
  rewrite !fmap_same_key by done.
  split_and!; try done.
  apply Forall_fmap_same; [|done]. intros b. by rewrite Hid.
Qed.

Lemma store_wf_ingest_stable : ingest_stable store_wf.
Proof.
  split_and!.
  - apply store_wf_insert_host.
  - intros. by apply store_wf_insert_report.
  - intros. by apply store_wf_update_host.
  - apply store_wf_insert_history.
  - intros. by apply store_wf_update_history.
Qed.

Lemma store_wf_mark_orphans cutoff s :
  store_wf s -> store_wf (sql_mark_orphans cutoff s).
Proof.
  intros (H1 & H2 & H3 & H4 & H5 & H6 & H7 & H8 & H9 & H10 & H11).
  set (g := fun h => if last_seen h <? cutoff then orphan h else h).
  assert (∀ h, host_id (g h) = host_id h) as Hid
    by (intros h; unfold g; by destruct (last_seen h <? cutoff)).
  assert (∀ h, h_fqdn (g h) = h_fqdn h) as Hfq
    by (intros h; unfold g; by destruct (last_seen h <? cutoff)).
  unfold store_wf, sql_mark_orphans. simpl. fold g.
  rewrite !fmap_same_key by done.
  split_and!; try done.
  apply Forall_fmap_same; [|done]. intros h. by rewrite Hid.
Qed.

Lemma store_wf_delete_hosts cutoff s :
  store_wf s -> store_wf (sql_delete_hosts cutoff s).
Proof.
  intros (H1 & H2 & H3 & H4 & H5 & H6 & H7 & H8 & H9 & H10 & H11).
  unfold store_wf, sql_delete_hosts. simpl.
  split_and!; try done; auto using NoDup_fmap_filter, Forall_filter_keep.
Qed.

Lemma store_wf_delete_history ids s :
  store_wf s -> store_wf (sql_delete_history ids s).
Proof.
  intros (H1 & H2 & H3 & H4 & H5 & H6 & H7 & H8 & H9 & H10 & H11).
  unfold store_wf, sql_delete_history. simpl.
  split_and!; try done; auto using NoDup_fmap_filter, Forall_filter_keep.
Qed.

Lemma store_wf_delete_old_reports now expire s :
  store_wf s -> store_wf (sql_delete_old_reports now expire s).
Proof.
  intros (H1 & H2 & H3 & H4 & H5 & H6 & H7 & H8 & H9 & H10 & H11).
  unfold store_wf, sql_delete_old_reports. simpl.
  split_and!; try done; auto using NoDup_fmap_filter, Forall_filter_keep.
Qed.

Lemma store_wf_delete_reports_of fqdn s :
  store_wf s -> store_wf (sql_delete_reports_of fqdn s).
Proof.
  intros (H1 & H2 & H3 & H4 & H5 & H6 & H7 & H8 & H9 & H10 & H11).
  unfold store_wf, sql_delete_reports_of. simpl.
  split_and!; try done; auto using NoDup_fmap_filter, Forall_filter_keep.
Qed.

Lemma store_wf_mark_unchanged_pruned s :
  store_wf s -> store_wf (sql_mark_unchanged_pruned s).
Proof.
  intros (H1 & H2 & H3 & H4 & H5 & H6 & H7 & H8 & H9 & H10 & H11).
  set (g := fun r => if decide (r_state r = "unchanged") then mark_pruned r else r).
  assert (∀ r, r_id (g r) = r_id r) as Hid
    by (intros r; unfold g; by destruct (decide _)).
  unfold store_wf, sql_mark_unchanged_pruned. simpl. fold g.
  rewrite !fmap_same_key by done.
  split_and!; try done.
  apply Forall_fmap_same; [|done]. intros r. by rewrite Hid.
Qed.

(** ** Ingestion only adds *)

Lemma prefix_fmap {A B} (f : A -> B) (l k : list A) :
  l `prefix_of` k -> f <$> l `prefix_of` f <$> k.
Proof. intros [t ->]. rewrite fmap_app. by eexists. Qed.

Lemma bucket_le_refl b : bucket_le b b.
Proof. unfold bucket_le. split_and!; first [reflexivity | lia]. Qed.

Lemma bucket_le_bump b x f c u :
  0 <= f -> 0 <= c -> 0 <= u -> bucket_le b x -> bucket_le b (bump f c u x).
Proof.
  unfold bucket_le. simpl. intros Hf Hc Hu (-> & -> & ? & ? & ?).
  split_and!; first [reflexivity | lia].
Qed.

Lemma hosts_kept_ingest_stable s0 : ingest_stable (hosts_kept s0).
Proof.
  unfold hosts_kept. split_and!.
  - intros fqdn s s' Hs. unfold sql_insert_host.
    destruct (existsb _ _); [done|]. intros [= <-]. simpl.
    rewrite fmap_app. by apply prefix_app_r.
  - by intros.
  - intros data at_ hid s Hs. unfold sql_update_host. simpl.
    rewrite fmap_same_key; [done|]. intros h. by destruct (host_id h =? hid).
  - intros key s s' Hs. unfold sql_insert_history.
    destruct (existsb _ _); [done|]. by intros [= <-].
  - by intros.
Qed.

Lemma reports_kept_ingest_stable s0 : ingest_stable (reports_kept s0).
Proof.
  unfold reports_kept. split_and!.
  - intros fqdn s s' Hs. unfold sql_insert_host.
    destruct (existsb _ _); [done|]. by intros [= <-].
  - intros data hid path at_ s Hs. simpl. by apply prefix_app_r.
  - by intros.
  - intros key s s' Hs. unfold sql_insert_history.
    destruct (existsb _ _); [done|]. by intros [= <-].
  - by intros.
Qed.

Lemma history_kept_ingest_stable s0 : ingest_stable (history_kept s0).
Proof.
  unfold history_kept. split_and!.
  - intros fqdn s s' Hs. unfold sql_insert_host.
    destruct (existsb _ _); [done|]. by intros [= <-].
  - by intros.
  - by intros.
  - intros key s s' (bs & Hp & Hf). unfold sql_insert_history.
    destruct (existsb _ _); [done|]. intros [= <-]. simpl.
    exists bs. split; [by apply prefix_app_r | done].
  - intros state id s (bs & Hp & Hf).
    assert (increments state = ((increments state).1.1, (increments state).1.2,
                                (increments state).2)) as E
      by (by destruct (increments state) as [[? ?] ?]).
    destruct (increments_nonneg state _ _ _ E) as (Hf0 & Hc0 & Hu0).
    set (g := fun b => if hi_id b =? id
                       then bump (increments state).1.1 (increments state).1.2
                              (increments state).2 b
                       else b).
    exists (g <$> bs). split.
    + unfold sql_update_history. simpl. fold g. by apply prefix_fmap.
    + apply Forall2_fmap_r. eapply Forall2_impl; [exact Hf|].
      intros b x Hbx. unfold g. simpl. destruct (hi_id x =? id); [|done].
      by apply bucket_le_bump.
Qed.

(** ** The sweeps and the reads *)

Section SweepKeeps.

Context (I : Store -> Prop).
Variable filepath_Join : string -> string -> string.
Variable timeRelative : string -> string.
Variable time_Format : Z -> string.

Lemma updateOrphans_keeps :
  (∀ cutoff s, I s -> I (sql_mark_orphans cutoff s)) ->
  keeps I updateOrphans (fun _ => True).
Proof.
  intros Hs. unfold updateOrphans.
  eapply keeps_bind; [keeps_step|]. intros [] _; [by apply keeps_ret|].
  eapply keeps_bind; [keeps_step|]. intros now _.
  eapply keeps_bind; [|intros _ _; by apply keeps_ret].
  apply keeps_db_Exec. intros s s' HIs [= <-]. by apply Hs.
Qed.

Lemma purgeOrphans_keeps days :
  (∀ cutoff s, I s -> I (sql_delete_hosts cutoff s)) ->
  keeps I (purgeOrphans days) (fun _ => True).
Proof.
  intros Hs. unfold purgeOrphans.
  eapply keeps_bind; [keeps_step|]. intros [] _; [by apply keeps_ret|].
  eapply keeps_bind; [keeps_step|]. intros now _.
  eapply keeps_bind; [|intros _ _; by apply keeps_ret].
  apply keeps_db_Exec. intros s s' HIs [= <-]. by apply Hs.
Qed.

Lemma pruneHistory_keeps :
  (∀ ids s, I s -> I (sql_delete_history ids s)) ->
  keeps I pruneHistory (fun _ => True).
Proof.
  intros Hs. unfold pruneHistory.
  eapply keeps_bind; [keeps_step|]. intros [] _; [by apply keeps_ret|].
  eapply keeps_bind; [keeps_step|]. intros r _.
  destruct (_ <=? _); [by apply keeps_ret|].
  eapply keeps_bind; [keeps_step|]. intros [e|] _; [by apply keeps_ret|].
  eapply keeps_bind; [keeps_step|]. intros [ids|e] _; [|by apply keeps_ret].
  eapply keeps_bind; [|intros _ _; by apply keeps_ret].
  apply keeps_db_Exec. intros s s' HIs [= <-]. by apply Hs.
Qed.

Lemma remove_artifacts_keeps prefix paths :
  keeps I (remove_artifacts filepath_Join prefix paths) (fun _ => True).
Proof.
  induction paths as [|p paths IH]; simpl; [by apply keeps_ret|].
  eapply keeps_bind; [keeps_step|]. by intros _ _.
Qed.

Lemma pruneReports_keeps prefix days verbose :
  (∀ now expire s, I s -> I (sql_delete_old_reports now expire s)) ->
  keeps I (pruneReports filepath_Join prefix days verbose) (fun _ => True).
Proof.
  intros Hs. unfold pruneReports.
  eapply keeps_bind; [keeps_step|]. intros [] _; [by apply keeps_ret|].
  eapply keeps_bind; [keeps_step|]. intros now _.
  eapply keeps_bind; [keeps_step|]. intros [e|] _; [by apply keeps_ret|].
  eapply keeps_bind; [keeps_step|]. intros [e|] _; [by apply keeps_ret|].
  eapply keeps_bind; [keeps_step|]. intros [rows|e] _; [|by apply keeps_ret].
  eapply keeps_bind; [apply remove_artifacts_keeps|]. intros _ _.
  apply keeps_db_Exec. intros s s' HIs [= <-]. by apply Hs.
Qed.

Lemma pruneUnchanged_keeps prefix verbose :
  (∀ s, I s -> I (sql_mark_unchanged_pruned s)) ->
  keeps I (pruneUnchanged filepath_Join prefix verbose) (fun _ => True).
Proof.
  intros Hs. unfold pruneUnchanged.
  eapply keeps_bind; [keeps_step|]. intros [] _; [by apply keeps_ret|].
  eapply keeps_bind; [keeps_step|]. intros [e|] _; [by apply keeps_ret|].
  eapply keeps_bind; [keeps_step|]. intros [e|] _; [by apply keeps_ret|].
  eapply keeps_bind; [keeps_step|]. intros [rows|e] _; [|by apply keeps_ret].
  eapply keeps_bind; [apply remove_artifacts_keeps|]. intros _ _.
  apply keeps_db_Exec. intros s s' HIs [= <-]. by apply Hs.
Qed.

Lemma getIndexNodes_keeps :
  keeps I (getIndexNodes timeRelative time_Format) (fun _ => True).
Proof.
  unfold getIndexNodes.
  eapply keeps_bind; [keeps_step|]. intros [] _; [by apply keeps_ret|].
  eapply keeps_bind; [keeps_step|]. intros [rows|e] _; by apply keeps_ret.
Qed.

Lemma purge_reports_of_orphans_keeps prefix nodes :
  (∀ fqdn s, I s -> I (sql_delete_reports_of fqdn s)) ->
  keeps I (purge_reports_of_orphans filepath_Join prefix nodes) (fun _ => True).
Proof.
  intros Hs. induction nodes as [|entry nodes IH]; simpl; [by apply keeps_ret|].
  destruct (String.eqb _ _); [|exact IH].
  eapply keeps_bind; [keeps_step|]. intros [rows|e] _; [|by apply keeps_ret].
  eapply keeps_bind; [apply remove_artifacts_keeps|]. intros _ _.
  eapply keeps_bind; [keeps_step|]. intros [e|] _; [by apply keeps_ret|].
  eapply keeps_bind.
  { apply keeps_db_Exec. intros s s' HIs [= <-]. by apply Hs. }
  intros [e|] _; [by apply keeps_ret | exact IH].
Qed.

Lemma pruneOrphaned_keeps prefix verbose :
  (∀ fqdn s, I s -> I (sql_delete_reports_of fqdn s)) ->
  keeps I (pruneOrphaned filepath_Join timeRelative time_Format prefix verbose)
    (fun _ => True).
Proof.
  intros Hs. unfold pruneOrphaned.
  eapply keeps_bind; [apply getIndexNodes_keeps|].
  intros [nodes|e] _; [|by apply keeps_ret].
  by apply purge_reports_of_orphans_keeps.
Qed.

Lemma getReports_keeps fqdn :
  keeps I (getReports timeRelative time_Format fqdn) (fun _ => True).
Proof.
  unfold getReports.
  eapply keeps_bind; [keeps_step|]. intros [] _; [by apply keeps_ret|].
  eapply keeps_bind; [keeps_step|]. intros [e|] _; [by apply keeps_ret|].
  eapply keeps_bind; [keeps_step|]. intros [rows|e] _; [|by apply keeps_ret].
  destruct (_ <? _)%nat; by apply keeps_ret.
Qed.

Lemma getHistory_keeps : keeps I getHistory (fun _ => True).
Proof.
  unfold getHistory.
  eapply keeps_bind; [keeps_step|]. intros [] _; [by apply keeps_ret|].
  eapply keeps_bind; [keeps_step|]. intros [e|] _; [by apply keeps_ret|].
  eapply keeps_bind; [keeps_step|]. intros [rows|e] _; by apply keeps_ret.
Qed.

Lemma countReports_keeps : keeps I countReports (fun _ => True).
Proof.
  unfold countReports.
  eapply keeps_bind; [keeps_step|]. intros [] _; [by apply keeps_ret|].
  eapply keeps_bind; [keeps_step|]. intros r _. by apply keeps_ret.
Qed.

Lemma countUnchangedAndReapedReports_keeps :
  keeps I countUnchangedAndReapedReports (fun _ => True).
Proof.
  unfold countUnchangedAndReapedReports.
  eapply keeps_bind; [keeps_step|]. intros [] _; [by apply keeps_ret|].
  eapply keeps_bind; [keeps_step|]. intros r _. by apply keeps_ret.
Qed.

Lemma getYAML_keeps id_of_text prefix id :
  keeps I (getYAML filepath_Join id_of_text prefix id) (fun _ => True).
Proof.
  unfold getYAML.
  eapply keeps_bind; [keeps_step|]. intros [] _; [by apply keeps_ret|].
  eapply keeps_bind; [keeps_step|]. intros [path|[]] _; try by apply keeps_ret.
  destruct (_ <? _)%nat; [keeps_step | by apply keeps_ret].
Qed.

Lemma getStates_keeps (float64 : Type) (float_zero : float64) percentage :
  keeps I (getStates timeRelative time_Format float64 float_zero percentage)
    (fun _ => True).
Proof.
  unfold getStates.
  eapply keeps_bind; [apply getIndexNodes_keeps|].
  intros [nodes|e] _; by apply keeps_ret.
Qed.

End SweepKeeps.

(** ** Schema and growth, whatever fails *)

(** X1. Whatever calls fail, the ingestion entry points leave the store
    within its schema: host ids, report ids and bucket ids stay distinct and
    below their counters, and no second host row of an fqdn or second bucket
    of a date appears.  This holds for the synchronous handler, for the
    asynchronous handler and for a worker draining any list of tokens. *)
Theorem ingestion_keeps_schema date_key ParsePuppetReport filepath_Join
    ReportPrefix req b jobs w :
  isolated w = true -> store_wf (store w) ->
  store_wf (store (exec (ReportSubmissionHandler date_key ParsePuppetReport
                           filepath_Join ReportPrefix req) w)) ∧
  store_wf (store (exec (AsyncReportSubmissionHandler filepath_Join b req) w)) ∧
  store_wf (store (exec (AsyncReportSubmissionWorker date_key ParsePuppetReport
                           filepath_Join ReportPrefix jobs) w)).
Proof.
  intros Hi Hwf. split_and!.
  - by apply (ReportSubmissionHandler_keeps store_wf store_wf_ingest_stable).
  - by apply (AsyncReportSubmissionHandler_keeps store_wf).
  - by apply (AsyncReportSubmissionWorker_keeps store_wf store_wf_ingest_stable).
Qed.

Lemma ingestion_keeps_schema_witness :
  store_wf (store (exec (ReportSubmissionHandler strftime_Ymd parse_as_B join
                           "reports" post_A) flaky_world)).
Proof.
  apply (ingestion_keeps_schema strftime_Ymd parse_as_B join "reports" post_A
           [] [] flaky_world).
  - reflexivity.
  - apply (bool_decide_unpack _). vm_compute. reflexivity.
Defined.

(** X2. Whatever calls fail, the maintenance sweeps leave the store within
    its schema as well: the orphan sweep, the purge of stale hosts, the
    history retention and the three report prunings. *)
Theorem sweeps_keep_schema filepath_Join timeRelative time_Format prefix days
    verbose w :
  isolated w = true -> store_wf (store w) ->
  store_wf (store (exec updateOrphans w)) ∧
  store_wf (store (exec (purgeOrphans days) w)) ∧
  store_wf (store (exec pruneHistory w)) ∧
  store_wf (store (exec (pruneReports filepath_Join prefix days verbose) w)) ∧
  store_wf (store (exec (pruneUnchanged filepath_Join prefix verbose) w)) ∧
  store_wf (store (exec (pruneOrphaned filepath_Join timeRelative time_Format
                           prefix verbose) w)).
Proof.
  intros Hi Hwf. split_and!.
  - apply (updateOrphans_keeps store_wf); [|done..].
    intros. by apply store_wf_mark_orphans.
  - apply (purgeOrphans_keeps store_wf); [|done..].
    intros. by apply store_wf_delete_hosts.
  - apply (pruneHistory_keeps store_wf); [|done..].
    intros. by apply store_wf_delete_history.
  - apply (pruneReports_keeps store_wf); [|done..].
    intros. by apply store_wf_delete_old_reports.
  - apply (pruneUnchanged_keeps store_wf); [|done..].
    intros. by apply store_wf_mark_unchanged_pruned.
  - apply (pruneOrphaned_keeps store_wf); [|done..].
    intros. by apply store_wf_delete_reports_of.
Qed.

Lemma sweeps_keep_schema_witness :
  store_wf (store (exec (pruneOrphaned join (fun s => s) pretty "reports" false)
                     flaky_world)).
Proof.
  apply (sweeps_keep_schema join (fun s => s) pretty "reports" 30 false
           flaky_world).
  - reflexivity.
  - apply (bool_decide_unpack _). vm_compute. reflexivity.
Defined.

(** X3. Whatever calls fail, ingestion only adds: after the synchronous
    handler, and after a worker has drained any list of tokens, every host
    row of before is still there with its id, fqdn and pin flag, every
    report row of before is still there unaltered, and every history bucket
    of before is still there with counters at least as high. *)
Theorem ingestion_only_adds date_key ParsePuppetReport filepath_Join
    ReportPrefix req jobs w :
  isolated w = true ->
  let w1 := exec (ReportSubmissionHandler date_key ParsePuppetReport
                    filepath_Join ReportPrefix req) w in
  let w2 := exec (AsyncReportSubmissionWorker date_key ParsePuppetReport
                    filepath_Join ReportPrefix jobs) w in
  (hosts_kept (store w) (store w1) ∧ reports_kept (store w) (store w1) ∧
   history_kept (store w) (store w1)) ∧
  (hosts_kept (store w) (store w2) ∧ reports_kept (store w) (store w2) ∧
   history_kept (store w) (store w2)).
Proof.
  intros Hi w1 w2.
  assert (history_kept (store w) (store w)) as Hh.
  { exists (history (store w)). split; [done|].
    apply Forall_Forall2_diag, Forall_forall. intros b _. apply bucket_le_refl. }
  split; split_and!.
  - apply (ReportSubmissionHandler_keeps _ (hosts_kept_ingest_stable (store w))); [done|].
    unfold hosts_kept. reflexivity.
  - apply (ReportSubmissionHandler_keeps _ (reports_kept_ingest_stable (store w))); [done|].
    unfold reports_kept. reflexivity.
  - by apply (ReportSubmissionHandler_keeps _ (history_kept_ingest_stable (store w))).
  - apply (AsyncReportSubmissionWorker_keeps _ (hosts_kept_ingest_stable (store w))); [done|].
    unfold hosts_kept. reflexivity.
  - apply (AsyncReportSubmissionWorker_keeps _ (reports_kept_ingest_stable (store w))); [done|].
    unfold reports_kept. reflexivity.
  - by apply (AsyncReportSubmissionWorker_keeps _ (history_kept_ingest_stable (store w))).
Qed.

Lemma ingestion_only_adds_witness :
  reports_kept busy_store
    (store (exec (ReportSubmissionHandler strftime_Ymd parse_as_B join
                    "reports" post_A) flaky_world)).
Proof.
  destruct (ingestion_only_adds strftime_Ymd parse_as_B join "reports" post_A
              [] flaky_world ltac:(reflexivity)) as [(_ & H & _) _].
  exact H.
Defined.

(** ** Unlinking artifacts *)

Section RetentionProofs.

Variable filepath_Join : string -> string -> string.

Lemma without_artifacts_other prefix paths f q :
  (∀ p, p ∈ paths -> filepath_Join prefix p ≠ q) ->
  without_artifacts filepath_Join prefix paths f !! q = f !! q.
Proof.
  unfold without_artifacts. revert f.
  induction paths as [|p paths IH]; intros f Hq; simpl; [done|].
  rewrite IH.
  - apply lookup_delete_ne, Hq. by left.
  - intros p' Hp'. apply Hq. by right.
Qed.

Lemma without_artifacts_none prefix paths f q :
  f !! q = None ->
  without_artifacts filepath_Join prefix paths f !! q = None.
Proof.
  unfold without_artifacts. revert f.
  induction paths as [|p paths IH]; intros f Hq; simpl; [done|].
  apply IH. rewrite lookup_delete. by case_decide.
Qed.

Lemma without_artifacts_gone prefix paths f p :
  p ∈ paths ->
  without_artifacts filepath_Join prefix paths f !! filepath_Join prefix p = None.
Proof.
  revert f. induction paths as [|q paths IH]; intros f Hp; [by inv Hp|].
  apply elem_of_cons in Hp as [->|Hp].
  - change (without_artifacts filepath_Join prefix (q :: paths) f)
      with (without_artifacts filepath_Join prefix paths
              (delete (filepath_Join prefix q) f)).
    apply without_artifacts_none, lookup_delete_eq.
  - by apply IH.
Qed.

Lemma remove_artifacts_quiet prefix paths w :
  quiet w = true ->
  ∃ w',
    remove_artifacts filepath_Join prefix paths w = (tt, w') ∧
    quiet w' = true ∧ db_open w' = db_open w ∧ store w' = store w ∧
    log w' = log w ∧ clock w' = clock w ∧
    fs w' = without_artifacts filepath_Join prefix paths (fs w).
Proof.
  revert w. induction paths as [|p paths IH]; intros w Hq; simpl.
  - exists w. by split_and!.
  - rewrite bind_run, os_Remove_quiet by done.
    destruct (fs w !! filepath_Join prefix p) eqn:E.
    + destruct (IH (set_fs (delete (filepath_Join prefix p) (fs w)) (tick w)))
        as (w' & Hr & Hq' & Ho & Hs & Hl & Hc & Hf); [simpl; solve_quiet|].
      exists w'. by split_and!.
    + destruct (IH (tick w)) as (w' & Hr & Hq' & Ho & Hs & Hl & Hc & Hf);
        [solve_quiet|].
      exists w'. split_and!; try done. rewrite Hf. simpl.
      unfold without_artifacts. simpl. f_equal.
      symmetry. by apply delete_id.
Qed.

End RetentionProofs.

(** Runs the unlinking loop met in the goal. *)
Ltac run_remove :=
  match goal with
  | |- context [remove_artifacts ?J ?p ?ps ?W] =>
      let w' := fresh "w'" in
      let Hr := fresh "Hr" in
      let Hq := fresh "Hq'" in
      let Ho := fresh "Ho'" in
      let Hs := fresh "Hs'" in
      let Hl := fresh "Hl'" in
      let Hc := fresh "Hc'" in
      let Hf := fresh "Hf'" in
      destruct (remove_artifacts_quiet J p ps W) as
        (w' & Hr & Hq & Ho & Hs & Hl & Hc & Hf);
      [solve_quiet | rewrite Hr; cbn beta iota; simpl in Ho, Hs, Hl, Hc, Hf]
  end.

Section PruneProofs.

Variable filepath_Join : string -> string -> string.

Lemma pruneReports_quiet prefix days verbose w :
  db_open w = true -> quiet w = true ->
  let expire := wrap64 (days * (24 * 60 * 60)) in
  ∃ w',
    pruneReports filepath_Join prefix days verbose w = (None, w') ∧
    quiet w' = true ∧ db_open w' = true ∧ clock w' = clock w ∧
    store w' = sql_delete_old_reports (clock w) expire (store w) ∧
    fs w' = without_artifacts filepath_Join prefix
              (sql_select_old_reports (clock w) expire (store w)).*2 (fs w).
Proof.
  intros Ho Hq expire. unfold pruneReports, db_is_nil, time_Now_Unix.
  rewrite bind_run, Ho; simpl. run. simpl. run_remove.
  rewrite db_Exec_quiet by done. eexists. split; [reflexivity|].
  simpl. rewrite Hs', Hc', Hf', Ho'. split_and!; try done. solve_quiet.
Qed.

Lemma pruneUnchanged_quiet prefix verbose w :
  db_open w = true -> quiet w = true ->
  ∃ w',
    pruneUnchanged filepath_Join prefix verbose w = (None, w') ∧
    quiet w' = true ∧ db_open w' = true ∧ clock w' = clock w ∧
    store w' = sql_mark_unchanged_pruned (store w) ∧
    fs w' = without_artifacts filepath_Join prefix
              (sql_select_unchanged (store w)).*2 (fs w).
Proof.
  intros Ho Hq. unfold pruneUnchanged, db_is_nil.
  rewrite bind_run, Ho; simpl. run. simpl. run_remove.
  rewrite db_Exec_quiet by done. eexists. split; [reflexivity|].
  simpl. rewrite Hs', Hc', Hf', Ho'. split_and!; try done. solve_quiet.
Qed.

Lemma snd_select_fmap (P : Report -> Prop) `{∀ r, Decision (P r)}
    (l : list Report) :
  ((fun r => (r_id r, yaml_file r)) <$> filter P l).*2 = yaml_file <$> filter P l.
Proof. rewrite <- list_fmap_compose. reflexivity. Qed.

(** X4. [pruneReports(prefix, days, verbose)], with nothing failing, deletes
    exactly the report rows ingested more than [days * 86400] seconds before
    now: a row exactly that old stays.  The rows it keeps are unaltered and
    in order, the artifact of every deleted row is gone from disk, files that
    are no artifact of a deleted row are untouched, and hosts and history
    are as before. *)
Theorem pruneReports_deletes_expired prefix days verbose w :
  db_open w = true -> quiet w = true -> 0 <= days < 2 ^ 32 ->
  let w' := exec (pruneReports filepath_Join prefix days verbose) w in
  eval (pruneReports filepath_Join prefix days verbose) w = None ∧
  reports (store w')
    = filter (fun r => ¬ expired (clock w) days r) (reports (store w)) ∧
  (∀ r, r ∈ reports (store w) -> executed_at r = clock w - days * 86400 ->
        r ∈ reports (store w')) ∧
  (∀ r, r ∈ reports (store w) -> expired (clock w) days r ->
        fs w' !! filepath_Join prefix (yaml_file r) = None) ∧
  (∀ q, (∀ r, r ∈ reports (store w) -> expired (clock w) days r ->
              filepath_Join prefix (yaml_file r) ≠ q) ->
        fs w' !! q = fs w !! q) ∧
  hosts (store w') = hosts (store w) ∧
  history (store w') = history (store w).
Proof.
  intros Ho Hq Hd w'. subst w'. unfold eval, exec.
  destruct (pruneReports_quiet prefix days verbose w Ho Hq)
    as (w' & -> & _ & _ & _ & Hs & Hf). simpl.
  replace (24 * 60 * 60) with 86400 in * by reflexivity.
  rewrite (wrap64_small (days * 86400)) in Hs, Hf by lia.
  unfold sql_select_old_reports in Hf. rewrite snd_select_fmap in Hf.
  rewrite Hs, Hf. simpl. split_and!; try done.
  - intros r Hr He. apply list_elem_of_filter. split; [|done].
    unfold expired. lia.
  - intros r Hr He. apply without_artifacts_gone.
    apply list_elem_of_fmap. exists r. split; [done|].
    by apply list_elem_of_filter.
  - intros q Hq'. apply without_artifacts_other.
    intros p (r & -> & [He Hr]%list_elem_of_filter)%list_elem_of_fmap.
    by apply Hq'.
Qed.

(** X5. [pruneUnchanged(prefix, verbose)], with nothing failing, keeps every
    report row and changes only the artifact pointer: a row in state
    "unchanged" gets the pointer "pruned" and its artifact is gone from
    disk, every other row is as it was.  Hosts and history are as before,
    and a second run leaves the store as the first left it. *)
Theorem pruneUnchanged_compacts prefix verbose w :
  db_open w = true -> quiet w = true ->
  let w' := exec (pruneUnchanged filepath_Join prefix verbose) w in
  eval (pruneUnchanged filepath_Join prefix verbose) w = None ∧
  Forall2 (fun r r' =>
             same_but_yaml r r' ∧
             yaml_file r' = if decide (r_state r = "unchanged") then "pruned"
                            else yaml_file r)
    (reports (store w)) (reports (store w')) ∧
  (∀ r, r ∈ reports (store w) -> r_state r = "unchanged" ->
        fs w' !! filepath_Join prefix (yaml_file r) = None) ∧
  hosts (store w') = hosts (store w) ∧
  history (store w') = history (store w) ∧
  store (exec (pruneUnchanged filepath_Join prefix verbose) w') = store w'.
Proof.
  intros Ho Hq w'. subst w'. unfold eval, exec.
  destruct (pruneUnchanged_quiet prefix verbose w Ho Hq)
    as (w' & -> & Hq1 & Ho1 & _ & Hs & Hf). simpl.
  destruct (pruneUnchanged_quiet prefix verbose w' Ho1 Hq1)
    as (w2 & -> & _ & _ & _ & Hs2 & _). simpl.
  unfold sql_select_unchanged in Hf. rewrite snd_select_fmap in Hf.
  rewrite Hs2, Hf, Hs. simpl. split_and!; try done.
  - apply Forall2_fmap_r, Forall_Forall2_diag, Forall_forall. intros r _.
    unfold same_but_yaml. simpl. by destruct (decide _); simpl; split_and!.
  - intros r Hr He. apply without_artifacts_gone.
    apply list_elem_of_fmap. exists r. split; [done|].
    by apply list_elem_of_filter.
  - unfold sql_mark_unchanged_pruned. simpl. f_equal.
    rewrite <- list_fmap_compose. apply list_fmap_ext. intros i r _. simpl.
    destruct (decide (r_state r = "unchanged")) as [E|E]; simpl.
    + by rewrite decide_True.
    + by rewrite decide_False.
Qed.

End PruneProofs.

Lemma pruneReports_deletes_expired_witness :
  r_id <$> reports (store (exec (pruneReports join "reports" 14 false) busy_world))
  = [1; 3] ∧
  fs (exec (pruneReports join "reports" 14 false) busy_world)
    !! "reports/db01/H2" = None.
Proof.
  destruct (pruneReports_deletes_expired join "reports" 14 false busy_world
              ltac:(reflexivity) ltac:(reflexivity) ltac:(lia))
    as (_ & H & _).
  split; [by rewrite H | reflexivity].
Defined.

Lemma pruneUnchanged_compacts_witness :
  yaml_file <$> reports (store (exec (pruneUnchanged join "reports" false)
                                  busy_world))
  = ["web01/H1"; "pruned"; "pruned"].
Proof.
  destruct (pruneUnchanged_compacts join "reports" false busy_world
              ltac:(reflexivity) ltac:(reflexivity)) as (_ & H & _).
  reflexivity.
Defined.

(** ** The reports of orphaned hosts *)

Section OrphanedProofs.

Variable filepath_Join : string -> string -> string.
Variable timeRelative : string -> string.
Variable time_Format : Z -> string.

Lemma index_node_state h :
  n_State (index_node timeRelative time_Format h) = h_state h.
Proof. unfold index_node. by destruct (String.eqb _ _). Qed.

Lemma index_node_fqdn h :
  n_Fqdn (index_node timeRelative time_Format h) = h_fqdn h.
Proof. unfold index_node. by destruct (String.eqb _ _). Qed.

Lemma purge_reports_of_orphans_quiet prefix (hs : list Host) w :
  db_open w = true -> quiet w = true ->
  let orph := h_fqdn <$> filter (fun h => h_state h = "orphaned") hs in
  ∃ w',
    purge_reports_of_orphans filepath_Join prefix
      (index_node timeRelative time_Format <$> hs) w = (None, w') ∧
    quiet w' = true ∧ db_open w' = true ∧
    hosts (store w') = hosts (store w) ∧
    history (store w') = history (store w) ∧
    reports (store w') = filter (fun r => r_fqdn r ∉ orph) (reports (store w)) ∧
    (∀ q, fs w !! q = None -> fs w' !! q = None) ∧
    (∀ r, r ∈ reports (store w) -> r_fqdn r ∈ orph ->
          fs w' !! filepath_Join prefix (yaml_file r) = None).
Proof.
  revert w. induction hs as [|h hs IH]; intros w Ho Hq orph; subst orph.
  - simpl. exists w. split_and!; try done.
    + symmetry. apply filter_all, Forall_forall. intros r _. simpl.
      apply not_elem_of_nil.
    + intros r _ Hr. simpl in Hr. by apply not_elem_of_nil in Hr.
  - csimpl. rewrite index_node_state, index_node_fqdn.
    destruct (String.eqb_spec (h_state h) "orphaned") as [Es|Es].
    + rewrite filter_cons_True by done. csimpl.
      run. run_remove. run. simpl.
      match goal with
      | |- context [purge_reports_of_orphans _ _ _ ?W] =>
          destruct (IH W) as (w2 & Hr2 & Hq2 & Ho2 & Hh2 & Hi2 & Hp2 & Hn2 & Hg2);
          [simpl; congruence | simpl; solve_quiet |]
      end.
      exists w2. simpl in Hh2, Hi2, Hp2, Hn2, Hg2.
      rewrite Hs' in Hh2, Hi2, Hp2, Hg2. rewrite Hf' in Hn2.
      split_and!; try done.
      * rewrite Hp2, list_filter_filter. apply list_filter_iff.
        intros r. rewrite elem_of_cons. tauto.
      * intros q Hq0. by apply Hn2, without_artifacts_none.
      * intros r Hrin [Ef|Hin]%elem_of_cons.
        -- apply Hn2. unfold sql_select_yaml_of.
           apply without_artifacts_gone, list_elem_of_fmap.
           exists r. split; [done|]. by apply list_elem_of_filter.
        -- destruct (decide (r_fqdn r = h_fqdn h)) as [Ef|Ef].
           ++ apply Hn2. unfold sql_select_yaml_of.
              apply without_artifacts_gone, list_elem_of_fmap.
              exists r. split; [done|]. by apply list_elem_of_filter.
           ++ apply Hg2; [|done]. by apply list_elem_of_filter.
    + rewrite filter_cons_False by done. by apply IH.
Qed.

Lemma getIndexNodes_quiet w :
  db_open w = true -> quiet w = true ->
  getIndexNodes timeRelative time_Format w
  = (Ok (index_node timeRelative time_Format <$> hosts (store w)), tick w).
Proof.
  intros Ho Hq. unfold getIndexNodes, db_is_nil.
  rewrite bind_run, Ho; simpl. run. reflexivity.
Qed.

(** X6. [pruneOrphaned(prefix, verbose)], with nothing failing, deletes
    exactly the report rows whose fqdn is that of a host in state
    "orphaned" and unlinks their artifacts; the reports of the other hosts
    are unaltered and in order.  It deletes no host row: the hosts table,
    orphaned hosts included, and the history are as before. *)
Theorem pruneOrphaned_deletes_reports_of_orphans prefix verbose w :
  db_open w = true -> quiet w = true ->
  let w' := exec (pruneOrphaned filepath_Join timeRelative time_Format prefix
                    verbose) w in
  eval (pruneOrphaned filepath_Join timeRelative time_Format prefix verbose) w
    = None ∧
  reports (store w')
    = filter (fun r => r_fqdn r ∉ orphaned_fqdns (store w)) (reports (store w)) ∧
  (∀ r, r ∈ reports (store w) -> r_fqdn r ∈ orphaned_fqdns (store w) ->
        fs w' !! filepath_Join prefix (yaml_file r) = None) ∧
  hosts (store w') = hosts (store w) ∧
  history (store w') = history (store w).
Proof.
  intros Ho Hq w'. subst w'. unfold eval, exec, pruneOrphaned.
  rewrite bind_run, getIndexNodes_quiet by done.
  destruct (purge_reports_of_orphans_quiet prefix (hosts (store w)) (tick w))
    as (w' & -> & _ & _ & Hh & Hi & Hp & _ & Hg); [done | solve_quiet |].
  simpl in *. by split_and!.
Qed.

End OrphanedProofs.

Lemma pruneOrphaned_deletes_reports_of_orphans_witness :
  r_id <$> reports (store (exec (pruneOrphaned join (fun s => s) pretty "reports"
                                   false) busy_world))
  = [1; 3] ∧
  length (hosts (store (exec (pruneOrphaned join (fun s => s) pretty "reports"
                                false) busy_world))) = 2%nat.
Proof.
  destruct (pruneOrphaned_deletes_reports_of_orphans join (fun s => s) pretty
              "reports" false busy_world ltac:(reflexivity) ltac:(reflexivity))
    as (_ & H & _ & Hh & _).
  split; [by rewrite H | by rewrite Hh].
Defined.

(** ** Fetching a stored report *)

Lemma store_wf_hosts_wf s : store_wf s -> hosts_wf s = true.
Proof.
  intros (_ & _ & H & _). unfold hosts_wf. apply forallb_forall.
  intros h Hh%list_elem_of_In. rewrite Forall_forall in H.
  specialize (H h Hh). simpl in H. lia.
Qed.

Lemma store_wf_history_wf s : store_wf s -> history_wf s = true.
Proof.
  intros (_ & _ & _ & _ & _ & H1 & _ & H2 & _). apply history_wf_spec.
  split; [done|]. eapply Forall_impl; [exact H2|]. simpl. intros; lia.
Qed.

Section FetchProofs.

Variable date_key : Z -> string.
Variable ParsePuppetReport : list byte -> result PuppetReport.
Variable filepath_Join : string -> string -> string.
Variable ReportPrefix : string.
Variable id_of_text : string -> option Z.

Lemma getYAML_quiet prefix id w :
  db_open w = true -> quiet w = true ->
  getYAML filepath_Join id_of_text prefix id w =
    match sql_select_yaml id_of_text id (store w) with
    | Some path =>
        if (0 <? String.length path)%nat
        then ioutil_ReadFile (filepath_Join prefix path) (tick w)
        else (Err (ErrMsg "failed to find report with specified ID"), tick w)
    | None => (Err (ErrMsg "failed to find report with specified ID"), tick w)
    end.
Proof.
  intros Ho Hq. unfold getYAML, db_is_nil.
  rewrite bind_run, Ho; simpl. run.
  destruct (sql_select_yaml id_of_text id (store w)) as [path|]; [|done].
  by destruct (0 <? _)%nat.
Qed.

Lemma select_yaml_none id s :
  (∀ r, r ∈ reports s -> id_of_text id ≠ Some (r_id r)) ->
  sql_select_yaml id_of_text id s = None.
Proof.
  intros Hnone. unfold sql_select_yaml.
  destruct (List.find _ _) as [r|] eqn:E; [|done].
  apply find_some in E as [Hin Hr]. apply list_elem_of_In in Hin.
  apply bool_decide_eq_true in Hr. by destruct (Hnone r Hin).
Qed.

(** X7. [getYAML(prefix, id)] answers an id that no report row carries, and
    an id whose row has an empty artifact pointer, with the error "failed to
    find report with specified ID"; it reads no file for them and changes
    neither store nor files.  The error "report not found" is kept for a
    failing query. *)
Theorem getYAML_unknown_id prefix id w :
  db_open w = true -> quiet w = true ->
  (∀ r, r ∈ reports (store w) ->
        id_of_text id = Some (r_id r) -> yaml_file r = EmptyString) ->
  let w' := exec (getYAML filepath_Join id_of_text prefix id) w in
  eval (getYAML filepath_Join id_of_text prefix id) w
    = Err (ErrMsg "failed to find report with specified ID") ∧
  store w' = store w ∧ fs w' = fs w ∧
  eval (getYAML filepath_Join id_of_text prefix id)
    (set_sched (EvFail :: sched w) w)
    = Err (ErrMsg "report not found").
Proof.
  intros Ho Hq Hnone w'. subst w'. unfold eval, exec.
  rewrite getYAML_quiet by done. split_and!.
  - unfold sql_select_yaml.
    destruct (List.find _ _) as [r|] eqn:E; [|done].
    apply find_some in E as [Hin Hr]. apply list_elem_of_In in Hin.
    apply bool_decide_eq_true in Hr. simpl. by rewrite (Hnone r Hin Hr).
  - destruct (sql_select_yaml _ _ _) as [path|]; [|done].
    destruct (0 <? _)%nat eqn:E; [|done].
    rewrite ioutil_ReadFile_quiet by solve_quiet. done.
  - destruct (sql_select_yaml _ _ _) as [path|]; [|done].
    destruct (0 <? _)%nat eqn:E; [|done].
    rewrite ioutil_ReadFile_quiet by solve_quiet. done.
  - unfold getYAML, db_is_nil, db_QueryRow, next_event.
    rewrite !bind_run. simpl. by rewrite Ho.
Qed.

(** Everything a fresh synchronous submission leaves behind. *)
Lemma fresh_submission req report w :
  db_open w = true -> quiet w = true -> store_wf (store w) ->
  Method req = "POST" -> ParsePuppetReport (Body req) = Ok report ->
  let dir := filepath_Join ReportPrefix (Fqdn report) in
  let path := filepath_Join dir (Hash report) in
  fs w !! path = None -> path ≠ dir ->
  fs w !! dir = None ∨ fs w !! dir = Some Dir ->
  let w1 := exec (ReportSubmissionHandler date_key ParsePuppetReport
                    filepath_Join ReportPrefix req) w in
  ∃ hid,
    db_open w1 = true ∧ quiet w1 = true ∧
    fs w1 !! path = Some (File (Body req)) ∧
    reports (store w1)
      = reports (store w)
        ++ [report_row (seq_reports (store w) + 1) hid report
              (filepath_Join (Fqdn report) (Hash report)) (clock w)].
Proof.
  intros Ho Hq Hwf Hm Hp dir path Hn Hne Hd w1. subst dir path.
  destruct (handler_fresh date_key ParsePuppetReport filepath_Join ReportPrefix
              req report w Ho Hq Hm Hp Hn Hne Hd)
    as (wm & Hom & Hqm & Hsm & Hlm & Hcm & Hfp & Hfd & Hrun).
  pose proof (store_wf_hosts_wf _ Hwf) as Hh.
  pose proof (store_wf_history_wf _ Hwf) as Hhi.
  rewrite <- Hsm in Hh, Hhi.
  destruct (addDB_effect date_key report
              (filepath_Join (Fqdn report) (Hash report)) wm Hom Hqm Hh Hhi)
    as (hid & h' & new & _ & Hrep & _ & _ & _ & _ & _ & Hfs & Hq1 & Ho1 & _).
  assert (Hw1 : w1 = exec (addDB date_key report
                             (filepath_Join (Fqdn report) (Hash report))) wm).
  { subst w1. unfold exec at 1. by rewrite Hrun. }
  rewrite <- Hw1 in Hrep, Hfs, Hq1, Ho1.
  exists hid. rewrite Hsm, Hcm in Hrep. split_and!; try done.
  by rewrite Hfs.
Qed.

(** X8. Round trip: once a fresh synchronous submission has been accepted,
    with nothing failing, [getYAML] on the id of the new report row returns
    exactly the bytes that were submitted. *)
Theorem submitted_report_is_fetched req report id w :
  db_open w = true -> quiet w = true -> store_wf (store w) ->
  Method req = "POST" -> ParsePuppetReport (Body req) = Ok report ->
  let dir := filepath_Join ReportPrefix (Fqdn report) in
  let path := filepath_Join dir (Hash report) in
  let relativePath := filepath_Join (Fqdn report) (Hash report) in
  fs w !! path = None -> path ≠ dir ->
  fs w !! dir = None ∨ fs w !! dir = Some Dir ->
  filepath_Join ReportPrefix relativePath = path ->
  relativePath ≠ EmptyString ->
  id_of_text id = Some (seq_reports (store w) + 1) ->
  let w1 := exec (ReportSubmissionHandler date_key ParsePuppetReport
                    filepath_Join ReportPrefix req) w in
  eval (getYAML filepath_Join id_of_text ReportPrefix id) w1 = Ok (Body req).
Proof.
  intros Ho Hq Hwf Hm Hp dir path relativePath Hn Hne Hd Hj Hrel Hid w1.
  destruct (fresh_submission req report w Ho Hq Hwf Hm Hp Hn Hne Hd)
    as (hid & Ho1 & Hq1 & Hf1 & Hr1).
  fold w1 in Ho1, Hq1, Hf1, Hr1. fold dir path in Hf1. fold relativePath in Hr1.
  unfold eval. rewrite getYAML_quiet by done.
  assert (sql_select_yaml id_of_text id (store w1) = Some relativePath) as ->.
  { unfold sql_select_yaml. rewrite Hr1, find_snoc.
    destruct (List.find _ (reports (store w))) as [r|] eqn:E.
    - apply find_some in E as [Hin Hr]. apply list_elem_of_In in Hin.
      apply bool_decide_eq_true in Hr. rewrite Hid in Hr. injection Hr as Hr.
      destruct Hwf as (_ & _ & _ & _ & Hb & _). rewrite Forall_forall in Hb.
      specialize (Hb r Hin). simpl in Hb. lia.
    - simpl. rewrite bool_decide_eq_true_2 by done. reflexivity. }
  assert ((0 <? String.length relativePath)%nat = true) as ->
    by (by destruct relativePath).
  rewrite Hj, ioutil_ReadFile_quiet by solve_quiet. simpl. by rewrite Hf1.
Qed.

End FetchProofs.

Lemma getYAML_unknown_id_witness :
  eval (getYAML join decimal_id "reports" "7") busy_world
  = Err (ErrMsg "failed to find report with specified ID").
Proof.
  apply (getYAML_unknown_id join decimal_id "reports" "7" busy_world
           ltac:(reflexivity) ltac:(reflexivity)).
  intros r Hr Hid. exfalso. revert Hid.
  apply list_elem_of_In in Hr. simpl in Hr.
  destruct Hr as [<-|[<-|[<-|[]]]]; vm_compute; discriminate.
Defined.

Lemma submitted_report_is_fetched_witness :
  eval (getYAML join decimal_id "reports" "4")
    (exec (ReportSubmissionHandler strftime_Ymd parse_as_B join "reports" post_A)
       busy_world)
  = Ok [x68; x69].
Proof.
  apply (submitted_report_is_fetched strftime_Ymd parse_as_B join "reports"
           decimal_id post_A report_B "4" busy_world); try reflexivity.
  - apply (bool_decide_unpack _). vm_compute. reflexivity.
  - discriminate.
  - right. reflexivity.
  - discriminate.
Defined.

(** ** Fetching after compaction *)

Section CompactedProofs.

Variable filepath_Join : string -> string -> string.
Variable id_of_text : string -> option Z.

(** X9. Once [pruneUnchanged] has run, with nothing failing, the raw report
    of a row in state "unchanged" can no longer be fetched: [getYAML] on its
    id looks for the file "pruned" below the prefix and, when there is no
    such file, returns the error of the failed read. *)
Theorem compacted_report_is_not_fetched prefix verbose id r w :
  db_open w = true -> quiet w = true -> store_wf (store w) ->
  r ∈ reports (store w) -> r_state r = "unchanged" ->
  id_of_text id = Some (r_id r) ->
  fs w !! filepath_Join prefix "pruned" = None ->
  eval (getYAML filepath_Join id_of_text prefix id)
    (exec (pruneUnchanged filepath_Join prefix verbose) w)
  = Err ErrNotExist.
Proof.
  intros Ho Hq Hwf Hr Hst Hid Hnone. unfold eval, exec.
  destruct (pruneUnchanged_quiet filepath_Join prefix verbose w Ho Hq)
    as (w' & -> & Hq1 & Ho1 & _ & Hs & Hf). simpl.
  rewrite (getYAML_quiet filepath_Join id_of_text) by done.
  assert (sql_select_yaml id_of_text id (store w') = Some "pruned") as ->.
  { rewrite Hs. unfold sql_select_yaml, sql_mark_unchanged_pruned. simpl.
    rewrite find_fmap_same.
    2: { intros x. by destruct (decide (r_state x = "unchanged")). }
    destruct (List.find _ (reports (store w))) as [r0|] eqn:E.
    - apply find_some in E as [Hin Hr0]. apply list_elem_of_In in Hin.
      apply bool_decide_eq_true in Hr0.
      assert (r0 = r) as ->.
      { destruct Hwf as (_ & _ & _ & Hn & _).
        apply (NoDup_fmap_eq r_id (reports (store w))); [done..|congruence]. }
      simpl. by rewrite decide_True.
    - exfalso. eapply find_none in E; [|by apply list_elem_of_In].
      simpl in E. by rewrite bool_decide_eq_true_2 in E. }
  simpl. rewrite ioutil_ReadFile_quiet by solve_quiet. simpl.
  rewrite Hf. by rewrite without_artifacts_none.
Qed.

End CompactedProofs.

Lemma compacted_report_is_not_fetched_witness :
  eval (getYAML join decimal_id "reports" "3")
    (exec (pruneUnchanged join "reports" false) busy_world)
  = Err ErrNotExist.
Proof.
  apply (compacted_report_is_not_fetched join decimal_id "reports" false "3"
           (mkReport 3 1 "web01" "unchanged" "web01/H3" "3" 1705990000 "web"
              "main" 7 10 0 0 0) busy_world); try reflexivity.
  - apply (bool_decide_unpack _). vm_compute. reflexivity.
  - apply list_elem_of_In. simpl. auto.
Defined.

(** ** The asynchronous path does what the synchronous path does *)

Section AsyncProofs.

Variable date_key : Z -> string.
Variable ParsePuppetReport : list byte -> result PuppetReport.
Variable filepath_Join : string -> string -> string.
Variable ReportPrefix : string.

Lemma updateHistory_store_det d state w1 w2 :
  db_open w1 = true -> quiet w1 = true -> db_open w2 = true -> quiet w2 = true ->
  history_wf (store w1) = true -> store w1 = store w2 ->
  store (exec (updateHistory date_key d state) w1)
  = store (exec (updateHistory date_key d state) w2).
Proof.
  intros Ho1 Hq1 Ho2 Hq2 Hwf Hs. unfold exec.
  destruct (increments state) as [[f c] u] eqn:Hi.
  destruct (sql_lookup_history (date_key d) (store w1)) as [id|] eqn:Hl.
  - rewrite (updateHistory_quiet_hit date_key d state w1 id f c u) by done.
    rewrite (updateHistory_quiet_hit date_key d state w2 id f c u)
      by (done || by rewrite <- Hs).
    simpl. by rewrite Hs.
  - rewrite (updateHistory_quiet_miss date_key d state w1 f c u) by done.
    rewrite (updateHistory_quiet_miss date_key d state w2 f c u)
      by (done || by rewrite <- Hs).
    simpl. by rewrite Hs.
Qed.

Lemma addDB_store_det data path w1 w2 :
  db_open w1 = true -> quiet w1 = true -> db_open w2 = true -> quiet w2 = true ->
  hosts_wf (store w1) = true -> history_wf (store w1) = true ->
  store w1 = store w2 -> clock w1 = clock w2 ->
  store (exec (addDB date_key data path) w1)
  = store (exec (addDB date_key data path) w2).
Proof.
  intros Ho1 Hq1 Ho2 Hq2 Hh Hwf Hs Hc.
  destruct (addDB_quiet date_key data path w1 Ho1 Hq1 Hh)
    as (h1 & pre1 & v1 & Hh1 & _ & Hov1 & Hqv1 & _ & _ & Hsv1 & _ & Hrun1).
  assert (hosts_wf (store w2) = true) as Hh' by (by rewrite <- Hs).
  destruct (addDB_quiet date_key data path w2 Ho2 Hq2 Hh')
    as (h2 & pre2 & v2 & Hh2 & _ & Hov2 & Hqv2 & _ & _ & Hsv2 & _ & Hrun2).
  rewrite <- Hs in Hh2, Hsv2. rewrite <- Hc in Hsv2, Hrun2.
  assert (h2 = h1) as -> by congruence.
  unfold exec at 1 2. rewrite Hrun1, Hrun2. cbn [snd].
  apply updateHistory_store_det; try done; [|congruence].
  rewrite <- Hwf. apply history_wf_ext; rewrite Hsv1; simpl;
    by destruct (host_of (Fqdn data) (store w1)).
Qed.

Lemma discard_run2 {A B} (m1 : M A) (m2 : M B) (w : World) :
  (let '(_, w1) := m1 w in let '(_, w2) := m2 w1 in (mret tt : M unit) w2).2
  = exec m2 (exec m1 w).
Proof. unfold exec. destruct (m1 w) as [a w1]. simpl. by destruct (m2 w1). Qed.

(** A token whose staged bytes are a fresh report: everything up to the
    call of [addDB], and the removal that follows it. *)
Lemma saver_fresh uuid content report w :
  db_open w = true -> quiet w = true ->
  fs w !! filepath_Join "/tmp/" uuid = Some (File content) ->
  ParsePuppetReport content = Ok report ->
  let dir := filepath_Join ReportPrefix (Fqdn report) in
  let path := filepath_Join dir (Hash report) in
  fs w !! path = None -> path ≠ dir ->
  fs w !! dir = None ∨ fs w !! dir = Some Dir ->
  ∃ wm,
    db_open wm = true ∧ quiet wm = true ∧ store wm = store w ∧
    clock wm = clock w ∧
    fs wm !! path = Some (File content) ∧
    (∀ q, q ≠ path -> q ≠ dir -> fs wm !! q = fs w !! q) ∧
    exec (AsyncReportSubmissionSaver date_key ParsePuppetReport filepath_Join
            ReportPrefix uuid) w
    = exec (os_Remove ("/tmp/" +:+ uuid))
        (exec (addDB date_key report
                 (filepath_Join (Fqdn report) (Hash report))) wm).
Proof.
  intros Ho Hq Hf Hp dir path Hn Hne Hd.
  unfold exec at 1. unfold AsyncReportSubmissionSaver.
  run_fs. rewrite Hf. run_fs. rewrite Hp. run_fs.
  fold dir path. cbn [fs tick set_sched].
  destruct Hd as [Ed|Ed]; rewrite Ed; run_fs; cbn [fs tick set_sched set_fs].
  - rewrite Ed. run_fs. cbn [fs tick set_sched set_fs].
    rewrite lookup_insert_ne by done. rewrite Hn. run_fs.
    cbn [fs tick set_sched set_fs].
    rewrite lookup_insert_ne by done. rewrite Hn. run_fs.
    eexists. split_and!; [| | | | | |apply discard_run2]; try done.
    + simpl. solve_quiet.
    + simpl. apply lookup_insert_eq.
    + intros q Hq1 Hq2. simpl. by rewrite !lookup_insert_ne.
  - rewrite Hn. run_fs. cbn [fs tick set_sched set_fs]. rewrite Hn. run_fs.
    eexists. split_and!; [| | | | | |apply discard_run2]; try done.
    + simpl. solve_quiet.
    + simpl. apply lookup_insert_eq.
    + intros q Hq1 Hq2. simpl. by rewrite lookup_insert_ne.
Qed.

Lemma AsyncReportSubmissionHandler_quiet b req w :
  quiet w = true -> Method req = "POST" ->
  fs w !! filepath_Join "/tmp/" (staging_name b) = None ->
  AsyncReportSubmissionHandler filepath_Join b req w
  = ((Written (queued_reply (staging_name b)), [staging_name b]),
     set_fs (<[filepath_Join "/tmp/" (staging_name b) := File (Body req)]> (fs w))
       (tick (tick w))).
Proof.
  intros Hq Hm Hn. unfold AsyncReportSubmissionHandler.
  rewrite Hm, String.eqb_refl. cbn [negb]. run_fs.
  cbn [fs tick set_sched]. rewrite Hn. run_fs. reflexivity.
Qed.

(** X10. An asynchronous submission, once a worker has processed its token,
    has done what the synchronous submission of the same bytes does: with
    nothing failing and a fresh report, the handler acknowledges with the
    token without touching the store, and after the worker has run the
    store equals the store the synchronous handler leaves, the artifact
    holds the submitted bytes, and the staging file is gone. *)
Theorem async_submission_equals_sync b req report w :
  db_open w = true -> quiet w = true -> store_wf (store w) ->
  Method req = "POST" -> ParsePuppetReport (Body req) = Ok report ->
  let uuid := staging_name b in
  let tmp := filepath_Join "/tmp/" uuid in
  let dir := filepath_Join ReportPrefix (Fqdn report) in
  let path := filepath_Join dir (Hash report) in
  fs w !! path = None -> path ≠ dir ->
  fs w !! dir = None ∨ fs w !! dir = Some Dir ->
  fs w !! tmp = None -> tmp ≠ path -> tmp ≠ dir ->
  tmp = "/tmp/" +:+ uuid ->
  let queued := eval (AsyncReportSubmissionHandler filepath_Join b req) w in
  let wa := exec (AsyncReportSubmissionHandler filepath_Join b req) w in
  let wb := exec (AsyncReportSubmissionWorker date_key ParsePuppetReport
                    filepath_Join ReportPrefix queued.2) wa in
  let ws := exec (ReportSubmissionHandler date_key ParsePuppetReport
                    filepath_Join ReportPrefix req) w in
  queued = (Written (queued_reply uuid), [uuid]) ∧
  store wa = store w ∧
  store wb = store ws ∧
  fs wb !! path = Some (File (Body req)) ∧
  fs wb !! tmp = None.
Proof.
  intros Ho Hq Hwf Hm Hp uuid tmp dir path Hn Hne Hd Ht Htp Htd Htmp
    queued wa wb ws.
  pose proof (store_wf_hosts_wf _ Hwf) as Hh.
  pose proof (store_wf_history_wf _ Hwf) as Hhi.
  assert (Hrun : AsyncReportSubmissionHandler filepath_Join b req w
                 = ((Written (queued_reply uuid), [uuid]),
                    set_fs (<[tmp := File (Body req)]> (fs w)) (tick (tick w))))
    by (by apply AsyncReportSubmissionHandler_quiet).
  assert (Hqd : queued = (Written (queued_reply uuid), [uuid])).
  { subst queued. unfold eval. by rewrite Hrun. }
  assert (Hwa : wa = set_fs (<[tmp := File (Body req)]> (fs w)) (tick (tick w))).
  { subst wa. unfold exec. by rewrite Hrun. }
  assert (Hoa : db_open wa = true) by (by rewrite Hwa).
  assert (Hqa : quiet wa = true) by (rewrite Hwa; simpl; solve_quiet).
  assert (Hfa : fs wa !! tmp = Some (File (Body req)))
    by (rewrite Hwa; simpl; apply lookup_insert_eq).
  assert (Hna : fs wa !! path = None)
    by (rewrite Hwa; simpl; by rewrite lookup_insert_ne).
  assert (Hda : fs wa !! dir = None ∨ fs wa !! dir = Some Dir)
    by (rewrite Hwa; simpl; by rewrite lookup_insert_ne).
  destruct (saver_fresh uuid (Body req) report wa Hoa Hqa Hfa Hp Hna Hne Hda)
    as (wm & Hom & Hqm & Hsm & Hcm & Hfm & Hfo & Hsaver).
  destruct (handler_fresh date_key ParsePuppetReport filepath_Join ReportPrefix
              req report w Ho Hq Hm Hp Hn Hne Hd)
    as (wn & Hon & Hqn & Hsn & _ & Hcn & _ & _ & Hsync).
  assert (Hsa : store wa = store w) by (by rewrite Hwa).
  assert (Hca : clock wa = clock w) by (by rewrite Hwa).
  set (rel := filepath_Join (Fqdn report) (Hash report)) in *.
  assert (Hhm : hosts_wf (store wm) = true) by (by rewrite Hsm, Hsa).
  assert (Him : history_wf (store wm) = true) by (by rewrite Hsm, Hsa).
  destruct (addDB_effect date_key report rel wm Hom Hqm Hhm Him)
    as (hid & h' & new & _ & _ & _ & _ & _ & _ & _ & Hfs1 & Hq1 & _).
  set (w1 := exec (addDB date_key report rel) wm) in *.
  assert (Hwb : wb = exec (os_Remove ("/tmp/" +:+ uuid)) w1).
  { subst wb. rewrite Hqd. simpl. rewrite <- Hsaver.
    unfold exec. rewrite bind_run.
    by destruct (AsyncReportSubmissionSaver _ _ _ _ _ _). }
  assert (Hex : fs w1 !! tmp = Some (File (Body req))).
  { rewrite Hfs1, Hfo by done. exact Hfa. }
  rewrite <- Htmp in Hwb. unfold exec in Hwb.
  rewrite os_Remove_quiet, Hex in Hwb by done. simpl in Hwb.
  split_and!.
  - done.
  - done.
  - rewrite Hwb. simpl. subst ws w1. unfold exec at 2. rewrite Hsync. cbn [snd].
    apply addDB_store_det; try done; congruence.
  - rewrite Hwb. simpl. rewrite lookup_delete_ne by done. by rewrite Hfs1.
  - rewrite Hwb. simpl. apply lookup_delete_eq.
Qed.

End AsyncProofs.

Lemma async_submission_equals_sync_witness :
  let b := replicate 16 x00 in
  let wa := exec (AsyncReportSubmissionHandler join b post_A) busy_world in
  store (exec (AsyncReportSubmissionWorker strftime_Ymd parse_as_B join "reports"
                 [staging_name b]) wa)
  = store (exec (ReportSubmissionHandler strftime_Ymd parse_as_B join "reports"
                   post_A) busy_world).
Proof.
  pose proof (async_submission_equals_sync strftime_Ymd parse_as_B join "reports"
                (replicate 16 x00) post_A report_B busy_world
                ltac:(reflexivity) ltac:(reflexivity)
                ltac:(apply (bool_decide_unpack _); vm_compute; reflexivity)
                ltac:(reflexivity) ltac:(reflexivity) ltac:(reflexivity)
                ltac:(discriminate) ltac:(right; reflexivity)
                ltac:(reflexivity) ltac:(discriminate) ltac:(discriminate)
                ltac:(reflexivity)) as (_ & _ & H & _).
  exact H.
Defined.

(** ** The history graph *)

#[global] Instance str_le_trans : Transitive str_le.
Proof. intros a b c. unfold str_le. apply string_leb_trans. Qed.

#[global] Instance str_le_total : base.Total str_le.
Proof. intros a b. unfold str_le. apply String.leb_total. Qed.

Lemma getHistory_quiet w :
  db_open w = true -> quiet w = true ->
  getHistory w = (Ok (history_bar <$> sql_select_history (store w)), tick (tick w)).
Proof.
  intros Ho Hq. unfold getHistory, db_is_nil.
  rewrite bind_run, Ho; simpl. run. reflexivity.
Qed.

Lemma StronglySorted_fmap_date (l : list History) :
  StronglySorted date_le l -> StronglySorted str_le (date <$> l).
Proof.
  induction 1 as [|b l Hl IH Hb]; csimpl; constructor; [done|].
  apply Forall_fmap. eapply Forall_impl; [exact Hb|]. done.
Qed.

Lemma pruneHistory_store_quiet w :
  db_open w = true -> quiet w = true ->
  (14 < length (history (store w)))%nat ->
  store (exec pruneHistory w)
  = sql_delete_history
      (sql_oldest_history (sql_count_history (store w) - 14) (store w)) (store w).
Proof.
  intros Ho Hq Hlen. unfold exec. rewrite pruneHistory_quiet by done.
  unfold sql_count_history.
  destruct (Z.leb_spec (Z.of_nat (length (history (store w)))) 14); [lia|done].
Qed.

(** X11. [getHistory], with nothing failing, returns one bar per bucket in
    ascending order of date.  After [pruneHistory] it returns the last 14
    bars of what it returned before (all of them when there were at most
    14): retention cuts the graph at its old end and alters no bar that
    stays. *)
Theorem history_graph_after_retention w :
  db_open w = true -> quiet w = true -> store_wf (store w) ->
  ∃ bars,
    eval getHistory w = Ok bars ∧
    bars ≡ₚ history_bar <$> history (store w) ∧
    StronglySorted str_le (g_Date <$> bars) ∧
    eval getHistory (exec pruneHistory w) = Ok (drop (length bars - 14) bars).
Proof.
  intros Ho Hq Hwf.
  set (H := history (store w)). set (S := merge_sort date_le H).
  exists (history_bar <$> S).
  assert (HS : StronglySorted date_le S)
    by (apply StronglySorted_merge_sort; apply _).
  assert (HP : S ≡ₚ H) by apply merge_sort_Permutation.
  unfold eval. rewrite getHistory_quiet by done. simpl. split_and!.
  - done.
  - by rewrite HP.
  - rewrite <- list_fmap_compose. by apply StronglySorted_fmap_date.
  - rewrite length_fmap, (Permutation_length HP).
    destruct (decide (length H ≤ 14)%nat) as [Hle|Hgt].
    + replace (length H - 14)%nat with 0%nat by lia. simpl.
      unfold exec. rewrite pruneHistory_quiet by done. unfold sql_count_history.
      fold H. destruct (Z.leb_spec (Z.of_nat (length H)) 14); [|lia]. simpl.
      rewrite getHistory_quiet by solve_quiet. reflexivity.
    + assert (14 < length H)%nat as Hlt by lia.
      pose proof (pruneHistory_store_quiet w Ho Hq Hlt) as Hst.
      assert (Hq' : quiet (exec pruneHistory w) = true
                    ∧ db_open (exec pruneHistory w) = true).
      { unfold exec. rewrite pruneHistory_quiet by done. unfold sql_count_history.
        fold H. destruct (Z.leb_spec (Z.of_nat (length H)) 14); [lia|]. simpl.
        split; [solve_quiet | done]. }
      destruct Hq' as [Hq' Ho'].
      rewrite getHistory_quiet by done. simpl. f_equal.
      rewrite <- fmap_drop. f_equal.
      unfold sql_select_history. rewrite Hst.
      unfold sql_delete_history, sql_oldest_history, sql_count_history. simpl.
      fold H S.
      replace (Z.to_nat (Z.of_nat (length H) - 14)) with (length H - 14)%nat by lia.
      set (p := (length H - 14)%nat).
      destruct Hwf as (_ & _ & _ & _ & _ & Hids & Hdates & _).
      fold H in Hids, Hdates.
      pose proof (delete_first_perm hi_id date_le H Hids p) as Hperm.
      fold S in Hperm.
      apply StronglySorted_unique_strong with (R := date_le).
      * intros x1 x2 Hx1 Hx2 H12 H21.
        rewrite merge_sort_Permutation in Hx1.
        apply list_elem_of_filter in Hx1 as [_ Hx1].
        assert (x2 ∈ H) as Hx2'.
        { rewrite <- HP, <- (take_drop p S). apply elem_of_app. by right. }
        apply (NoDup_fmap_eq date H); [done..|].
        by apply String.leb_antisym.
      * apply StronglySorted_merge_sort; apply _.
      * rewrite <- (take_drop p S) in HS. by apply StronglySorted_app_1_r in HS.
      * by rewrite merge_sort_Permutation.
Qed.

Lemma history_graph_after_retention_witness :
  ∃ bars,
    eval getHistory twenty_buckets_world = Ok bars ∧
    length bars = 20%nat ∧
    eval getHistory (exec pruneHistory twenty_buckets_world) = Ok (drop 6 bars).
Proof.
  destruct (history_graph_after_retention twenty_buckets_world
              ltac:(reflexivity) ltac:(reflexivity)
              ltac:(apply (bool_decide_unpack _); vm_compute; reflexivity))
    as (bars & H1 & H2 & _ & H4).
  exists bars. split; [done|].
  assert (length bars = 20%nat) as Hl.
  { rewrite (Permutation_length H2). reflexivity. }
  split; [done|]. by rewrite Hl in H4.
Defined.

(** ** The states of the fleet *)

Lemma fold_count_lookup (nodes : list PuppetRuns) (m0 : gmap string Z) k :
  default 0 (foldl count_state m0 nodes !! k)
  = default 0 (m0 !! k)
    + Z.of_nat (length (filter (fun o => n_State o = k) nodes)).
Proof.
  revert m0. induction nodes as [|o nodes IH]; intros m0; simpl; [lia|].
  rewrite IH. unfold count_state. rewrite lookup_insert, filter_cons.
  destruct (decide (n_State o = k)) as [->|Hne]; simpl; lia.
Qed.

Lemma fold_count_dom (nodes : list PuppetRuns) (m0 : gmap string Z) k :
  is_Some (foldl count_state m0 nodes !! k)
  ↔ is_Some (m0 !! k) ∨ k ∈ n_State <$> nodes.
Proof.
  revert m0. induction nodes as [|o nodes IH]; intros m0; csimpl.
  - split; [by left|]. intros [H|H]; [done|]. by apply not_elem_of_nil in H.
  - rewrite IH. unfold count_state. rewrite lookup_insert, elem_of_cons.
    destruct (decide (n_State o = k)) as [->|Hne]; simpl.
    + split; [intros _; right; by left | intros _; left; by eexists].
    + split; intros [H|H]; auto. destruct H as [H|H]; auto. congruence.
Qed.

Lemma sum_indicator (keys : list string) (a : string) :
  NoDup keys -> a ∈ keys ->
  foldr Z.add 0 ((fun k => if decide (a = k) then 1 else 0) <$> keys) = 1.
Proof.
  induction 1 as [|k keys Hk Hn IH]; intros Ha; [by apply not_elem_of_nil in Ha|].
  csimpl. apply elem_of_cons in Ha as [->|Ha].
  - rewrite decide_True by done.
    assert (foldr Z.add 0 ((fun k0 => if decide (k = k0) then 1 else 0) <$> keys) = 0)
      as ->; [|lia].
    clear IH Hn. induction keys as [|k' keys IH]; [done|]. csimpl.
    apply not_elem_of_cons in Hk as [Hne Hk].
    rewrite decide_False by done. rewrite IH by done. lia.
  - rewrite decide_False by (intros ->; done). rewrite IH by done. lia.
Qed.

Lemma sum_partition (keys : list string) (l : list Host) :
  NoDup keys -> (∀ h, h ∈ l -> h_state h ∈ keys) ->
  foldr Z.add 0
    ((fun k => Z.of_nat (length (filter (fun h => h_state h = k) l))) <$> keys)
  = Z.of_nat (length l).
Proof.
  intros Hn. induction l as [|x l IH]; intros Hl.
  - clear. induction keys as [|k keys IH]; [done|].
    rewrite fmap_cons. cbn [foldr]. rewrite IH. done.
  - assert (Hx : h_state x ∈ keys) by (apply Hl; by left).
    assert (Hl' : ∀ h, h ∈ l -> h_state h ∈ keys) by (intros h Hh; apply Hl; by right).
    specialize (IH Hl'). pose proof (sum_indicator keys (h_state x) Hn Hx) as Hi.
    simpl length. rewrite Nat2Z.inj_succ, <- IH, <- Z.add_1_l, <- Hi.
    clear. induction keys as [|k keys IHk]; [done|].
    rewrite !fmap_cons. cbn [foldr]. rewrite IHk, filter_cons.
    destruct (decide (h_state x = k)); simpl length; lia.
Qed.

Section StatesProofs.

Variable timeRelative : string -> string.
Variable time_Format : Z -> string.
Variable float64 : Type.
Variable float_zero : float64.
Variable percentage : Z -> Z -> float64.

(** X12. [getStates], with nothing failing, returns one entry per state in
    ascending order and without repetition: the four known states, present
    even when no host is in them, and every other state some host is in.
    The count of an entry is the number of hosts in that state, and the
    counts add up to the number of hosts. *)
Theorem getStates_counts_hosts w :
  db_open w = true -> quiet w = true ->
  ∃ data : list (PuppetState float64),
    eval (getStates timeRelative time_Format float64 float_zero percentage) w
      = Ok data ∧
    StronglySorted str_le (p_State <$> data) ∧
    NoDup (p_State <$> data) ∧
    (∀ name, name ∈ p_State <$> data ↔
             name ∈ ["changed"; "unchanged"; "failed"; "orphaned"] ∨
             name ∈ h_state <$> hosts (store w)) ∧
    (∀ e, e ∈ data -> p_Count e = hosts_in_state (p_State e) (store w)) ∧
    sum_counts data = Z.of_nat (length (hosts (store w))).
Proof.
  intros Ho Hq. unfold eval, getStates.
  rewrite bind_run, (getIndexNodes_quiet timeRelative time_Format) by done.
  cbn beta iota. rewrite ret_run. cbn [fst].
  set (nodes := index_node timeRelative time_Format <$> hosts (store w)).
  set (m := foldl count_state known_states nodes).
  set (keys := merge_sort str_le (map_to_list m).*1).
  assert (Hstates : n_State <$> nodes = h_state <$> hosts (store w)).
  { unfold nodes. rewrite <- list_fmap_compose. apply list_fmap_ext.
    intros i h _. apply index_node_state. }
  assert (Hcount : ∀ k, default 0 (m !! k) = hosts_in_state k (store w)).
  { intros k. unfold m. rewrite fold_count_lookup.
    assert (default 0 (known_states !! k) = 0) as ->.
    { unfold known_states. rewrite !lookup_insert.
      repeat case_decide; try done; by rewrite lookup_empty. }
    unfold hosts_in_state, nodes. rewrite Z.add_0_l. f_equal.
    clear. induction (hosts (store w)) as [|h l IH]; [done|]. csimpl.
    rewrite !filter_cons, index_node_state.
    destruct (decide (h_state h = k)); simpl; by rewrite IH. }
  assert (Hkeys : ∀ k, k ∈ keys ↔
                       k ∈ ["changed"; "unchanged"; "failed"; "orphaned"] ∨
                       k ∈ h_state <$> hosts (store w)).
  { intros k. unfold keys. rewrite merge_sort_Permutation.
    rewrite list_elem_of_fmap. rewrite <- Hstates.
    transitivity (is_Some (m !! k)).
    - split.
      + intros ([k' v] & -> & Hin). apply elem_of_map_to_list in Hin. by eexists.
      + intros [v Hv]. exists (k, v). split; [done|]. by apply elem_of_map_to_list.
    - unfold m. rewrite fold_count_dom. apply or_iff_compat_r.
      unfold known_states. rewrite !lookup_insert.
      rewrite !elem_of_cons, elem_of_nil.
      repeat case_decide; subst; split; intros Hx;
        try (by eexists); try (by auto 6);
        try (rewrite lookup_empty in Hx; by destruct Hx);
        destruct Hx as [?|[?|[?|[?|[]]]]]; congruence. }
  assert (Hnd : NoDup keys).
  { unfold keys. rewrite merge_sort_Permutation. apply NoDup_fst_map_to_list. }
  eexists. split; [reflexivity|].
  rewrite <- !list_fmap_compose.
  assert (Hid : (@p_State float64 ∘
                 (fun name => mkPuppetState float64 name (default 0 (m !! name))
                    (if Z.of_nat (length nodes) =? 0 then float_zero
                     else percentage (default 0 (m !! name))
                            (Z.of_nat (length nodes))))) <$> keys = keys).
  { rewrite <- (list_fmap_id keys) at 2. by apply list_fmap_ext. }
  rewrite Hid. split_and!.
  - apply StronglySorted_merge_sort; apply _.
  - done.
  - exact Hkeys.
  - intros e (k & -> & Hk)%list_elem_of_fmap. simpl. apply Hcount.
  - unfold sum_counts. rewrite <- list_fmap_compose.
    erewrite list_fmap_ext.
    + apply (sum_partition keys (hosts (store w)) Hnd).
      intros h Hh. apply Hkeys. right. apply list_elem_of_fmap. eauto.
    + intros i k _. simpl. apply Hcount.
Qed.

End StatesProofs.

Lemma getStates_counts_hosts_witness :
  ∃ data : list (PuppetState unit),
    eval (getStates (fun s => s) pretty unit tt (fun _ _ => tt)) busy_world
      = Ok data ∧
    (fun e => (p_State e, p_Count e)) <$> data
      = [("changed", 1); ("failed", 0); ("orphaned", 1); ("unchanged", 0)].
Proof.
  destruct (getStates_counts_hosts (fun s => s) pretty unit tt (fun _ _ => tt)
              busy_world ltac:(reflexivity) ltac:(reflexivity))
    as (data & H & _).
  exists data. split; [exact H|].
  assert (Ok data = eval (getStates (fun s => s) pretty unit tt (fun _ _ => tt))
                      busy_world) as E by (by rewrite H).
  vm_compute in E. injection E as ->. reflexivity.
Defined.

(** ** An acknowledged submission is final *)

Lemma triple_ret {A} (a : A) (P : World -> Prop) (Q : A -> World -> Prop) :
  (∀ w, P w -> Q a w) -> triple P (mret a) Q.
Proof. intros H w HP. by apply H. Qed.

Lemma triple_bind {A B} (m : M A) (f : A -> M B) P (R : A -> World -> Prop)
    (Q : B -> World -> Prop) :
  triple P m R -> (∀ a, triple (R a) (f a) Q) -> triple P (m ≫= f) Q.
Proof.
  intros Hm Hf w HP. specialize (Hm w HP).
  unfold exec, eval in *. rewrite bind_run.
  destruct (m w) as [a w1]. simpl in *. by apply Hf.
Qed.

Lemma fs_stable_ret {A} (a : A) : fs_stable (mret a : M A).
Proof. by intros w. Qed.

Lemma fs_stable_bind {A B} (m : M A) (f : A -> M B) :
  fs_stable m -> (∀ a, fs_stable (f a)) -> fs_stable (m ≫= f).
Proof.
  intros Hm Hf w. specialize (Hm w). unfold exec in *. rewrite bind_run.
  destruct (m w) as [a w1]. simpl in *. rewrite <- Hm. apply Hf.
Qed.

Lemma fs_stable_next_event : fs_stable next_event.
Proof.
  intros w. unfold exec, next_event. by destruct (sched w) as [|[| |o] k].
Qed.

Lemma fs_stable_get_store : fs_stable get_store.
Proof. by intros w. Qed.

Lemma fs_stable_commit s : fs_stable (commit s).
Proof. by intros w. Qed.

Lemma fs_stable_db_is_nil : fs_stable db_is_nil.
Proof. by intros w. Qed.

Lemma fs_stable_time_Now_Unix : fs_stable time_Now_Unix.
Proof. by intros w. Qed.

Ltac fs_step :=
  first
    [ apply fs_stable_ret | apply fs_stable_next_event
    | apply fs_stable_get_store | apply fs_stable_commit
    | apply fs_stable_db_is_nil | apply fs_stable_time_Now_Unix
    | apply fs_stable_bind; [|intros ?]
    | match goal with
      | |- fs_stable (match ?x with _ => _ end) => destruct x
      end ].

Lemma fs_stable_db_Exec stmt : fs_stable (db_Exec stmt).
Proof. unfold db_Exec. repeat fs_step. Qed.

Lemma fs_stable_db_QueryRow {A} (q : Store -> option A) :
  fs_stable (db_QueryRow q).
Proof. unfold db_QueryRow. repeat fs_step. Qed.

Lemma fs_stable_db_Prepare : fs_stable db_Prepare.
Proof. unfold db_Prepare. repeat fs_step. Qed.

Lemma fs_stable_db_Begin : fs_stable db_Begin.
Proof. unfold db_Begin. repeat fs_step. Qed.

Lemma fs_stable_tx_Exec tx stmt : fs_stable (tx_Exec tx stmt).
Proof. unfold tx_Exec. repeat fs_step. Qed.

Lemma fs_stable_tx_Commit tx : fs_stable (tx_Commit tx).
Proof. unfold tx_Commit. repeat fs_step. Qed.

Ltac fs_db :=
  repeat first
    [ apply fs_stable_db_Exec | apply fs_stable_db_QueryRow
    | apply fs_stable_db_Prepare | apply fs_stable_db_Begin
    | apply fs_stable_tx_Exec | apply fs_stable_tx_Commit
    | fs_step ].

Lemma fs_stable_getHostId fqdn : fs_stable (getHostId fqdn).
Proof. unfold getHostId. fs_db. Qed.

Lemma fs_stable_createHost fqdn : fs_stable (createHost fqdn).
Proof. unfold createHost. fs_db. Qed.

Lemma fs_stable_updateHistory date_key d state :
  fs_stable (updateHistory date_key d state).
Proof. unfold updateHistory. fs_db. Qed.

Lemma fs_stable_addDB date_key data path : fs_stable (addDB date_key data path).
Proof.
  unfold addDB. fs_db.
Qed.

Lemma triple_any {A} (m : M A) (P : World -> Prop) :
  triple P m (fun _ _ => True).
Proof. by intros w _. Qed.

Lemma written_WriteFile p c :
  triple (fun _ => True) (ioutil_WriteFile p c)
    (fun e w => e = None -> fs w !! p = Some (File c)).
Proof.
  intros w _. unfold eval, exec, ioutil_WriteFile. rewrite bind_run.
  destruct (next_event w) as [[] w1]; simpl; [done|].
  rewrite bind_run. unfold get_fs.
  destruct (fs w1 !! p) as [[]|]; simpl; intros; try done;
    apply lookup_insert_eq.
Qed.

Lemma lookup_stable {A} (m : M A) p v :
  fs_stable m ->
  triple (fun w => fs w !! p = v) m (fun _ w => fs w !! p = v).
Proof. intros Hm w Hw. by rewrite Hm. Qed.

Lemma triple_assume {A} (φ : Prop) (m : M A) (Q : A -> World -> Prop) :
  (φ -> triple (fun _ => True) m Q) -> triple (fun _ => φ) m Q.
Proof. intros H w Hφ. by apply H. Qed.

Lemma triple_assume_r {A} (P : World -> Prop) (φ : Prop) (m : M A)
    (Q : A -> World -> Prop) :
  (φ -> triple P m Q) -> triple (fun w => P w ∧ φ) m Q.
Proof. intros H w [HP Hφ]. by apply H. Qed.

Section Found.

Context (s : Store) (p : string).

Lemma found_tick w : found s p w -> found s p (tick w).
Proof. intros (Hi & Hs & Hf). split_and!; [by apply isolated_tick|done..]. Qed.

Lemma found_ReadAll b :
  triple (found s p) (ioutil_ReadAll b)
    (fun c w => found s p w ∧ (c = Ok b ∨ ∃ e, c = Err e)).
Proof.
  intros w Hw. destruct (next_event_isolated w (proj1 Hw)) as [failed E].
  unfold eval, exec, ioutil_ReadAll. rewrite bind_run, E. simpl.
  split; [by apply found_tick|]. destruct failed; eauto.
Qed.

Lemma found_Exists n :
  triple (found s p) (Exists n) (fun b w => found s p w ∧ (n = p -> b = true)).
Proof.
  intros w Hw. destruct (next_event_isolated w (proj1 Hw)) as [failed E].
  unfold eval, exec, Exists. rewrite bind_run, E.
  apply found_tick in Hw. destruct failed; simpl; [done|].
  split; [done|]. intros ->. destruct Hw as (_ & _ & [v Hv]).
  simpl in Hv. by rewrite Hv.
Qed.

Lemma found_os_MkdirAll d :
  triple (found s p) (os_MkdirAll d) (fun _ w => found s p w).
Proof.
  intros w Hw. destruct (next_event_isolated w (proj1 Hw)) as [failed E].
  unfold eval, exec, os_MkdirAll. rewrite bind_run, E.
  apply found_tick in Hw. destruct failed; simpl; [done|].
  destruct Hw as (Hi & Hs & Hf). rewrite bind_run. unfold get_fs.
  destruct (fs (tick w) !! d) as [[]|] eqn:Ed; simpl; split_and!; try done.
  all: cbn [fs set_fs]; rewrite lookup_insert; case_decide; [by eexists | done].
Qed.

End Found.

Section Final.

Variable date_key : Z -> string.
Variable ParsePuppetReport : list byte -> result PuppetReport.
Variable filepath_Join : string -> string -> string.
Variable ReportPrefix : string.

(** X13. The answer [{"host":...}] of [ReportSubmissionHandler] means that
    the artifact is on disk, whether or not [addDB] recorded the report: the
    handler drops the error of [addDB].  And with the artifact on disk, a
    submission of the same report never reaches the database, whatever call
    fails: it is answered as a duplicate or with an error, and the store is
    left as it was.  So a report whose recording failed is never recorded
    by submitting it again. *)
Theorem acknowledged_submission_is_final req report w :
  Method req = "POST" -> ParsePuppetReport (Body req) = Ok report ->
  let handler := ReportSubmissionHandler date_key ParsePuppetReport
                   filepath_Join ReportPrefix req in
  let path := filepath_Join (filepath_Join ReportPrefix (Fqdn report))
                (Hash report) in
  eval handler w = Written (host_reply (Fqdn report)) ->
  fs (exec handler w) !! path = Some (File (Body req)) ∧
  ∀ w2, isolated w2 = true -> is_Some (fs w2 !! path) ->
        store (exec handler w2) = store w2 ∧
        (eval handler w2 = Written "Ignoring duplicate submission" ∨
         ∃ e, eval handler w2 = HttpError e StatusInternalServerError).
Proof.
  intros Hm Hp handler path Hack. split.
  - revert Hack.
    cut (triple (fun _ => True) handler
           (fun resp w' => resp = Written (host_reply (Fqdn report)) ->
                           fs w' !! path = Some (File (Body req)))).
    { intros H. by apply H. }
    unfold handler, ReportSubmissionHandler.
    rewrite Hm, String.eqb_refl. cbn [negb].
    eapply (triple_bind _ _ _ (fun c _ => c = Ok (Body req) ∨ ∃ e, c = Err e)).
    { intros w0 _. unfold eval, ioutil_ReadAll. rewrite bind_run.
      destruct (next_event w0) as [[] w1]; simpl; eauto. }
    intros c. apply triple_assume. intros Hc. destruct c as [content|e].
    2: { apply triple_ret. intros; discriminate. }
    destruct Hc as [Hc|[e He]]; [|discriminate]. injection Hc as ->.
    rewrite Hp.
    eapply triple_bind; [apply triple_any|]. intros ex.
    eapply triple_bind; [apply triple_any|]. intros [e|].
    { apply triple_ret. intros; discriminate. }
    eapply triple_bind; [apply triple_any|]. intros [].
    { apply triple_ret. intros ? _ H. discriminate H. }
    eapply triple_bind; [apply written_WriteFile|]. intros [e|].
    { apply triple_ret. intros; discriminate. }
    eapply (triple_bind _ _ _
              (fun _ w' => fs w' !! path = Some (File (Body req)))).
    { intros w0 H0. specialize (H0 eq_refl).
      apply (lookup_stable _ _ _ (fs_stable_addDB _ _ _) w0 H0). }
    intros _. apply triple_ret. by intros.
  - intros w2 Hi Hf.
    cut (triple (found (store w2) path) handler
           (fun resp w' =>
              store w' = store w2 ∧
              (resp = Written "Ignoring duplicate submission" ∨
               ∃ e, resp = HttpError e StatusInternalServerError))).
    { intros H. by apply H. }
    unfold handler, ReportSubmissionHandler.
    rewrite Hm, String.eqb_refl. cbn [negb].
    eapply triple_bind; [apply found_ReadAll|]. intros c.
    apply triple_assume_r. intros Hc. destruct c as [content|e].
    2: { apply triple_ret. intros ? (_ & ? & _). eauto. }
    destruct Hc as [Hc|[e He]]; [|discriminate]. injection Hc as ->.
    rewrite Hp.
    eapply triple_bind; [apply found_Exists|]. intros ex.
    apply triple_assume_r. intros _.
    eapply (triple_bind _ _ _ (fun _ w' => found (store w2) path w')).
    { destruct ex; [by apply triple_ret | apply found_os_MkdirAll]. }
    intros [e|].
    { apply triple_ret. intros ? (_ & ? & _). eauto. }
    eapply triple_bind; [apply found_Exists|]. intros ex2.
    apply triple_assume_r. intros Hex. rewrite (Hex eq_refl).
    apply triple_ret. intros ? (_ & ? & _). eauto.
Qed.

End Final.

Lemma acknowledged_submission_is_final_witness :
  let handler := ReportSubmissionHandler strftime_Ymd parse_as_B join
                   "reports" post_A in
  let w1 := exec handler flaky_world in
  eval handler flaky_world = Written (host_reply "web01") ∧
  store w1 = busy_store ∧
  fs w1 !! "reports/web01/H9" = Some (File (Body post_A)) ∧
  store (exec handler w1) = busy_store.
Proof.
  intros handler w1.
  assert (Hack : eval handler flaky_world = Written (host_reply "web01"))
    by (vm_compute; reflexivity).
  destruct (acknowledged_submission_is_final strftime_Ymd parse_as_B join
              "reports" post_A report_B flaky_world
              ltac:(reflexivity) ltac:(reflexivity) Hack) as [Hf Hre].
  assert (Hs : store w1 = busy_store) by (vm_compute; reflexivity).
  destruct (Hre w1 ltac:(vm_compute; reflexivity)
              ltac:(eexists; exact Hf)) as [Hst _].
  split_and!; [exact Hack | exact Hs | exact Hf |].
  fold handler in Hst. rewrite Hst. exact Hs.
Defined.

(** ** The counters of the report table *)

Lemma countReports_quiet w :
  db_open w = true -> quiet w = true ->
  eval countReports w = (Z.of_nat (length (reports (store w))), None).
Proof.
  intros Ho Hq. unfold eval, countReports, db_is_nil.
  rewrite bind_run, Ho; simpl. rewrite bind_run, db_QueryRow_quiet by done.
  reflexivity.
Qed.

Lemma countUnchangedAndReapedReports_quiet w :
  db_open w = true -> quiet w = true ->
  eval countUnchangedAndReapedReports w = (sql_count_pruned (store w), None).
Proof.
  intros Ho Hq. unfold eval, countUnchangedAndReapedReports, db_is_nil.
  rewrite bind_run, Ho; simpl. rewrite bind_run, db_QueryRow_quiet by done.
  reflexivity.
Qed.

Section CounterProofs.

Variable filepath_Join : string -> string -> string.

(** X14. After [pruneUnchanged], with nothing failing, [countReports]
    answers as before, and [countUnchangedAndReapedReports] answers the
    number of reports that were in state "unchanged" or already had the
    pointer "pruned". *)
Theorem counters_after_pruneUnchanged prefix verbose w :
  db_open w = true -> quiet w = true ->
  let w' := exec (pruneUnchanged filepath_Join prefix verbose) w in
  eval countReports w' = eval countReports w ∧
  eval countUnchangedAndReapedReports w'
  = (Z.of_nat (length (filter (fun r => r_state r = "unchanged" ∨
                                        yaml_file r = "pruned")
                         (reports (store w)))), None).
Proof.
  intros Ho Hq w'. subst w'. unfold exec at 1 2.
  destruct (pruneUnchanged_quiet filepath_Join prefix verbose w Ho Hq)
    as (w' & -> & Hq1 & Ho1 & _ & Hs & _). cbn [snd].
  rewrite !countReports_quiet, countUnchangedAndReapedReports_quiet by done.
  rewrite Hs. unfold sql_count_pruned, sql_mark_unchanged_pruned. cbn [reports].
  split.
  - by rewrite length_fmap.
  - do 2 f_equal. induction (reports (store w)) as [|r l IH]; [done|].
    rewrite fmap_cons, !filter_cons.
    destruct (decide (r_state r = "unchanged")) as [E|E].
    + rewrite decide_True by done. rewrite decide_True by (by left).
      cbn [length]. by rewrite IH.
    + destruct (decide (yaml_file r = "pruned")) as [E'|E'].
      * rewrite decide_True by (by right). cbn [length]. by rewrite IH.
      * by rewrite decide_False by (by intros [?|?]).
Qed.

End CounterProofs.

Lemma counters_after_pruneUnchanged_witness :
  let w' := exec (pruneUnchanged join "reports" false) busy_world in
  eval countReports w' = eval countReports busy_world ∧
  eval countUnchangedAndReapedReports w'
  = (Z.of_nat (length (filter (fun r => r_state r = "unchanged" ∨
                                        yaml_file r = "pruned")
                         (reports busy_store))), None).
Proof.
  exact (counters_after_pruneUnchanged join "reports" false busy_world
           ltac:(reflexivity) ltac:(reflexivity)).
Defined.
